(** * RAW10 unpacker and DNG writer of the RPi Global Shutter Camera driver

    A shallow embedding of [util::unpackRaw10To16] (src/Util.cpp) and of
    [DngWriter::write] with its helpers (src/DngWriter.cpp), followed by the
    properties established about them.  The other pure helpers of
    src/Util.cpp ([parseBayer], [joinPath], [pixelFormatToString]) and the
    part of the frame callback of src/main.cpp that leads from the frame
    buffer to the saved file are embedded as well.

    Conventions.  Fixed-width unsigned integers are values of [Z] whose
    wrap-around is written with [to_u8], [to_u16], [to_u32] and [to_size_t];
    the width of [size_t] is the parameter [size_bits] of each section.
    Mapped memory is a [list byte]; a pointer into it is the suffix that
    starts at the pointee, so that reading past the end of the mapping has no
    value and the run is [Undefined]. *)

From Stdlib Require Import ZArith List Lia Bool String Ascii.
From Stdlib Require Import DecimalString DecimalN.
From Stdlib.Strings Require Import Byte.
Import ListNotations.
Open Scope Z_scope.

(** ** Machine integers *)

Definition to_u8 (n : Z) : Z := n mod 2 ^ 8.
Definition to_u16 (n : Z) : Z := n mod 2 ^ 16.
Definition to_u32 (n : Z) : Z := n mod 2 ^ 32.

(** A [uint8_t] loaded from memory. *)
Definition u8 (b : byte) : Z := Z.of_N (Byte.to_N b).

(** What a call leaves behind: a returned value, or no defined behaviour
    (an access outside the object it indexes, a conversion with no result). *)
Inductive outcome (A : Type) : Type :=
| Returned (a : A)
| Undefined.
Arguments Returned {A} a.
Arguments Undefined {A}.

(** [v[i]] and [v[i] = x] on a [std::vector]: [sample] reads a vector back
    when results are stated, [store] has no result outside [0 .. size). *)
Definition sample (v : list Z) (i : Z) : Z := nth (Z.to_nat i) v 0.

Definition store (v : list Z) (i : Z) (x : Z) : option (list Z) :=
  if (0 <=? i) && (i <? Z.of_nat (List.length v))
  then Some (firstn (Z.to_nat i) v ++ x :: skipn (S (Z.to_nat i)) v)
  else None.

(** [p[i]] for a pointer [p] into mapped memory. *)
Definition byte_at (p : list byte) (i : Z) : Z := u8 (nth (Z.to_nat i) p x00).

Module Util.

(** libcamera's [FrameBuffer::Plane] (offset and length in bytes) and the part
    of [FrameBuffer] the unpacker looks at.  [cookie] is the pointer main.cpp
    stores there: [None] is the null pointer, [Some m] a mapping of
    [length m] readable bytes. *)
Record Plane : Type := { plane_offset : Z; plane_length : Z }.

Record FrameBuffer : Type :=
  { planes : list Plane;
    cookie : option (list byte) }.

(** [std::toupper] on an [unsigned char], in the "C" locale the program
    starts in: the letters a..z go to A..Z, every other character stays. *)
Definition toupper (c : ascii) : ascii :=
  let n := N_of_ascii c in
  if ((97 <=? n) && (n <=? 122))%N then ascii_of_N (n - 32) else c.

(** The loop of [parseBayer] that builds [u]. *)
Fixpoint upper (s : string) : string :=
  match s with
  | EmptyString => EmptyString
  | String c s' => String (toupper c) (upper s')
  end.

(** [util::parseBayer]: the returned flag and [norm] afterwards. *)
Definition parseBayer (s norm : string) : bool * string :=
  let u := upper s in
  if (String.eqb u "RGGB" || String.eqb u "BGGR"
      || String.eqb u "GRBG" || String.eqb u "GBRG")%bool
  then (true, u)
  else (false, norm).

(** [a.back()], with [None] for the empty string. *)
Fixpoint back (a : string) : option ascii :=
  match a with
  | EmptyString => None
  | String c EmptyString => Some c
  | String _ a' => back a'
  end.

(** [util::joinPath]. *)
Definition joinPath (a b : string) : string :=
  match back a with
  | None => b
  | Some c => if Ascii.eqb c "/" then (a ++ b)%string
              else (a ++ "/" ++ b)%string
  end.

(** [char(n)] for [n] in [0 .. 255], and [util::pixelFormatToString] on the
    fourcc of the pixel format. *)
Definition char_of (n : Z) : ascii := ascii_of_N (Z.to_N n).

Definition pixelFormatToString (fourcc : Z) : string :=
  String (char_of (Z.land fourcc 0xFF))
    (String (char_of (Z.land (Z.shiftr fourcc 8) 0xFF))
       (String (char_of (Z.land (Z.shiftr fourcc 16) 0xFF))
          (String (char_of (Z.land (Z.shiftr fourcc 24) 0xFF)) EmptyString))).

Section Target.

Variable size_bits : Z.

Definition to_size_t (n : Z) : Z := n mod 2 ^ size_bits.

(** The output cursor of the unpacker: the vector and [outIdx]. *)
Definition cursor : Type := (list Z * Z)%type.

(** [if (c) dst[outIdx++] = p;] *)
Definition emit (c : bool) (p : Z) (st : cursor) : option cursor :=
  if c then
    match store (fst st) (snd st) p with
    | Some dst' => Some (dst', to_size_t (snd st + 1))
    | None => None
    end
  else Some st.

Definition and_then {A B : Type} (o : option A) (k : A -> option B) : option B :=
  match o with
  | Some a => k a
  | None => None
  end.

(** The four pixels of a five-byte group, as [uint16_t]. *)
Definition px0 (b0 b4 : Z) : Z := to_u16 (Z.lor b0 (Z.shiftl (Z.land b4 3) 8)).
Definition px1 (b1 b4 : Z) : Z :=
  to_u16 (Z.lor b1 (Z.shiftl (Z.land (Z.shiftr b4 2) 3) 8)).
Definition px2 (b2 b4 : Z) : Z :=
  to_u16 (Z.lor b2 (Z.shiftl (Z.land (Z.shiftr b4 4) 3) 8)).
Definition px3 (b3 b4 : Z) : Z :=
  to_u16 (Z.lor b3 (Z.shiftl (Z.land (Z.shiftr b4 6) 3) 8)).

(** The inner [while (x < width)] loop over one packed line.  [line] is the
    pointer of the source; [line += 5] drops the five bytes just read. *)
Fixpoint unpackLine (width : Z) (line : list byte) (x : Z) (st : cursor)
  {struct line} : option cursor :=
  if x <? width then
    match line with
    | c0 :: c1 :: c2 :: c3 :: c4 :: rest =>
        let b0 := u8 c0 in
        let b1 := u8 c1 in
        let b2 := u8 c2 in
        let b3 := u8 c3 in
        let b4 := u8 c4 in
        let p0 := px0 b0 b4 in
        let p1 := px1 b1 b4 in
        let p2 := px2 b2 b4 in
        let p3 := px3 b3 b4 in
        and_then (emit (x <? width) p0 st) (fun st =>
        and_then (emit (to_u32 (x + 1) <? width) p1 st) (fun st =>
        and_then (emit (to_u32 (x + 2) <? width) p2 st) (fun st =>
        and_then (emit (to_u32 (x + 3) <? width) p3 st) (fun st =>
        unpackLine width rest (to_u32 (x + 4)) st))))
    | _ => None
    end
  else Some st.

(** The outer [for (y = 0; y < height; ++y)] loop; [todo] counts the rows
    still to do, [height - y]. *)
Fixpoint unpackRows (src : list byte) (packedStride width : Z)
  (todo : nat) (y : Z) (st : cursor) : option cursor :=
  match todo with
  | O => Some st
  | S todo' =>
      let line := skipn (Z.to_nat (to_size_t (y * packedStride))) src in
      and_then (unpackLine width line 0 st) (fun st =>
      unpackRows src packedStride width todo' (to_u32 (y + 1)) st)
  end.

(** [util::unpackRaw10To16].  [fb] is [None] for a null frame buffer; the
    result carries the returned flag and the contents of [dst]. *)
Definition unpackRaw10To16 (fb : option FrameBuffer) (width height : Z)
  (dst : list Z) : outcome (bool * list Z) :=
  match fb with
  | None => Returned (false, dst)
  | Some fb =>
      if negb (Z.of_nat (List.length dst) =? to_size_t (width * height))
      then Returned (false, dst)
      else
        match planes fb with
        | [p] =>
            let offset := plane_offset p in
            let length := plane_length p in
            match cookie fb with
            | None => Returned (false, dst)
            | Some base =>
                let src := skipn (Z.to_nat offset) base in
                let packedStride := to_u32 (width * 10 + 7) / 8 in
                let expected := to_size_t (packedStride * height) in
                if length <? expected then Returned (false, dst)
                else
                  match unpackRows src packedStride width
                          (Z.to_nat height) 0 (dst, 0) with
                  | Some (dst', _) => Returned (true, dst')
                  | None => Undefined
                  end
            end
        | _ => Returned (false, dst)
        end
  end.

End Target.

End Util.

(** ** The DNG writer (src/DngWriter.cpp, include/DngWriter.hpp) *)

(** Object representations as [f.write] copies them out of memory: the
    targets of the driver (ARM) are little-endian. *)
Definition le16 (v : Z) : list Z := [to_u8 v; to_u8 (v / 2 ^ 8)].
Definition le32 (v : Z) : list Z :=
  [to_u8 v; to_u8 (v / 2 ^ 8); to_u8 (v / 2 ^ 16); to_u8 (v / 2 ^ 24)].

(** The characters of a [std::string], as bytes. *)
Definition chars (s : string) : list Z :=
  map (fun c => Z.of_nat (nat_of_ascii c)) (list_ascii_of_string s).

(** A [float] is kept as its IEEE-754 binary32 bit pattern.
    [float_to_u16] is [static_cast<uint16_t>]: the value truncated toward
    zero, and no result when that does not fit (or for infinities, NaN). *)
Definition float : Type := Z.

Definition float_to_u16 (bits : float) : option Z :=
  let negative := Z.testbit bits 31 in
  let e := Z.land (Z.shiftr bits 23) 255 in
  let m := Z.land bits (2 ^ 23 - 1) in
  if e =? 255 then None
  else
    let magnitude :=
      if e =? 0 then 0
      else if e <? 150 then Z.shiftr (2 ^ 23 + m) (150 - e)
      else Z.shiftl (2 ^ 23 + m) (e - 150) in
    if magnitude =? 0 then Some 0
    else if negative then None
    else if magnitude <=? 65535 then Some magnitude
    else None.

(** The files of the destination: contents by path, and whether a path can
    be opened for writing. *)
Record filesystem : Type :=
  { file : string -> option (list Z);
    openable : string -> bool }.

(** A [std::ofstream] opened on a fresh (truncated) file: the bytes of the
    file so far and the put position.  Writes and seeks on an open stream
    succeed; the source never tests the stream after opening it. *)
Record ofstream : Type := { data : list Z; pos : Z }.

(** Closing the stream leaves its bytes at [path]. *)
Definition close (fs : filesystem) (path : string) (f : ofstream) : filesystem :=
  {| file := fun p => if String.eqb p path then Some (data f) else file fs p;
     openable := openable fs |}.

(** Stream operations thread the stream and may have no defined result. *)
Definition io (A : Type) : Type := ofstream -> option (A * ofstream).

Definition ret {A : Type} (a : A) : io A := fun f => Some (a, f).

Definition bind {A B : Type} (c : io A) (k : A -> io B) : io B :=
  fun f => match c f with
           | Some (a, f') => k a f'
           | None => None
           end.

Definition defined {A : Type} (o : option A) : io A :=
  fun f => match o with
           | Some a => Some (a, f)
           | None => None
           end.

Notation "x <- c ;; k" := (bind c (fun x => k))
  (at level 61, c at next level, right associativity).
Notation "c ;;; k" := (bind c (fun _ => k))
  (at level 61, right associativity).

(** [f.tellp()], [f.seekp(p)] and [f.write(bs, length bs)].  A write of no
    bytes changes nothing; a write at a position past the end leaves zero
    bytes in the gap. *)
Definition tellp : io Z := fun f => Some (pos f, f).

Definition seekp (p : Z) : io unit :=
  fun f => Some (tt, {| data := data f; pos := p |}).

Definition put (bs : list Z) : io unit :=
  fun f =>
    match bs with
    | [] => Some (tt, f)
    | _ :: _ =>
        let p := Z.to_nat (pos f) in
        let d := data f in
        Some (tt, {| data := if (List.length d <=? p)%nat
                             then d ++ repeat 0 (p - List.length d) ++ bs
                             else firstn p d ++ bs ++ skipn (p + List.length bs) d;
                     pos := pos f + Z.of_nat (List.length bs) |})
    end.

Fixpoint put_each {A : Type} (enc : A -> list Z) (xs : list A) : io unit :=
  match xs with
  | [] => ret tt
  | x :: xs' => put (enc x) ;;; put_each enc xs'
  end.

Module DngWriter.

Inductive BayerPattern : Type := RGGB | BGGR | GRBG | GBRG.

Record DngMeta : Type :=
  { width : Z;
    height : Z;
    bayer : BayerPattern;
    bitsPerSample : Z;
    blackLevel : Z;
    whiteLevel : Z;
    analogGain : float;
    exposureSeconds : float;
    cfaIlluminant : float }.

Record IfdEntry : Type :=
  { tag : Z; type : Z; count : Z; value : Z }.

(** [sizeof(TiffHeader)] (packed) and [sizeof(IfdEntry)]. *)
Definition sizeof_TiffHeader : Z := 8.
Definition sizeof_IfdEntry : Z := 12.

Definition header_bytes (endian magic ifdOffset : Z) : list Z :=
  le16 endian ++ le16 magic ++ le32 ifdOffset.

Definition entry_bytes (e : IfdEntry) : list Z :=
  le16 (tag e) ++ le16 (type e) ++ le32 (count e) ++ le32 (value e).

Definition TYPE_BYTE : Z := 1.
Definition TYPE_ASCII : Z := 2.
Definition TYPE_SHORT : Z := 3.
Definition TYPE_LONG : Z := 4.
Definition TYPE_RATIONAL : Z := 5.

Definition TAG_ImageWidth : Z := 256.
Definition TAG_ImageLength : Z := 257.
Definition TAG_BitsPerSample : Z := 258.
Definition TAG_Compression : Z := 259.
Definition TAG_Photometric : Z := 262.
Definition TAG_StripOffsets : Z := 273.
Definition TAG_SamplesPerPixel : Z := 277.
Definition TAG_RowsPerStrip : Z := 278.
Definition TAG_StripByteCounts : Z := 279.
Definition TAG_PlanarConfig : Z := 284.
Definition TAG_CFARepeatPattern : Z := 33421.
Definition TAG_CFAPattern : Z := 33422.
Definition TAG_DNGVersion : Z := 50706.
Definition TAG_UniqueCameraModel : Z := 50708.
Definition TAG_CFAPlaneColor : Z := 50710.
Definition TAG_BlackLevel : Z := 50714.
Definition TAG_WhiteLevel : Z := 50717.
Definition TAG_DefaultScale : Z := 50733.
Definition TAG_CalibrationIlluminant1 : Z := 50778.
Definition TAG_ColorMatrix1 : Z := 50721.

(** [bayerToPlane] is not called by [write]. *)
Definition bayerToPlane (b : BayerPattern) : Z := 0.

(** The [switch] covers the four enumerators; the [return] after it is not
    reached. *)
Definition bayerPattern2x2 (b : BayerPattern) : list Z :=
  match b with
  | RGGB => [0; 1; 1; 2]
  | BGGR => [2; 1; 1; 0]
  | GRBG => [1; 0; 2; 1]
  | GBRG => [1; 2; 0; 1]
  end.

Definition toBayer (s : string) : BayerPattern :=
  if String.eqb s "RGGB" then RGGB
  else if String.eqb s "BGGR" then BGGR
  else if String.eqb s "GRBG" then GRBG
  else if String.eqb s "GBRG" then GBRG
  else RGGB.

Definition camera_model : string := "Raspberry Pi Global Shutter Camera IMX296".

Section Target.

Variable size_bits : Z.

Definition to_size_t (n : Z) : Z := n mod 2 ^ size_bits.

Definition currentOffset : io Z := p <- tellp ;; ret (to_u32 p).

Definition align2 : io unit :=
  off <- currentOffset ;;
  if negb (Z.land off 1 =? 0) then put [0] else ret tt.

Definition writeArraySHORT (arr : list Z) : io Z :=
  align2 ;;;
  off <- currentOffset ;;
  put_each le16 arr ;;;
  ret off.

Definition writeArrayBYTE (arr : list Z) : io Z :=
  align2 ;;;
  off <- currentOffset ;;
  put (map to_u8 arr) ;;;
  ret off.

Definition writeArrayRATIONAL (arr : list (Z * Z)) : io Z :=
  align2 ;;;
  off <- currentOffset ;;
  put_each (fun p => le32 (fst p) ++ le32 (snd p)) arr ;;;
  ret off.

Definition writeAscii (s : string) : io Z :=
  let z := chars s ++ [0] in
  off <- currentOffset ;;
  put z ;;;
  ret off.

(** [push(tag, type, count, value)], the fields converted to their widths. *)
Definition push (tg ty cnt v : Z) : IfdEntry :=
  {| tag := to_u16 tg; type := to_u16 ty; count := to_u32 cnt; value := to_u32 v |}.

(** Everything [DngWriter::write] does with the stream, once it is open.
    The vector [ifd] and [actualCount] are only read after the last [push],
    so the twenty pushes appear as the list they build.  (The lambda
    [writeValue] is never called.) *)
Definition write_stream (meta : DngMeta) (pixels : list Z) : io unit :=
  let w := width meta in
  let h := height meta in
  put (header_bytes 0x4949 42 sizeof_TiffHeader) ;;;
  let entryCount := to_u16 (16 + 6) in
  ifdStart <- tellp ;;
  seekp (ifdStart + (2 + to_size_t (entryCount * sizeof_IfdEntry) + 4)) ;;;
  bpsOff <- writeArraySHORT [bitsPerSample meta] ;;
  let spp := 1 in
  cfaDimOff <- writeArraySHORT [2; 2] ;;
  let patt := bayerPattern2x2 (bayer meta) in
  cfaPattOff <- writeArrayBYTE [nth 0 patt 0; nth 1 patt 0; nth 2 patt 0; nth 3 patt 0] ;;
  cfaPlaneColorOff <- writeArrayBYTE [0; 1; 2] ;;
  defaultScaleOff <- writeArrayRATIONAL [(1, 1); (1, 1)] ;;
  dngVerOff <- writeArrayBYTE [1; 4; 0; 0] ;;
  ucmOff <- writeAscii camera_model ;;
  blackOff <- writeArraySHORT [blackLevel meta] ;;
  whiteOff <- writeArraySHORT [whiteLevel meta] ;;
  illuminant <- defined (float_to_u16 (cfaIlluminant meta)) ;;
  cmOff <- writeArrayRATIONAL
    [(1, 1); (0, 1); (0, 1); (0, 1); (1, 1); (0, 1); (0, 1); (0, 1); (1, 1)] ;;
  align2 ;;;
  stripOffset <- currentOffset ;;
  let bytes := to_size_t (to_size_t (w * h) * 2) in
  defined (if bytes <=? 2 * Z.of_nat (List.length pixels) then Some tt else None) ;;;
  put (firstn (Z.to_nat bytes) (List.concat (map le16 pixels))) ;;;
  let stripByteCount := to_u32 bytes in
  let ifd :=
    [ push TAG_ImageWidth TYPE_LONG 1 w;
      push TAG_ImageLength TYPE_LONG 1 h;
      push TAG_BitsPerSample TYPE_SHORT 1 bpsOff;
      push TAG_Compression TYPE_SHORT 1 1;
      push TAG_Photometric TYPE_SHORT 1 32803;
      push TAG_SamplesPerPixel TYPE_SHORT 1 spp;
      push TAG_PlanarConfig TYPE_SHORT 1 1;
      push TAG_RowsPerStrip TYPE_LONG 1 h;
      push TAG_StripOffsets TYPE_LONG 1 stripOffset;
      push TAG_StripByteCounts TYPE_LONG 1 stripByteCount;
      push TAG_CFARepeatPattern TYPE_SHORT 2 cfaDimOff;
      push TAG_CFAPattern TYPE_BYTE 4 cfaPattOff;
      push TAG_CFAPlaneColor TYPE_BYTE 3 cfaPlaneColorOff;
      push TAG_DNGVersion TYPE_BYTE 4 dngVerOff;
      push TAG_UniqueCameraModel TYPE_ASCII
           (Z.of_nat (String.length camera_model) + 1) ucmOff;
      push TAG_BlackLevel TYPE_SHORT 1 blackOff;
      push TAG_WhiteLevel TYPE_SHORT 1 whiteOff;
      push TAG_DefaultScale TYPE_RATIONAL 2 defaultScaleOff;
      push TAG_CalibrationIlluminant1 TYPE_SHORT 1 illuminant;
      push TAG_ColorMatrix1 TYPE_RATIONAL 9 cmOff ] in
  let actualCount := to_u16 (Z.of_nat (List.length ifd)) in
  endPos <- tellp ;;
  seekp ifdStart ;;;
  put (le16 actualCount) ;;;
  put_each entry_bytes (firstn (Z.to_nat actualCount) ifd) ;;;
  let next := 0 in
  put (le32 next) ;;;
  seekp endPos.

(** [DngWriter::write]: the returned flag and the files afterwards. *)
Definition write (fs : filesystem) (path : string) (meta : DngMeta)
  (pixels : list Z) : outcome (bool * filesystem) :=
  let w := width meta in
  let h := height meta in
  if negb (Z.of_nat (List.length pixels) =? to_size_t (w * h))
  then Returned (false, fs)
  else if negb (openable fs path) then Returned (false, fs)
  else
    match write_stream meta pixels {| data := []; pos := 0 |} with
    | Some (_, f) => Returned (true, close fs path f)
    | None => Undefined
    end.

End Target.

End DngWriter.

(** ** The frame callback of src/main.cpp *)

Module Main.

(** [operator<<] on an [unsigned]: its decimal digits. *)
Definition decimal (n : Z) : string :=
  NilEmpty.string_of_uint (N.to_uint (Z.to_N n)).

(** [std::setw(w)] with [std::setfill(c)] before one insertion: the text
    padded on the left up to [w] characters. *)
Fixpoint fill (k : nat) (c : ascii) (s : string) : string :=
  match k with
  | O => s
  | S k' => String c (fill k' c s)
  end.

Definition setw_setfill (w : nat) (c : ascii) (s : string) : string :=
  fill (w - String.length s) c s.

(** [name.str()] in the callback: "imx296_" and the frame counter in six
    digits or more. *)
Definition frameName (saved : Z) : string :=
  ("imx296_" ++ setw_setfill 6 "0" (decimal saved))%string.

Section Target.

Variable size_bits : Z.

(** The RAW sink: [std::ofstream raw(path); raw.write(pixels.data(),
    pixels.size() * 2)].  A stream that failed to open writes nothing. *)
Definition writeRaw (fs : filesystem) (path : string) (pixels : list Z)
  : filesystem :=
  if openable fs path then
    let bytes := DngWriter.to_size_t size_bits (Z.of_nat (List.length pixels) * 2) in
    match put (firstn (Z.to_nat bytes) (List.concat (map le16 pixels)))
            {| data := []; pos := 0 |} with
    | Some (_, f) => close fs path f
    | None => fs
    end
  else fs.

(** The callback [reqComplete] from the unpacking to the written file
    (lines 349-384), for the frame buffer [fb] of the request.  The captured
    variables are arguments; [exposureSeconds] stands for the float quotient
    [exposureUs / 1e6f]; [toBayer] is the function of that name in
    src/DngWriter.cpp, the only one in the repository.  The result is the
    files afterwards. *)
Definition saveFrame (fs : filesystem) (fb : Util.FrameBuffer)
  (outW outH : Z) (bayer outDir : string) (saved : Z) (writeDng : bool)
  (analogueGain exposureSeconds : float) : outcome filesystem :=
  let pixels := repeat 0 (Z.to_nat (DngWriter.to_size_t size_bits (outW * outH))) in
  match Util.unpackRaw10To16 size_bits (Some fb) outW outH pixels with
  | Undefined => Undefined
  | Returned (false, _) => Returned fs
  | Returned (true, pixels) =>
      let fileBase := Util.joinPath outDir (frameName saved) in
      if writeDng then
        let meta :=
          {| DngWriter.width := outW;
             DngWriter.height := outH;
             DngWriter.bayer := DngWriter.toBayer bayer;
             DngWriter.bitsPerSample := 16;
             DngWriter.blackLevel := 0;
             DngWriter.whiteLevel := 1023;
             DngWriter.analogGain := analogueGain;
             DngWriter.exposureSeconds := exposureSeconds;
             DngWriter.cfaIlluminant := 0x41A80000 |} in
        match DngWriter.write size_bits fs (fileBase ++ ".dng") meta pixels with
        | Returned (_, fs') => Returned fs'
        | Undefined => Undefined
        end
      else Returned (writeRaw fs (fileBase ++ ".raw") pixels)
  end.

End Target.

End Main.

(** ** Reference decoding and packing *)

(** Pixel [j] (0..3) of a group, from its own byte [b] and the fifth byte
    [b4]: the rule written in the source comment and in the specification. *)
Definition group_pixel (j b b4 : Z) : Z :=
  Z.lor b (Z.shiftl (Z.land (Z.shiftr b4 (2 * j)) 3) 8).

(** Pixel [i] of the packed line that starts at [line]. *)
Definition pixel_at (line : list byte) (i : Z) : Z :=
  group_pixel (i mod 4)
    (byte_at line (5 * (i / 4) + i mod 4))
    (byte_at line (5 * (i / 4) + 4)).

(** The stride the unpacker expects, [ceil (width * 10 / 8)]. *)
Definition stride (width : Z) : Z := (width * 10 + 7) / 8.

(** [dst] holds the target [F] below [hi] and is still [dst0] from [hi] on. *)
Definition wrote (dst0 dst : list Z) (hi : Z) (F : Z -> Z) : Prop :=
  List.length dst = List.length dst0 /\
  (forall i, 0 <= i < hi -> sample dst i = F i) /\
  (forall j, hi <= j -> sample dst j = sample dst0 j).

(** The byte with a given value in [0 .. 255]. *)
Definition byte_of (n : Z) : byte :=
  match Byte.of_N (Z.to_N (to_u8 n)) with
  | Some b => b
  | None => x00
  end.

(** Modelled from the spec: the packer of the round-trip property, which the
    repository does not contain.  Four samples become five bytes: the low
    eight bits of each sample in b0..b3, and the four two-bit high parts in
    b4, sample 0 in bits 0-1 through sample 3 in bits 6-7.  For a width that
    is a multiple of 4 the rows of a row-major buffer pack back to back
    (stride = 5 * width / 4), so the image is packed group after group. *)
Fixpoint pack10 (samples : list Z) : list byte :=
  match samples with
  | v0 :: v1 :: v2 :: v3 :: rest =>
      byte_of (Z.land v0 255) :: byte_of (Z.land v1 255)
      :: byte_of (Z.land v2 255) :: byte_of (Z.land v3 255)
      :: byte_of (Z.lor (Z.lor (Z.shiftr v0 8) (Z.shiftl (Z.shiftr v1 8) 2))
                   (Z.lor (Z.shiftl (Z.shiftr v2 8) 4) (Z.shiftl (Z.shiftr v3 8) 6)))
      :: pack10 rest
  | _ => []
  end.

(** ** Definitions used to state the properties *)

(** *** The unpacker's inputs and results *)

(** Bounds of the C++ types of the inputs. *)
Definition u32_range (n : Z) : Prop := 0 <= n < 2 ^ 32.

(** Every five-byte group the loops read lies in the [mem_len] mapped bytes:
    the last row starts at [offset + stride * (height - 1)] and is read in
    [ceil (width / 4)] whole groups. *)
Definition groups_mapped (mem_len offset width height : Z) : Prop :=
  width = 0 \/ height = 0 \/
  offset + stride width * (height - 1) + 5 * ((width + 3) / 4) <= mem_len.

(** The inputs the unpacker accepts: its arguments within their C++ types,
    one plane, a mapped base pointer, [dst] of [width * height] samples and a
    plane of at least [stride * height] bytes. *)
Definition accepted (size_bits : Z) (fb : Util.FrameBuffer) (p : Util.Plane)
  (mem : list byte) (width height : Z) (dst : list Z) : Prop :=
  32 <= size_bits /\
  Util.planes fb = [p] /\
  Util.cookie fb = Some mem /\
  u32_range (Util.plane_offset p) /\
  u32_range (Util.plane_length p) /\
  0 <= width /\ width * 10 + 7 < 2 ^ 32 /\
  0 <= height < 2 ^ 32 /\
  Z.of_nat (List.length dst) = width * height /\
  stride width * height <= Util.plane_length p.

(** The sample the unpacker is to leave at index [idx] of the output. *)
Definition unpacked (src : list byte) (width : Z) (idx : Z) : Z :=
  pixel_at (skipn (Z.to_nat (idx / width * stride width)) src) (idx mod width).

(** A 4x2 frame: the fifth byte [0xe4] of the first row gives its four pixels
    the high parts 0, 1, 2, 3. *)
Definition mem_4x2 : list byte :=
  [x01; x02; x03; x04; xe4; xff; xff; xff; xff; xff].

Definition fb_4x2 : Util.FrameBuffer :=
  {| Util.planes := [{| Util.plane_offset := 0; Util.plane_length := 10 |}];
     Util.cookie := Some mem_4x2 |}.

(** A 6x1 frame: stride 8, read as two groups of five bytes, so ten bytes
    are mapped. *)
Definition mem_6x1 : list byte :=
  [x01; x02; x03; x04; xe4; x05; x06; x00; x00; x0b].

Definition fb_6x1 : Util.FrameBuffer :=
  {| Util.planes := [{| Util.plane_offset := 0; Util.plane_length := 8 |}];
     Util.cookie := Some mem_6x1 |}.

(** The 6x1 frame again with a mapping that ends where the plane ends:
    exactly [stride * height = 8] bytes. *)
Definition mem_6x1_exact : list byte :=
  [x01; x02; x03; x04; xe4; x05; x06; x00].

Definition fb_6x1_exact : Util.FrameBuffer :=
  {| Util.planes := [{| Util.plane_offset := 0; Util.plane_length := 8 |}];
     Util.cookie := Some mem_6x1_exact |}.

(** The conditions under which the unpacker returns [false]. *)
Definition rejects (fb : Util.FrameBuffer) (width height : Z) (dst : list Z) : Prop :=
  Z.of_nat (List.length dst) <> width * height \/
  List.length (Util.planes fb) <> 1%nat \/
  Util.cookie fb = None \/
  exists p, Util.planes fb = [p] /\ Util.plane_length p < stride width * height.

(** A frame buffer with one adequate plane whose cookie holds no mapping. *)
Definition fb_unmapped : Util.FrameBuffer :=
  {| Util.planes := [{| Util.plane_offset := 0; Util.plane_length := 5 |}];
     Util.cookie := None |}.

(** A 1x1 frame: stride 2, a plane and a mapping of exactly two bytes. *)
Definition fb_1x1 : Util.FrameBuffer :=
  {| Util.planes := [{| Util.plane_offset := 0; Util.plane_length := 2 |}];
     Util.cookie := Some [x2a; x01] |}.

(** A sample that fits ten bits. *)
Definition ten_bit (v : Z) : Prop := 0 <= v < 1024.

(** The samples packed in [mem_4x2]. *)
Definition samples_4x2 : list Z := [1; 258; 515; 772; 1023; 1023; 1023; 1023].

(** Two mappings hold the same bytes wherever the loops read. *)
Definition same_window (mem1 mem2 : list byte) (offset width height : Z) : Prop :=
  forall i,
    offset <= i < offset + stride width * (height - 1) + 5 * ((width + 3) / 4) ->
    byte_at mem1 i = byte_at mem2 i.

(** The 4x2 frame inside a larger mapping: three bytes before the plane and
    two after it. *)
Definition fb_4x2_inside : Util.FrameBuffer :=
  {| Util.planes := [{| Util.plane_offset := 3; Util.plane_length := 10 |}];
     Util.cookie := Some ([xaa; xbb; xcc] ++ mem_4x2 ++ [xdd; xee]) |}.

(** The same plane in another mapping: other bytes around it, and one
    byte fewer after it. *)
Definition fb_4x2_inside' : Util.FrameBuffer :=
  {| Util.planes := [{| Util.plane_offset := 3; Util.plane_length := 10 |}];
     Util.cookie := Some ([x11; x22; x33] ++ mem_4x2 ++ [x44]) |}.

(** A frame buffer whose mapping holds no byte at all. *)
Definition fb_no_bytes : Util.FrameBuffer :=
  {| Util.planes := [{| Util.plane_offset := 0; Util.plane_length := 0 |}];
     Util.cookie := Some [] |}.

(** The conditions on the frame buffer alone under which the unpacker
    returns [false]. *)
Definition unusable (fb : Util.FrameBuffer) (width height : Z) : Prop :=
  List.length (Util.planes fb) <> 1%nat \/
  Util.cookie fb = None \/
  exists p, Util.planes fb = [p] /\ Util.plane_length p < stride width * height.

(** The token that names a mosaic variant. *)
Definition token (b : DngWriter.BayerPattern) : string :=
  match b with
  | DngWriter.RGGB => "RGGB"
  | DngWriter.BGGR => "BGGR"
  | DngWriter.GRBG => "GRBG"
  | DngWriter.GBRG => "GBRG"
  end.

(** *** The layout of the written file *)

(** The stream with bytes [d], positioned [k] bytes past their end. *)
Definition gap (d : list Z) (k : nat) : ofstream :=
  {| data := d; pos := Z.of_nat (k + List.length d) |}.

(** A rational: numerator, then denominator. *)
Definition rational_bytes (p : Z * Z) : list Z := le32 (fst p) ++ le32 (snd p).

(** The directory entries, with the offsets at which the blocks end up. *)
Definition directory (meta : DngWriter.DngMeta) (illuminant bytes : Z)
  : list DngWriter.IfdEntry :=
  [ DngWriter.push DngWriter.TAG_ImageWidth DngWriter.TYPE_LONG 1 (DngWriter.width meta);
    DngWriter.push DngWriter.TAG_ImageLength DngWriter.TYPE_LONG 1 (DngWriter.height meta);
    DngWriter.push DngWriter.TAG_BitsPerSample DngWriter.TYPE_SHORT 1 278;
    DngWriter.push DngWriter.TAG_Compression DngWriter.TYPE_SHORT 1 1;
    DngWriter.push DngWriter.TAG_Photometric DngWriter.TYPE_SHORT 1 32803;
    DngWriter.push DngWriter.TAG_SamplesPerPixel DngWriter.TYPE_SHORT 1 1;
    DngWriter.push DngWriter.TAG_PlanarConfig DngWriter.TYPE_SHORT 1 1;
    DngWriter.push DngWriter.TAG_RowsPerStrip DngWriter.TYPE_LONG 1 (DngWriter.height meta);
    DngWriter.push DngWriter.TAG_StripOffsets DngWriter.TYPE_LONG 1 430;
    DngWriter.push DngWriter.TAG_StripByteCounts DngWriter.TYPE_LONG 1 (to_u32 bytes);
    DngWriter.push DngWriter.TAG_CFARepeatPattern DngWriter.TYPE_SHORT 2 280;
    DngWriter.push DngWriter.TAG_CFAPattern DngWriter.TYPE_BYTE 4 284;
    DngWriter.push DngWriter.TAG_CFAPlaneColor DngWriter.TYPE_BYTE 3 288;
    DngWriter.push DngWriter.TAG_DNGVersion DngWriter.TYPE_BYTE 4 308;
    DngWriter.push DngWriter.TAG_UniqueCameraModel DngWriter.TYPE_ASCII
      (Z.of_nat (String.length DngWriter.camera_model) + 1) 312;
    DngWriter.push DngWriter.TAG_BlackLevel DngWriter.TYPE_SHORT 1 354;
    DngWriter.push DngWriter.TAG_WhiteLevel DngWriter.TYPE_SHORT 1 356;
    DngWriter.push DngWriter.TAG_DefaultScale DngWriter.TYPE_RATIONAL 2 292;
    DngWriter.push DngWriter.TAG_CalibrationIlluminant1 DngWriter.TYPE_SHORT 1 illuminant;
    DngWriter.push DngWriter.TAG_ColorMatrix1 DngWriter.TYPE_RATIONAL 9 358 ].

(** The directory table: entry count, entries, terminator (offsets 8..253). *)
Definition directory_table (meta : DngWriter.DngMeta) (illuminant bytes : Z) : list Z :=
  le16 20
  ++ List.concat (map DngWriter.entry_bytes (directory meta illuminant bytes))
  ++ le32 0.

(** The out-of-line data blocks (offsets 278..429), with the pad byte that
    aligns DefaultScale. *)
Definition data_blocks (meta : DngWriter.DngMeta) : list Z :=
  le16 (DngWriter.bitsPerSample meta)
  ++ (le16 2 ++ le16 2)
  ++ map to_u8 (DngWriter.bayerPattern2x2 (DngWriter.bayer meta))
  ++ map to_u8 [0; 1; 2]
  ++ [0]
  ++ (rational_bytes (1, 1) ++ rational_bytes (1, 1))
  ++ map to_u8 [1; 4; 0; 0]
  ++ (chars DngWriter.camera_model ++ [0])
  ++ le16 (DngWriter.blackLevel meta)
  ++ le16 (DngWriter.whiteLevel meta)
  ++ List.concat (map rational_bytes
       [(1, 1); (0, 1); (0, 1); (0, 1); (1, 1); (0, 1); (0, 1); (0, 1); (1, 1)]).

(** The whole file: header, directory table, the unused rest of the reserved
    directory region, data blocks, pixel strip. *)
Definition dng_bytes (meta : DngWriter.DngMeta) (illuminant bytes : Z)
  (strip : list Z) : list Z :=
  DngWriter.header_bytes 0x4949 42 DngWriter.sizeof_TiffHeader
  ++ directory_table meta illuminant bytes
  ++ repeat 0 24
  ++ data_blocks meta
  ++ strip.

(** The byte count of the strip and the bytes written for it. *)
Definition strip_byte_count (size_bits : Z) (meta : DngWriter.DngMeta) : Z :=
  DngWriter.to_size_t size_bits
    (DngWriter.to_size_t size_bits (DngWriter.width meta * DngWriter.height meta) * 2).

Definition strip_bytes (size_bits : Z) (meta : DngWriter.DngMeta)
  (pixels : list Z) : list Z :=
  firstn (Z.to_nat (strip_byte_count size_bits meta)) (List.concat (map le16 pixels)).

(** *** Reading a written file back *)

(** Little-endian reads at offset [i]. *)
Definition rd8 (f : list Z) (i : Z) : Z := nth (Z.to_nat i) f 0.

Definition rd16 (f : list Z) (i : Z) : Z := rd8 f i + 2 ^ 8 * rd8 f (i + 1).

Definition rd32 (f : list Z) (i : Z) : Z :=
  rd8 f i + 2 ^ 8 * rd8 f (i + 1) + 2 ^ 16 * rd8 f (i + 2) + 2 ^ 24 * rd8 f (i + 3).

(** [len] bytes of the file from offset [off]. *)
Definition slice (f : list Z) (off : Z) (len : nat) : list Z :=
  firstn len (skipn (Z.to_nat off) f).

(** The offset of the directory (header bytes 4..7), its entry count and
    entry [k], as a TIFF reader finds them. *)
Definition ifd_offset (f : list Z) : Z := rd32 f 4.

Definition entry_count (f : list Z) : Z := rd16 f (ifd_offset f).

Definition entry_at (f : list Z) (k : nat) : DngWriter.IfdEntry :=
  let at_ := ifd_offset f + 2 + DngWriter.sizeof_IfdEntry * Z.of_nat k in
  {| DngWriter.tag := rd16 f at_;
     DngWriter.type := rd16 f (at_ + 2);
     DngWriter.count := rd32 f (at_ + 4);
     DngWriter.value := rd32 f (at_ + 8) |}.

(** Where the directory table ends: after the terminator. *)
Definition ifd_end (f : list Z) : Z :=
  ifd_offset f + 2 + DngWriter.sizeof_IfdEntry * entry_count f + 4.

(** The size of an element of each TIFF type, and of an entry's payload. *)
Definition type_size (ty : Z) : Z :=
  if ty =? DngWriter.TYPE_BYTE then 1
  else if ty =? DngWriter.TYPE_ASCII then 1
  else if ty =? DngWriter.TYPE_SHORT then 2
  else if ty =? DngWriter.TYPE_LONG then 4
  else if ty =? DngWriter.TYPE_RATIONAL then 8
  else 0.

Definition payload (e : DngWriter.IfdEntry) : Z :=
  type_size (DngWriter.type e) * DngWriter.count e.

(** The out-of-line blocks [write] puts out and the strip, each with the tag
    of the entry that receives its offset. *)
Definition blocks_by_tag (size_bits : Z) (meta : DngWriter.DngMeta)
  (pixels : list Z) : list (Z * list Z) :=
  [ (DngWriter.TAG_BitsPerSample, le16 (DngWriter.bitsPerSample meta));
    (DngWriter.TAG_CFARepeatPattern, le16 2 ++ le16 2);
    (DngWriter.TAG_CFAPattern,
      map to_u8 (DngWriter.bayerPattern2x2 (DngWriter.bayer meta)));
    (DngWriter.TAG_CFAPlaneColor, map to_u8 [0; 1; 2]);
    (DngWriter.TAG_DefaultScale, rational_bytes (1, 1) ++ rational_bytes (1, 1));
    (DngWriter.TAG_DNGVersion, map to_u8 [1; 4; 0; 0]);
    (DngWriter.TAG_UniqueCameraModel, chars DngWriter.camera_model ++ [0]);
    (DngWriter.TAG_BlackLevel, le16 (DngWriter.blackLevel meta));
    (DngWriter.TAG_WhiteLevel, le16 (DngWriter.whiteLevel meta));
    (DngWriter.TAG_ColorMatrix1,
      List.concat (map rational_bytes
        [(1, 1); (0, 1); (0, 1); (0, 1); (1, 1); (0, 1); (0, 1); (0, 1); (1, 1)]));
    (DngWriter.TAG_StripOffsets, strip_bytes size_bits meta pixels) ].

(** Where [dng_bytes] keeps a block: entry [k] has the block's tag and an
    even offset past the directory table at which the block is found; a
    block other than the strip ends before offset 430, where the strip is. *)
Definition block_at_entry (f : list Z) (tb : Z * list Z) : Prop :=
  exists k, (k < 20)%nat /\
    DngWriter.tag (entry_at f k) = fst tb /\
    slice f (DngWriter.value (entry_at f k)) (List.length (snd tb)) = snd tb /\
    Z.even (DngWriter.value (entry_at f k)) = true /\
    ifd_end f <= DngWriter.value (entry_at f k) /\
    (fst tb <> DngWriter.TAG_StripOffsets ->
     DngWriter.value (entry_at f k) + Z.of_nat (List.length (snd tb)) <= 430).

(** An empty destination in which every path can be opened, and the 8x2
    frame of the end-to-end scenario: mosaic GBRG, black level 64, white
    level 1023, every sample 512; gain 1.0f, exposure 0.008f, illuminant
    21.0f. *)
Definition fs_empty : filesystem :=
  {| file := fun _ => None; openable := fun _ => true |}.

Definition meta_8x2 : DngWriter.DngMeta :=
  {| DngWriter.width := 8; DngWriter.height := 2;
     DngWriter.bayer := DngWriter.GBRG;
     DngWriter.bitsPerSample := 16;
     DngWriter.blackLevel := 64; DngWriter.whiteLevel := 1023;
     DngWriter.analogGain := 0x3F800000;
     DngWriter.exposureSeconds := 0x3C03126F;
     DngWriter.cfaIlluminant := 0x41A80000 |}.

Definition pixels_8x2 : list Z := repeat 512 16.

(** The files after writing that frame to "frame.dng". *)
Definition fs_8x2 : filesystem :=
  match DngWriter.write 64 fs_empty "frame.dng" meta_8x2 pixels_8x2 with
  | Returned (_, fs') => fs'
  | Undefined => fs_empty
  end.

(** The 8x2 frame again, with gain 2.0f and exposure 0.004f. *)
Definition meta_8x2_other : DngWriter.DngMeta :=
  {| DngWriter.width := 8; DngWriter.height := 2;
     DngWriter.bayer := DngWriter.GBRG;
     DngWriter.bitsPerSample := 16;
     DngWriter.blackLevel := 64; DngWriter.whiteLevel := 1023;
     DngWriter.analogGain := 0x40000000;
     DngWriter.exposureSeconds := 0x3B83126F;
     DngWriter.cfaIlluminant := 0x41A80000 |}.

(** A destination in which no path can be opened. *)
Definition fs_readonly : filesystem :=
  {| file := fun _ => None; openable := fun _ => false |}.

(** The 8x2 frame with the illuminant -1.0f. *)
Definition meta_8x2_negative : DngWriter.DngMeta :=
  {| DngWriter.width := 8; DngWriter.height := 2;
     DngWriter.bayer := DngWriter.GBRG;
     DngWriter.bitsPerSample := 16;
     DngWriter.blackLevel := 64; DngWriter.whiteLevel := 1023;
     DngWriter.analogGain := 0x3F800000;
     DngWriter.exposureSeconds := 0x3C03126F;
     DngWriter.cfaIlluminant := 0xBF800000 |}.

(** ** Facts about machine integers and vectors *)

Lemma u8_range (b : byte) : 0 <= u8 b < 256.
Proof.
  unfold u8. pose proof (Byte.to_N_bounded b). lia.
Qed.

Lemma byte_at_range (p : list byte) (i : Z) : 0 <= byte_at p i < 256.
Proof. apply u8_range. Qed.

Lemma u8_byte_of (n : Z) : u8 (byte_of n) = n mod 256.
Proof.
  unfold byte_of, u8, to_u8.
  assert (H : 0 <= n mod 2 ^ 8 < 256) by (apply Z.mod_pos_bound; lia).
  destruct (Byte.of_N (Z.to_N (n mod 2 ^ 8))) as [b|] eqn:E.
  - apply Byte.to_of_N in E. rewrite E. rewrite Z2N.id by lia. reflexivity.
  - apply Byte.of_N_None_iff in E. lia.
Qed.

Lemma testbit_small (a n k : Z) :
  0 <= a < 2 ^ n -> 0 <= n <= k -> Z.testbit a k = false.
Proof.
  intros Ha Hk.
  rewrite <- (Z.mod_small a (2 ^ n)) by lia.
  apply Z.mod_pow2_bits_high. lia.
Qed.

Lemma lor_shiftl8 (a k : Z) :
  0 <= a < 256 -> 0 <= k -> Z.lor a (Z.shiftl k 8) = a + 256 * k.
Proof.
  intros Ha Hk.
  assert (Hdisj : Z.land a (Z.shiftl k 8) = 0).
  { apply Z.bits_inj'. intros n Hn.
    rewrite Z.land_spec, Z.bits_0.
    destruct (Z.lt_ge_cases n 8) as [Hlt|Hge].
    - rewrite (Z.shiftl_spec_low k 8 n) by lia. apply andb_false_r.
    - rewrite (testbit_small a 8 n) by lia. reflexivity. }
  rewrite <- Z.lxor_lor by exact Hdisj.
  rewrite <- Z.add_nocarry_lxor by exact Hdisj.
  rewrite Z.shiftl_mul_pow2 by lia. lia.
Qed.

Lemma land3 (a : Z) : Z.land a 3 = a mod 4.
Proof. exact (Z.land_ones a 2 ltac:(lia)). Qed.

Lemma group_pixel_arith (j b b4 : Z) :
  0 <= b < 256 -> 0 <= j ->
  group_pixel j b b4 = b + 256 * ((b4 / 2 ^ (2 * j)) mod 4).
Proof.
  intros Hb Hj. unfold group_pixel.
  rewrite land3, Z.shiftr_div_pow2 by lia.
  apply lor_shiftl8; [exact Hb|].
  apply Z.mod_pos_bound. lia.
Qed.

Lemma group_pixel_range (j b b4 : Z) :
  0 <= b < 256 -> 0 <= j -> 0 <= group_pixel j b b4 < 1024.
Proof.
  intros Hb Hj. rewrite group_pixel_arith by assumption.
  pose proof (Z.mod_pos_bound (b4 / 2 ^ (2 * j)) 4). lia.
Qed.

Lemma to_u16_small (v : Z) : 0 <= v < 1024 -> to_u16 v = v.
Proof. intros H. unfold to_u16. apply Z.mod_small. lia. Qed.

Lemma px0_group (b0 b4 : Z) :
  0 <= b0 < 256 -> Util.px0 b0 b4 = group_pixel 0 b0 b4.
Proof.
  intros H. unfold Util.px0.
  exact (to_u16_small _ (group_pixel_range 0 b0 b4 H ltac:(lia))).
Qed.

Lemma px1_group (b1 b4 : Z) :
  0 <= b1 < 256 -> Util.px1 b1 b4 = group_pixel 1 b1 b4.
Proof.
  intros H. unfold Util.px1.
  exact (to_u16_small _ (group_pixel_range 1 b1 b4 H ltac:(lia))).
Qed.

Lemma px2_group (b2 b4 : Z) :
  0 <= b2 < 256 -> Util.px2 b2 b4 = group_pixel 2 b2 b4.
Proof.
  intros H. unfold Util.px2.
  exact (to_u16_small _ (group_pixel_range 2 b2 b4 H ltac:(lia))).
Qed.

Lemma px3_group (b3 b4 : Z) :
  0 <= b3 < 256 -> Util.px3 b3 b4 = group_pixel 3 b3 b4.
Proof.
  intros H. unfold Util.px3.
  exact (to_u16_small _ (group_pixel_range 3 b3 b4 H ltac:(lia))).
Qed.

Lemma pixel_at_range (line : list byte) (i : Z) :
  0 <= i -> 0 <= pixel_at line i < 1024.
Proof.
  intros Hi. unfold pixel_at. apply group_pixel_range.
  - apply byte_at_range.
  - apply Z.mod_pos_bound. lia.
Qed.

Lemma sample_store_list (v : list Z) (n : nat) (x : Z) (k : nat) :
  (n < List.length v)%nat ->
  nth k (firstn n v ++ x :: skipn (S n) v) 0 = if Nat.eqb k n then x else nth k v 0.
Proof.
  intros Hn.
  assert (Hlen : List.length (firstn n v) = n)
    by (rewrite length_firstn; lia).
  destruct (Nat.eqb_spec k n) as [->|Hne].
  - rewrite app_nth2 by lia. rewrite Hlen, Nat.sub_diag. reflexivity.
  - destruct (Nat.lt_ge_cases k n) as [Hlt|Hge].
    + rewrite app_nth1 by lia. rewrite nth_firstn.
      destruct (Nat.ltb_spec k n); [reflexivity|lia].
    + rewrite app_nth2 by lia. rewrite Hlen.
      destruct (k - n)%nat as [|m] eqn:E; [lia|].
      cbn [nth]. rewrite nth_skipn. f_equal. lia.
Qed.

Lemma store_wrote (dst0 dst : list Z) (hi : Z) (F : Z -> Z) (p : Z) :
  wrote dst0 dst hi F ->
  0 <= hi < Z.of_nat (List.length dst0) ->
  p = F hi ->
  exists dst', store dst hi p = Some dst' /\ wrote dst0 dst' (hi + 1) F.
Proof.
  intros (Hlen & Hlow & Hhigh) Hhi ->.
  unfold store. rewrite Hlen.
  replace ((0 <=? hi) && (hi <? Z.of_nat (List.length dst0))) with true
    by (symmetry; apply andb_true_iff; split;
        [apply Z.leb_le | apply Z.ltb_lt]; lia).
  eexists. split; [reflexivity|].
  assert (Hn : (Z.to_nat hi < List.length dst)%nat) by lia.
  repeat split.
  - rewrite length_app, length_firstn. cbn [List.length].
    rewrite length_skipn. lia.
  - intros i Hi. unfold sample. rewrite sample_store_list by exact Hn.
    destruct (Nat.eqb_spec (Z.to_nat i) (Z.to_nat hi)) as [E|E].
    + f_equal. lia.
    + apply Hlow. lia.
  - intros j Hj. unfold sample. rewrite sample_store_list by exact Hn.
    destruct (Nat.eqb_spec (Z.to_nat j) (Z.to_nat hi)) as [E|E]; [lia|].
    apply Hhigh. lia.
Qed.

Lemma pixel_at_next (c0 c1 c2 c3 c4 : byte) (rest : list byte) (i : Z) :
  0 <= i ->
  pixel_at (c0 :: c1 :: c2 :: c3 :: c4 :: rest) (i + 4) = pixel_at rest i.
Proof.
  intros Hi. unfold pixel_at.
  replace ((i + 4) mod 4) with (i mod 4)
    by (rewrite <- (Z.mod_add i 1 4) by lia; f_equal; lia).
  replace ((i + 4) / 4) with (i / 4 + 1)
    by (rewrite <- (Z.div_add i 1 4) by lia; f_equal; lia).
  pose proof (Z.mod_pos_bound i 4 ltac:(lia)) as Hm.
  pose proof (Z.div_pos i 4 Hi ltac:(lia)) as Hd.
  assert (Hshift : forall k, 0 <= k ->
    byte_at (c0 :: c1 :: c2 :: c3 :: c4 :: rest) (k + 5) = byte_at rest k).
  { intros k Hk. unfold byte_at.
    replace (Z.to_nat (k + 5)) with (5 + Z.to_nat k)%nat by lia. reflexivity. }
  replace (5 * (i / 4 + 1) + i mod 4) with (5 * (i / 4) + i mod 4 + 5) by lia.
  replace (5 * (i / 4 + 1) + 4) with (5 * (i / 4) + 4 + 5) by lia.
  rewrite !Hshift by lia. reflexivity.
Qed.

Lemma pixel_at_skipn (src : list byte) (n i : Z) :
  0 <= n -> 0 <= i ->
  pixel_at (skipn (Z.to_nat n) src) i =
  group_pixel (i mod 4)
    (byte_at src (n + 5 * (i / 4) + i mod 4))
    (byte_at src (n + 5 * (i / 4) + 4)).
Proof.
  intros Hn Hi. unfold pixel_at, byte_at.
  pose proof (Z.mod_pos_bound i 4 ltac:(lia)) as Hm.
  pose proof (Z.div_pos i 4 Hi ltac:(lia)) as Hd.
  rewrite !nth_skipn. repeat f_equal; lia.
Qed.

Lemma pixel_at_group (c0 c1 c2 c3 c4 : byte) (rest : list byte) :
  let line := c0 :: c1 :: c2 :: c3 :: c4 :: rest in
  pixel_at line 0 = group_pixel 0 (u8 c0) (u8 c4) /\
  pixel_at line 1 = group_pixel 1 (u8 c1) (u8 c4) /\
  pixel_at line 2 = group_pixel 2 (u8 c2) (u8 c4) /\
  pixel_at line 3 = group_pixel 3 (u8 c3) (u8 c4).
Proof. repeat split. Qed.

Lemma pixel_at_head (c0 c1 c2 c3 c4 : byte) (rest : list byte) :
  let line := c0 :: c1 :: c2 :: c3 :: c4 :: rest in
  Util.px0 (u8 c0) (u8 c4) = pixel_at line 0 /\
  Util.px1 (u8 c1) (u8 c4) = pixel_at line 1 /\
  Util.px2 (u8 c2) (u8 c4) = pixel_at line 2 /\
  Util.px3 (u8 c3) (u8 c4) = pixel_at line 3.
Proof.
  cbv zeta.
  rewrite px0_group, px1_group, px2_group, px3_group by apply u8_range.
  repeat split.
Qed.

Lemma unpackLine_done (size_bits width : Z) (line : list byte) (x : Z)
  (st : Util.cursor) :
  width <= x -> Util.unpackLine size_bits width line x st = Some st.
Proof.
  intros H.
  destruct line; cbn [Util.unpackLine];
    destruct (Z.ltb_spec x width); try lia; reflexivity.
Qed.

Section UnpackLoops.

Variables (size_bits width : Z) (dst0 : list Z) (F : Z -> Z).
Hypothesis Hfit : Z.of_nat (List.length dst0) < 2 ^ size_bits.
Hypothesis Hwidth : width + 4 < 2 ^ 32.

Lemma emit_wrote (p : Z) (dst : list Z) (hi : Z) :
  wrote dst0 dst hi F ->
  0 <= hi < Z.of_nat (List.length dst0) ->
  p = F hi ->
  exists dst', Util.emit size_bits true p (dst, hi) = Some (dst', hi + 1) /\
               wrote dst0 dst' (hi + 1) F.
Proof.
  intros HW Hhi Hp.
  destruct (store_wrote dst0 dst hi F p HW Hhi Hp) as (dst' & E & HW').
  exists dst'. split; [|exact HW'].
  unfold Util.emit. cbn [fst snd]. rewrite E.
  unfold Util.to_size_t. rewrite Z.mod_small by lia. reflexivity.
Qed.

Lemma small_u32 (x k : Z) : 0 <= x <= width -> 0 <= k <= 4 -> to_u32 (x + k) = x + k.
Proof. intros Hx Hk. unfold to_u32. apply Z.mod_small. lia. Qed.

Lemma unpackLine_wrote (n : nat) :
  forall (line : list byte) (x : Z) (dst : list Z) (outIdx : Z),
    0 <= x <= width ->
    width - x <= 4 * Z.of_nat n ->
    0 <= outIdx ->
    outIdx + (width - x) <= Z.of_nat (List.length dst0) ->
    5 * ((width - x + 3) / 4) <= Z.of_nat (List.length line) ->
    wrote dst0 dst outIdx F ->
    (forall i, 0 <= i < width - x -> F (outIdx + i) = pixel_at line i) ->
    exists dst',
      Util.unpackLine size_bits width line x (dst, outIdx)
        = Some (dst', outIdx + (width - x)) /\
      wrote dst0 dst' (outIdx + (width - x)) F.
Proof.
  induction n as [|n IH]; intros line x dst outIdx Hx Hn Hout Hroom Hline HW HF.
  - assert (x = width) by lia. subst x.
    exists dst. rewrite unpackLine_done by lia.
    replace (outIdx + (width - width)) with outIdx by lia. auto.
  - destruct (Z.eq_dec x width) as [->|Hne].
    { exists dst. rewrite unpackLine_done by lia.
      replace (outIdx + (width - width)) with outIdx by lia. auto. }
    assert (Hgroups : 1 <= (width - x + 3) / 4)
      by (apply Z.div_le_lower_bound; lia).
    destruct line as [|c0 [|c1 [|c2 [|c3 [|c4 rest]]]]];
      cbn [List.length] in Hline; try lia.
    destruct (pixel_at_head c0 c1 c2 c3 c4 rest) as (P0 & P1 & P2 & P3).
    cbn [Util.unpackLine]. cbv zeta.
    rewrite (small_u32 x 1), (small_u32 x 2), (small_u32 x 3), (small_u32 x 4)
      by lia.
    replace (x <? width) with true by (symmetry; apply Z.ltb_lt; lia).
    destruct (emit_wrote (Util.px0 (u8 c0) (u8 c4)) dst outIdx HW) as (d1 & E1 & W1);
      [lia | rewrite P0, <- (HF 0) by lia; f_equal; lia |].
    rewrite E1. cbn [Util.and_then].
    destruct (Z.ltb_spec (x + 1) width) as [L1|L1].
    2:{ cbn [Util.emit Util.and_then].
        destruct (Z.ltb_spec (x + 2) width); [lia|].
        destruct (Z.ltb_spec (x + 3) width); [lia|].
        cbn [Util.emit Util.and_then].
        rewrite unpackLine_done by lia.
        replace (outIdx + (width - x)) with (outIdx + 1) by lia. eauto. }
    destruct (emit_wrote (Util.px1 (u8 c1) (u8 c4)) d1 (outIdx + 1) W1) as (d2 & E2 & W2);
      [lia | rewrite P1, <- (HF 1) by lia; reflexivity |].
    rewrite E2. cbn [Util.and_then].
    destruct (Z.ltb_spec (x + 2) width) as [L2|L2].
    2:{ cbn [Util.emit Util.and_then].
        destruct (Z.ltb_spec (x + 3) width); [lia|].
        cbn [Util.emit Util.and_then].
        rewrite unpackLine_done by lia.
        replace (outIdx + (width - x)) with (outIdx + 1 + 1) by lia. eauto. }
    destruct (emit_wrote (Util.px2 (u8 c2) (u8 c4)) d2 (outIdx + 1 + 1) W2) as (d3 & E3 & W3);
      [lia | rewrite P2, <- (HF 2) by lia; f_equal; lia |].
    rewrite E3. cbn [Util.and_then].
    destruct (Z.ltb_spec (x + 3) width) as [L3|L3].
    2:{ cbn [Util.emit Util.and_then].
        rewrite unpackLine_done by lia.
        replace (outIdx + (width - x)) with (outIdx + 1 + 1 + 1) by lia. eauto. }
    destruct (emit_wrote (Util.px3 (u8 c3) (u8 c4)) d3 (outIdx + 1 + 1 + 1) W3) as (d4 & E4 & W4);
      [lia | rewrite P3, <- (HF 3) by lia; f_equal; lia |].
    rewrite E4. cbn [Util.and_then].
    replace (outIdx + (width - x)) with (outIdx + 1 + 1 + 1 + 1 + (width - (x + 4))) by lia.
    apply IH; try lia; try assumption.
    + cbn [List.length] in *.
      replace (width - x + 3) with (width - (x + 4) + 3 + 1 * 4) in Hline by lia.
      rewrite Z.div_add in Hline by lia. lia.
    + intros i Hi.
      replace (outIdx + 1 + 1 + 1 + 1 + i) with (outIdx + (i + 4)) by lia.
      rewrite HF by lia. apply pixel_at_next. lia.
Qed.

End UnpackLoops.

Lemma stride_ge (width : Z) : 0 <= width -> width <= stride width.
Proof.
  intros H. unfold stride. apply Z.div_le_lower_bound; lia.
Qed.

Section UnpackRows.

Variables (size_bits width height : Z) (src : list byte) (dst0 : list Z).
Hypothesis Hw0 : 0 <= width.
Hypothesis Hw : width * 10 + 7 < 2 ^ 32.
Hypothesis Hh : 0 <= height < 2 ^ 32.
Hypothesis Hdst : Z.of_nat (List.length dst0) = width * height.
Hypothesis Hsize : stride width * height < 2 ^ size_bits.
Hypothesis Hmapped : groups_mapped (Z.of_nat (List.length src)) 0 width height.

Lemma unpackRows_wrote (todo : nat) :
  forall (y : Z) (dst : list Z),
    0 <= y ->
    y + Z.of_nat todo = height ->
    wrote dst0 dst (y * width) (unpacked src width) ->
    exists dst',
      Util.unpackRows size_bits src (stride width) width todo y (dst, y * width)
        = Some (dst', height * width) /\
      wrote dst0 dst' (height * width) (unpacked src width).
Proof.
  pose proof (stride_ge width Hw0) as Hs.
  induction todo as [|todo IH]; intros y dst Hy Hsum HW.
  - assert (y = height) by lia. subst y. exists dst. split; [reflexivity|exact HW].
  - cbn [Util.unpackRows]. cbv zeta.
    assert (Hys : 0 <= y * stride width < 2 ^ size_bits) by nia.
    unfold Util.to_size_t at 1. rewrite (Z.mod_small _ _ Hys).
    assert (Hnext : to_u32 (y + 1) = y + 1)
      by (unfold to_u32; apply Z.mod_small; lia).
    rewrite Hnext.
    destruct (Z.eq_dec width 0) as [W0|W0].
    + rewrite unpackLine_done by lia. cbn [Util.and_then].
      replace (y * width) with ((y + 1) * width) by (rewrite W0; lia).
      apply IH; try lia.
      replace ((y + 1) * width) with (y * width) by (rewrite W0; lia). exact HW.
    + destruct (unpackLine_wrote size_bits width dst0 (unpacked src width)
                  ltac:(nia) ltac:(lia) (Z.to_nat width)
                  (skipn (Z.to_nat (y * stride width)) src) 0 dst (y * width))
        as (d & E & W); try lia; try nia; try exact HW.
      * rewrite length_skipn. rewrite Z.sub_0_r.
        destruct Hmapped as [?|[?|Hm]]; try lia.
        assert (y * stride width <= stride width * (height - 1)) by nia.
        assert (0 <= (width + 3) / 4) by (apply Z.div_pos; lia).
        lia.
      * intros i Hi. unfold unpacked.
        replace ((y * width + i) / width) with y
          by (rewrite Z.add_comm, Z.div_add by lia;
              rewrite Z.div_small by lia; lia).
        replace ((y * width + i) mod width) with i
          by (rewrite Z.add_comm, Z.mod_add by lia;
              rewrite Z.mod_small by lia; lia).
        reflexivity.
      * rewrite E. cbn [Util.and_then].
        replace (y * width + (width - 0)) with ((y + 1) * width) in * by lia.
        apply IH; try lia. exact W.
Qed.

End UnpackRows.

Lemma byte_at_skipn (mem : list byte) (off k : Z) :
  0 <= off -> 0 <= k ->
  byte_at (skipn (Z.to_nat off) mem) k = byte_at mem (off + k).
Proof.
  intros Ho Hk. unfold byte_at. rewrite nth_skipn. repeat f_equal. lia.
Qed.

Lemma unpacked_bytes (mem : list byte) (off width y i : Z) :
  0 <= off -> 0 <= y -> 0 <= i < width ->
  unpacked (skipn (Z.to_nat off) mem) width (y * width + i) =
  group_pixel (i mod 4)
    (byte_at mem (off + y * stride width + 5 * (i / 4) + i mod 4))
    (byte_at mem (off + y * stride width + 5 * (i / 4) + 4)).
Proof.
  intros Ho Hy Hi. unfold unpacked.
  replace ((y * width + i) / width) with y
    by (rewrite Z.add_comm, Z.div_add by lia; rewrite Z.div_small by lia; lia).
  replace ((y * width + i) mod width) with i
    by (rewrite Z.add_comm, Z.mod_add by lia; rewrite Z.mod_small by lia; lia).
  pose proof (stride_ge width ltac:(lia)).
  pose proof (Z.mod_pos_bound i 4 ltac:(lia)).
  pose proof (Z.div_pos i 4 ltac:(lia) ltac:(lia)).
  rewrite pixel_at_skipn by nia.
  rewrite !byte_at_skipn by nia.
  f_equal; (f_equal; lia).
Qed.

Lemma groups_mapped_skipn (mem : list byte) (off width height : Z) :
  0 <= off -> 0 <= width ->
  groups_mapped (Z.of_nat (List.length mem)) off width height ->
  groups_mapped (Z.of_nat (List.length (skipn (Z.to_nat off) mem))) 0 width height.
Proof.
  intros Ho Hw [H|[H|H]]; [left; exact H | right; left; exact H |].
  right; right. rewrite length_skipn. lia.
Qed.

(** The unpacker on an accepted input whose group reads are all mapped. *)
Lemma unpack_ok (size_bits : Z) (fb : Util.FrameBuffer) (p : Util.Plane)
  (mem : list byte) (width height : Z) (dst : list Z) :
  32 <= size_bits ->
  Util.planes fb = [p] ->
  Util.cookie fb = Some mem ->
  u32_range (Util.plane_offset p) ->
  stride width * height < 2 ^ size_bits ->
  0 <= width -> width * 10 + 7 < 2 ^ 32 ->
  0 <= height < 2 ^ 32 ->
  Z.of_nat (List.length dst) = width * height ->
  stride width * height <= Util.plane_length p ->
  groups_mapped (Z.of_nat (List.length mem)) (Util.plane_offset p) width height ->
  let src := skipn (Z.to_nat (Util.plane_offset p)) mem in
  exists out,
    Util.unpackRaw10To16 size_bits (Some fb) width height dst = Returned (true, out) /\
    Util.unpackRows size_bits src (stride width) width (Z.to_nat height) 0 (dst, 0)
      = Some (out, width * height) /\
    wrote dst out (width * height) (unpacked src width).
Proof.
  intros Hsz Hplanes Hcookie Hoff Hsize Hw0 Hw Hh Hdst Hplane Hmapped src.
  assert (Hpow : 2 ^ 32 <= 2 ^ size_bits) by (apply Z.pow_le_mono_r; lia).
  pose proof (stride_ge width Hw0) as Hs.
  unfold u32_range in *.
  destruct (unpackRows_wrote size_bits width height src dst Hw0 Hw Hh Hdst Hsize
              (groups_mapped_skipn mem _ width height (proj1 Hoff) Hw0 Hmapped)
              (Z.to_nat height) 0 dst)
    as (out & E & W); try lia.
  { repeat split; intros; try lia; reflexivity. }
  replace (height * width) with (width * height) in * by lia.
  change (0 * width) with 0 in E.
  exists out. split; [|split; [exact E|exact W]].
  unfold Util.unpackRaw10To16. rewrite Hplanes, Hcookie.
  unfold Util.to_size_t at 1. rewrite Z.mod_small by nia.
  rewrite Hdst, Z.eqb_refl. cbn [negb]. cbv zeta.
  unfold to_u32. rewrite (Z.mod_small (width * 10 + 7)) by lia.
  change ((width * 10 + 7) / 8) with (stride width).
  unfold Util.to_size_t at 1. rewrite Z.mod_small by nia.
  destruct (Z.ltb_spec (Util.plane_length p) (stride width * height)); [lia|].
  fold src. rewrite E. reflexivity.
Qed.

(** ** The claims about [unpackRaw10To16] *)

(** C1.  On every accepted input (one plane, [dst] of [width * height]
    samples, a plane of at least [stride * height] bytes) whose group reads
    are mapped, the unpacker succeeds, and in every row [y] every complete
    group [g] is decoded from its bytes [b0 .. b4] by
    [pixel0 = b0 | ((b4 & 3) << 8)], [pixel1 = b1 | (((b4 >> 2) & 3) << 8)],
    [pixel2 = b2 | (((b4 >> 4) & 3) << 8)], [pixel3 = b3 | (((b4 >> 6) & 3) << 8)];
    every sample of the output is in [0 .. 1023], its upper six bits zero. *)
Theorem C1_complete_groups_decoded (size_bits : Z) (fb : Util.FrameBuffer)
  (p : Util.Plane) (mem : list byte) (width height : Z) (dst : list Z) :
  accepted size_bits fb p mem width height dst ->
  groups_mapped (Z.of_nat (List.length mem)) (Util.plane_offset p) width height ->
  exists out,
    Util.unpackRaw10To16 size_bits (Some fb) width height dst = Returned (true, out) /\
    Z.of_nat (List.length out) = width * height /\
    (forall y g, 0 <= y < height -> 0 <= g -> 4 * g + 3 < width ->
       let at_ := Util.plane_offset p + y * stride width + 5 * g in
       let b0 := byte_at mem at_ in
       let b1 := byte_at mem (at_ + 1) in
       let b2 := byte_at mem (at_ + 2) in
       let b3 := byte_at mem (at_ + 3) in
       let b4 := byte_at mem (at_ + 4) in
       sample out (y * width + 4 * g) = Z.lor b0 (Z.shiftl (Z.land b4 3) 8) /\
       sample out (y * width + 4 * g + 1)
         = Z.lor b1 (Z.shiftl (Z.land (Z.shiftr b4 2) 3) 8) /\
       sample out (y * width + 4 * g + 2)
         = Z.lor b2 (Z.shiftl (Z.land (Z.shiftr b4 4) 3) 8) /\
       sample out (y * width + 4 * g + 3)
         = Z.lor b3 (Z.shiftl (Z.land (Z.shiftr b4 6) 3) 8)) /\
    (forall i, 0 <= i < width * height ->
       0 <= sample out i < 1024 /\ Z.shiftr (sample out i) 10 = 0).
Proof.
  intros (Hsz & Hplanes & Hcookie & Hoff & Hlen & Hw0 & Hw & Hh & Hdst & Hplane)
    Hmapped.
  assert (Hpow : 2 ^ 32 <= 2 ^ size_bits) by (apply Z.pow_le_mono_r; lia).
  destruct (unpack_ok size_bits fb p mem width height dst)
    as (out & E & _ & Hl & Hlow & _); try assumption;
    [unfold u32_range in Hlen; lia|].
  exists out. split; [exact E|]. split; [lia|]. split.
  - intros y g Hy Hg Hfull. cbv zeta.
    assert (Hpix : forall j, 0 <= j < 4 ->
      sample out (y * width + (4 * g + j)) =
      group_pixel j
        (byte_at mem (Util.plane_offset p + y * stride width + 5 * g + j))
        (byte_at mem (Util.plane_offset p + y * stride width + 5 * g + 4))).
    { intros j Hj. rewrite Hlow by nia.
      rewrite unpacked_bytes by (unfold u32_range in Hoff; lia).
      replace ((4 * g + j) mod 4) with j
        by (rewrite Z.add_comm, Z.mul_comm, Z.mod_add by lia;
            rewrite Z.mod_small by lia; reflexivity).
      replace ((4 * g + j) / 4) with g
        by (rewrite Z.add_comm, Z.mul_comm, Z.div_add by lia;
            rewrite Z.div_small by lia; reflexivity).
      reflexivity. }
    pose proof (Hpix 0 ltac:(lia)) as H0.
    pose proof (Hpix 1 ltac:(lia)) as H1.
    pose proof (Hpix 2 ltac:(lia)) as H2.
    pose proof (Hpix 3 ltac:(lia)) as H3.
    rewrite !Z.add_0_r in H0. rewrite !Z.add_assoc in H1, H2, H3.
    repeat split; assumption.
  - intros i Hi. rewrite Hlow by lia.
    assert (Hr : 0 <= unpacked (skipn (Z.to_nat (Util.plane_offset p)) mem) width i < 1024).
    { unfold unpacked. apply pixel_at_range. apply Z.mod_pos_bound. nia. }
    split; [exact Hr|].
    rewrite Z.shiftr_div_pow2 by lia. apply Z.div_small. lia.
Qed.

Lemma C1_witness :
  accepted 64 fb_4x2 {| Util.plane_offset := 0; Util.plane_length := 10 |}
    mem_4x2 4 2 (repeat 0 8%nat) /\
  groups_mapped 10 0 4 2 /\
  exists out,
    Util.unpackRaw10To16 64 (Some fb_4x2) 4 2 (repeat 0 8%nat) = Returned (true, out) /\
    sample out 1 = Z.lor 2 (Z.shiftl (Z.land (Z.shiftr 228 2) 3) 8).
Proof.
  assert (Ha : accepted 64 fb_4x2 {| Util.plane_offset := 0; Util.plane_length := 10 |}
                 mem_4x2 4 2 (repeat 0 8%nat))
    by (unfold accepted, u32_range; cbn; repeat split; try reflexivity; lia).
  assert (Hm : groups_mapped 10 0 4 2)
    by (right; right; vm_compute; discriminate).
  split; [exact Ha|]. split; [exact Hm|].
  destruct (C1_complete_groups_decoded 64 fb_4x2 _ mem_4x2 4 2 (repeat 0 8%nat) Ha Hm)
    as (out & E & _ & Hg & _).
  exists out. split; [exact E|].
  exact (proj1 (proj2 (Hg 0 0 ltac:(lia) ltac:(lia) ltac:(lia)))).
Defined.

(** X21.  For a width that is not a multiple of 4, on an accepted input whose
    group reads are mapped, the unpacker succeeds having advanced the output
    index to exactly [width * height] in a buffer of that size; each row
    advances it by exactly [width], writes positions
    [y * width .. y * width + width) with the pixels of that row (the
    leading 1-3 pixels of the final partial group included) and leaves
    every other position of the buffer as it was. *)
Theorem partial_rows_when_mapped (size_bits : Z) (fb : Util.FrameBuffer)
  (p : Util.Plane) (mem : list byte) (width height : Z) (dst : list Z) :
  width mod 4 <> 0 ->
  accepted size_bits fb p mem width height dst ->
  groups_mapped (Z.of_nat (List.length mem)) (Util.plane_offset p) width height ->
  let src := skipn (Z.to_nat (Util.plane_offset p)) mem in
  (exists out,
     Util.unpackRaw10To16 size_bits (Some fb) width height dst = Returned (true, out) /\
     Util.unpackRows size_bits src (stride width) width (Z.to_nat height) 0 (dst, 0)
       = Some (out, width * height) /\
     Z.of_nat (List.length out) = width * height /\
     (forall y i, 0 <= y < height -> 0 <= i < width ->
        sample out (y * width + i) =
        group_pixel (i mod 4)
          (byte_at mem (Util.plane_offset p + y * stride width + 5 * (i / 4) + i mod 4))
          (byte_at mem (Util.plane_offset p + y * stride width + 5 * (i / 4) + 4)))) /\
  (forall y d, 0 <= y < height -> List.length d = List.length dst ->
     exists d',
       Util.unpackLine size_bits width
         (skipn (Z.to_nat (y * stride width)) src) 0 (d, y * width)
         = Some (d', y * width + width) /\
       List.length d' = List.length d /\
       (forall j, 0 <= j < y * width \/ y * width + width <= j ->
          sample d' j = sample d j)).
Proof.
  intros Hmod (Hsz & Hplanes & Hcookie & Hoff & Hlen & Hw0 & Hw & Hh & Hdst & Hplane)
    Hmapped src.
  assert (Hpow : 2 ^ 32 <= 2 ^ size_bits) by (apply Z.pow_le_mono_r; lia).
  pose proof (stride_ge width Hw0) as Hs.
  unfold u32_range in *.
  split.
  - destruct (unpack_ok size_bits fb p mem width height dst)
      as (out & E & R & Hl & Hlow & _); try assumption; [lia|].
    exists out. repeat split; try assumption; try lia.
    intros y i Hy Hi. rewrite Hlow by nia.
    apply unpacked_bytes; lia.
  - intros y d Hy Hd.
    set (line := skipn (Z.to_nat (y * stride width)) src).
    set (F := fun idx => if idx <? y * width then sample d idx
                         else pixel_at line (idx - y * width)).
    destruct (unpackLine_wrote size_bits width d F ltac:(nia) ltac:(lia)
                (Z.to_nat width) line 0 d (y * width))
      as (d' & E & Hl & Hlow & Hhigh); try lia; try nia.
    + unfold line, src. rewrite !length_skipn, Z.sub_0_r.
      destruct Hmapped as [W|[?|Hm]];
        [rewrite W in Hmod; exfalso; apply Hmod; reflexivity | lia |].
      assert (0 <= y * stride width <= stride width * (height - 1)) by nia.
      assert (0 <= (width + 3) / 4) by (apply Z.div_pos; lia).
      lia.
    + repeat split; intros; try reflexivity.
      unfold F. destruct (Z.ltb_spec i (y * width)); [reflexivity|lia].
    + intros i Hi. unfold F.
      destruct (Z.ltb_spec (y * width + i) (y * width)); [lia|].
      f_equal. lia.
    + replace (y * width + (width - 0)) with (y * width + width) in * by lia.
      exists d'. split; [exact E|]. split; [exact Hl|].
      intros j [Hj|Hj].
      * rewrite Hlow by lia. unfold F.
        destruct (Z.ltb_spec j (y * width)); [reflexivity|lia].
      * apply Hhigh. exact Hj.
Qed.

Lemma X21_witness :
  6 mod 4 <> 0 /\
  accepted 64 fb_6x1 {| Util.plane_offset := 0; Util.plane_length := 8 |}
    mem_6x1 6 1 (repeat 7 6%nat) /\
  groups_mapped 10 0 6 1 /\
  exists out,
    Util.unpackRaw10To16 64 (Some fb_6x1) 6 1 (repeat 7 6%nat) = Returned (true, out) /\
    Z.of_nat (List.length out) = 6.
Proof.
  assert (Hn : 6 mod 4 <> 0) by (vm_compute; discriminate).
  assert (Ha : accepted 64 fb_6x1 {| Util.plane_offset := 0; Util.plane_length := 8 |}
                 mem_6x1 6 1 (repeat 7 6%nat))
    by (unfold accepted, u32_range; cbn; repeat split; try reflexivity; lia).
  assert (Hm : groups_mapped 10 0 6 1)
    by (right; right; vm_compute; discriminate).
  split; [exact Hn|]. split; [exact Ha|]. split; [exact Hm|].
  destruct (partial_rows_when_mapped 64 fb_6x1 _ mem_6x1 6 1
              (repeat 7 6%nat) Hn Ha Hm) as ((out & E & _ & L & _) & _).
  exists out. split; [exact E|exact L].
Defined.

Example unpack_6x1 :
  Util.unpackRaw10To16 64 (Some fb_6x1) 6 1 (repeat 7 6%nat)
  = Returned (true, [1; 258; 515; 772; 773; 518]).
Proof. reflexivity. Qed.

(** C7, as the code has it.  For a non-null frame buffer the unpacker returns
    failure (leaving [dst] as it was) if and only if the output capacity
    differs from [width * height], or the number of planes is not exactly
    one, or the base pointer kept in the cookie is null, or the plane has
    fewer than [stride * height] bytes; when none of these holds and every
    group read is mapped, it returns success. *)
Theorem C7_failure_iff (size_bits : Z) (fb : Util.FrameBuffer)
  (width height : Z) (dst : list Z) :
  32 <= size_bits ->
  0 <= width -> width * 10 + 7 < 2 ^ 32 ->
  0 <= height < 2 ^ 32 ->
  stride width * height < 2 ^ size_bits ->
  (Util.unpackRaw10To16 size_bits (Some fb) width height dst = Returned (false, dst)
   <-> rejects fb width height dst) /\
  (~ rejects fb width height dst ->
   forall p mem,
     Util.planes fb = [p] -> Util.cookie fb = Some mem ->
     u32_range (Util.plane_offset p) ->
     groups_mapped (Z.of_nat (List.length mem)) (Util.plane_offset p) width height ->
     exists out,
       Util.unpackRaw10To16 size_bits (Some fb) width height dst = Returned (true, out)).
Proof.
  intros Hsz Hw0 Hw Hh Hsize.
  pose proof (stride_ge width Hw0) as Hs.
  split.
  - unfold Util.unpackRaw10To16, rejects.
    unfold Util.to_size_t at 1. rewrite Z.mod_small by nia.
    destruct (Z.eqb_spec (Z.of_nat (List.length dst)) (width * height)) as [El|El];
      cbn [negb]; [|split; [intros _; left; exact El | reflexivity]].
    destruct (Util.planes fb) as [|p [|q r]] eqn:Ep;
      [split; [intros _; right; left; discriminate | reflexivity]
      | | split; [intros _; right; left; discriminate | reflexivity]].
    destruct (Util.cookie fb) as [mem|] eqn:Ec;
      [|split; [intros _; right; right; left; reflexivity | reflexivity]].
    cbv zeta. unfold to_u32. rewrite (Z.mod_small (width * 10 + 7)) by lia.
    change ((width * 10 + 7) / 8) with (stride width).
    unfold Util.to_size_t at 1. rewrite Z.mod_small by nia.
    destruct (Z.ltb_spec (Util.plane_length p) (stride width * height)) as [Lt|Ge].
    { split; [intros _|reflexivity].
      right; right; right. exists p. split; [reflexivity|exact Lt]. }
    split.
    + destruct (Util.unpackRows _ _ _ _ _ _ _) as [[d ?]|]; discriminate.
    + intros [H|[H|[H|(p' & H & Hlt)]]].
      * contradiction.
      * cbn in H. contradiction.
      * discriminate.
      * injection H as <-. lia.
  - intros Hno p mem Hp Hc Hoff Hm.
    destruct (unpack_ok size_bits fb p mem width height dst)
      as (out & E & _); try assumption.
    + destruct (Z.eq_dec (Z.of_nat (List.length dst)) (width * height)) as [E|E];
        [exact E|]. exfalso. apply Hno. left. exact E.
    + destruct (Z.lt_ge_cases (Util.plane_length p) (stride width * height)) as [L|L];
        [|exact L]. exfalso. apply Hno. right; right; right.
      exists p. split; assumption.
    + exists out. exact E.
Qed.

Lemma C7_witness :
  32 <= 64 /\ 0 <= 4 /\ 4 * 10 + 7 < 2 ^ 32 /\ 0 <= 2 < 2 ^ 32 /\
  stride 4 * 2 < 2 ^ 64 /\
  (Util.unpackRaw10To16 64 (Some fb_4x2) 4 2 [0; 0; 0] = Returned (false, [0; 0; 0])
   <-> rejects fb_4x2 4 2 [0; 0; 0]).
Proof.
  assert (H1 : 32 <= 64) by lia.
  assert (H2 : 0 <= 4) by lia.
  assert (H3 : 4 * 10 + 7 < 2 ^ 32) by lia.
  assert (H4 : 0 <= 2 < 2 ^ 32) by lia.
  assert (H5 : stride 4 * 2 < 2 ^ 64) by (vm_compute; reflexivity).
  repeat (split; [assumption|]).
  exact (proj1 (C7_failure_iff 64 fb_4x2 4 2 [0; 0; 0] H1 H2 H3 H4 H5)).
Defined.

(** The unpacker fails on a non-null frame buffer although the output
    capacity equals [width * height], there is not more than one plane and
    the plane has [stride * height] bytes. *)
Lemma C7_counterexample :
  Util.unpackRaw10To16 64 (Some fb_unmapped) 4 1 [0; 0; 0; 0]
    = Returned (false, [0; 0; 0; 0]) /\
  ~ (Z.of_nat (List.length [0; 0; 0; 0]) <> 4 * 1 \/
     (1 < List.length (Util.planes fb_unmapped))%nat \/
     (exists p, In p (Util.planes fb_unmapped) /\
                Util.plane_length p < stride 4 * 1)).
Proof.
  split; [reflexivity|].
  intros [H|[H|(p & [<-|[]] & H)]].
  - apply H. reflexivity.
  - cbn in H. lia.
  - vm_compute in H. discriminate.
Qed.

Lemma stride_short (width : Z) :
  0 <= width -> width mod 4 <> 0 -> stride width < 5 * ((width + 3) / 4).
Proof.
  intros H0 Hm. unfold stride. Z.div_mod_to_equations. lia.
Qed.

(** A line with fewer bytes than its groups need has no defined result. *)
Lemma unpackLine_short (size_bits width : Z) (n : nat) :
  width + 4 < 2 ^ 32 ->
  forall (line : list byte) (x : Z) (st : Util.cursor),
    0 <= x < width ->
    width - x <= 4 * Z.of_nat n ->
    Z.of_nat (List.length line) < 5 * ((width - x + 3) / 4) ->
    Util.unpackLine size_bits width line x st = None.
Proof.
  intros Hwidth. induction n as [|n IH]; intros line x st Hx Hn Hline; [lia|].
  destruct line as [|c0 [|c1 [|c2 [|c3 [|c4 rest]]]]];
    cbn [Util.unpackLine]; cbv zeta;
    replace (x <? width) with true by (symmetry; apply Z.ltb_lt; lia);
    try reflexivity.
  destruct (Util.emit size_bits true _ st) as [st1|]; cbn [Util.and_then]; [|reflexivity].
  destruct (Util.emit size_bits _ _ st1) as [st2|]; cbn [Util.and_then]; [|reflexivity].
  destruct (Util.emit size_bits _ _ st2) as [st3|]; cbn [Util.and_then]; [|reflexivity].
  destruct (Util.emit size_bits _ _ st3) as [st4|]; cbn [Util.and_then]; [|reflexivity].
  unfold to_u32 at 1. rewrite (Z.mod_small (x + 4)) by lia.
  cbn [List.length] in Hline.
  destruct (Z.lt_ge_cases (x + 4) width) as [Hlt|Hge].
  - apply IH; try lia.
    replace (width - x + 3) with (width - (x + 4) + 3 + 1 * 4) in Hline by lia.
    rewrite Z.div_add in Hline by lia. lia.
  - exfalso.
    assert ((width - x + 3) / 4 = 1)
      by (symmetry; apply (Z.div_unique _ 4 1 (width - x - 1)); lia).
    lia.
Qed.

Lemma unpackRows_short (size_bits width height S : Z) (src : list byte) :
  0 <= S -> 0 < height < 2 ^ 32 -> S * height < 2 ^ size_bits ->
  (forall st, Util.unpackLine size_bits width
                (skipn (Z.to_nat ((height - 1) * S)) src) 0 st = None) ->
  forall (todo : nat) (y : Z) (st : Util.cursor),
    0 <= y -> y + Z.of_nat todo = height -> (0 < todo)%nat ->
    Util.unpackRows size_bits src S width todo y st = None.
Proof.
  intros HS Hh Hfit Hlast.
  induction todo as [|todo IH]; intros y st Hy Hsum Hpos; [lia|].
  cbn [Util.unpackRows]. cbv zeta.
  unfold Util.to_size_t at 1. rewrite Z.mod_small by nia.
  destruct todo as [|todo'].
  - replace y with (height - 1) by lia. rewrite Hlast. reflexivity.
  - destruct (Util.unpackLine _ _ _ _ _) as [st'|]; cbn [Util.and_then];
      [|reflexivity].
    unfold to_u32. rewrite Z.mod_small by lia.
    apply IH; lia.
Qed.

(** C2 fails on the code.  For a width that is not a multiple of 4 and a
    plane of exactly [stride * height] bytes, the last group of the last row
    ends past the plane: its five bytes reach index
    [stride * (height - 1) + 5 * ceil (width / 4) - 1 >= stride * height];
    and when the mapped memory ends where the plane ends, the accepted call
    reads outside it and has no defined result. *)
Theorem C2_partial_group_read_past_plane (size_bits : Z) (fb : Util.FrameBuffer)
  (p : Util.Plane) (mem : list byte) (width height : Z) (dst : list Z) :
  width mod 4 <> 0 ->
  0 < height ->
  accepted size_bits fb p mem width height dst ->
  Util.plane_length p = stride width * height ->
  Z.of_nat (List.length mem) = Util.plane_offset p + Util.plane_length p ->
  stride width * height <= stride width * (height - 1) + 5 * ((width + 3) / 4) - 1 /\
  Util.unpackRaw10To16 size_bits (Some fb) width height dst = Undefined.
Proof.
  intros Hmod Hpos (Hsz & Hplanes & Hcookie & Hoff & Hlen & Hw0 & Hw & Hh & Hdst & Hplane)
    Hexact Hmem.
  assert (Hpow : 2 ^ 32 <= 2 ^ size_bits) by (apply Z.pow_le_mono_r; lia).
  pose proof (stride_ge width Hw0) as Hs.
  pose proof (stride_short width Hw0 Hmod) as Hshort.
  unfold u32_range in *.
  assert (Hwpos : 0 < width).
  { destruct (Z.eq_dec width 0) as [W|W]; [|lia].
    rewrite W in Hmod. exfalso. apply Hmod. reflexivity. }
  split; [lia|].
  unfold Util.unpackRaw10To16. rewrite Hplanes, Hcookie.
  unfold Util.to_size_t at 1. rewrite Z.mod_small by nia.
  rewrite Hdst, Z.eqb_refl. cbn [negb]. cbv zeta.
  unfold to_u32. rewrite (Z.mod_small (width * 10 + 7)) by lia.
  change ((width * 10 + 7) / 8) with (stride width).
  unfold Util.to_size_t at 1. rewrite Z.mod_small by nia.
  destruct (Z.ltb_spec (Util.plane_length p) (stride width * height)); [lia|].
  rewrite (unpackRows_short size_bits width height (stride width)); try lia.
  - reflexivity.
  - intros st. apply (unpackLine_short size_bits width (Z.to_nat width)); try lia.
    rewrite !length_skipn, Z.sub_0_r.
    assert (0 <= (height - 1) * stride width) by nia.
    lia.
Qed.

Lemma C2_witness :
  1 mod 4 <> 0 /\ 0 < 1 /\
  accepted 64 fb_1x1 {| Util.plane_offset := 0; Util.plane_length := 2 |}
    [x2a; x01] 1 1 [0] /\
  2 = stride 1 * 1 /\
  Util.unpackRaw10To16 64 (Some fb_1x1) 1 1 [0] = Undefined.
Proof.
  assert (Hn : 1 mod 4 <> 0) by (vm_compute; discriminate).
  assert (Hp : 0 < 1) by lia.
  assert (Ha : accepted 64 fb_1x1 {| Util.plane_offset := 0; Util.plane_length := 2 |}
                 [x2a; x01] 1 1 [0])
    by (unfold accepted, u32_range; cbn; repeat split; try reflexivity; lia).
  assert (He : 2 = stride 1 * 1) by reflexivity.
  repeat (split; [assumption|]).
  exact (proj2 (C2_partial_group_read_past_plane 64 fb_1x1 _ [x2a; x01] 1 1 [0]
                  Hn Hp Ha He eq_refl)).
Defined.

(** ** Round trip through the packer *)

Lemma high_parts_packed (h0 h1 h2 h3 : Z) :
  0 <= h0 < 4 -> 0 <= h1 < 4 -> 0 <= h2 < 4 -> 0 <= h3 < 4 ->
  let b4 := (Z.lor (Z.lor h0 (Z.shiftl h1 2))
               (Z.lor (Z.shiftl h2 4) (Z.shiftl h3 6))) mod 256 in
  (b4 / 2 ^ (2 * 0)) mod 4 = h0 /\ (b4 / 2 ^ (2 * 1)) mod 4 = h1 /\
  (b4 / 2 ^ (2 * 2)) mod 4 = h2 /\ (b4 / 2 ^ (2 * 3)) mod 4 = h3.
Proof.
  intros H0 H1 H2 H3.
  assert (E0 : h0 = 0 \/ h0 = 1 \/ h0 = 2 \/ h0 = 3) by lia.
  assert (E1 : h1 = 0 \/ h1 = 1 \/ h1 = 2 \/ h1 = 3) by lia.
  assert (E2 : h2 = 0 \/ h2 = 1 \/ h2 = 2 \/ h2 = 3) by lia.
  assert (E3 : h3 = 0 \/ h3 = 1 \/ h3 = 2 \/ h3 = 3) by lia.
  destruct E0 as [->|[->|[->| ->]]];
    destruct E1 as [->|[->|[->| ->]]];
    destruct E2 as [->|[->|[->| ->]]];
    destruct E3 as [->|[->|[->| ->]]];
    vm_compute; repeat split.
Qed.

Lemma low_high_parts (v : Z) :
  ten_bit v -> 0 <= v / 256 < 4 /\ v mod 256 + 256 * (v / 256) = v.
Proof.
  unfold ten_bit. intros H. Z.div_mod_to_equations. lia.
Qed.

Lemma pixel_at_pack10_group (v0 v1 v2 v3 : Z) (rest : list Z) :
  ten_bit v0 -> ten_bit v1 -> ten_bit v2 -> ten_bit v3 ->
  let line := pack10 (v0 :: v1 :: v2 :: v3 :: rest) in
  pixel_at line 0 = v0 /\ pixel_at line 1 = v1 /\
  pixel_at line 2 = v2 /\ pixel_at line 3 = v3.
Proof.
  intros T0 T1 T2 T3. cbv zeta. cbn [pack10].
  destruct (low_high_parts v0 T0) as (R0 & S0).
  destruct (low_high_parts v1 T1) as (R1 & S1).
  destruct (low_high_parts v2 T2) as (R2 & S2).
  destruct (low_high_parts v3 T3) as (R3 & S3).
  destruct (high_parts_packed (v0 / 256) (v1 / 256) (v2 / 256) (v3 / 256) R0 R1 R2 R3)
    as (P0 & P1 & P2 & P3).
  assert (Hlow : forall v, u8 (byte_of (Z.land v 255)) = v mod 256).
  { intros v. rewrite u8_byte_of.
    change 255 with (Z.ones 8). rewrite (Z.land_ones v 8 ltac:(lia)).
    apply Z.mod_mod. lia. }
  assert (Hsh : forall v, Z.shiftr v 8 = v / 256)
    by (intros v; apply Z.shiftr_div_pow2; lia).
  destruct (pixel_at_group
              (byte_of (Z.land v0 255)) (byte_of (Z.land v1 255))
              (byte_of (Z.land v2 255)) (byte_of (Z.land v3 255))
              (byte_of (Z.lor (Z.lor (Z.shiftr v0 8) (Z.shiftl (Z.shiftr v1 8) 2))
                         (Z.lor (Z.shiftl (Z.shiftr v2 8) 4)
                            (Z.shiftl (Z.shiftr v3 8) 6))))
              (pack10 rest)) as (G0 & G1 & G2 & G3).
  rewrite G0, G1, G2, G3.
  rewrite !Hlow, !u8_byte_of, !Hsh.
  rewrite !group_pixel_arith by (try apply Z.mod_pos_bound; lia).
  rewrite P0, P1, P2, P3. repeat split; assumption.
Qed.

Lemma pixel_at_pack10 (k : nat) :
  forall (samples : list Z) (i : Z),
    0 <= i -> i / 4 = Z.of_nat k ->
    (4 * (k + 1) <= List.length samples)%nat ->
    Forall ten_bit samples ->
    pixel_at (pack10 samples) i = sample samples i.
Proof.
  induction k as [|k IH]; intros samples i Hi Hk Hlen Hall;
    destruct samples as [|v0 [|v1 [|v2 [|v3 rest]]]];
    cbn [List.length] in Hlen; try lia;
    pose proof Hall as Hall';
    apply Forall_cons_iff in Hall' as (T0 & Hall');
    apply Forall_cons_iff in Hall' as (T1 & Hall');
    apply Forall_cons_iff in Hall' as (T2 & Hall');
    apply Forall_cons_iff in Hall' as (T3 & Hall').
  - destruct (pixel_at_pack10_group v0 v1 v2 v3 rest T0 T1 T2 T3) as (P0 & P1 & P2 & P3).
    assert (Ei : i = 0 \/ i = 1 \/ i = 2 \/ i = 3)
      by (Z.div_mod_to_equations; lia).
    destruct Ei as [->|[->|[->| ->]]]; assumption.
  - assert (Hi4 : 4 <= i) by (Z.div_mod_to_equations; lia).
    replace i with ((i - 4) + 4) by lia.
    cbn [pack10]. rewrite pixel_at_next by lia.
    rewrite IH; try assumption; try lia.
    + unfold sample.
      replace (Z.to_nat (i - 4 + 4)) with (4 + Z.to_nat (i - 4))%nat by lia.
      reflexivity.
    + Z.div_mod_to_equations. lia.
Qed.

Lemma pack10_length (n : nat) :
  forall samples, List.length samples = (4 * n)%nat ->
                  List.length (pack10 samples) = (5 * n)%nat.
Proof.
  induction n as [|n IH]; intros samples Hlen.
  - destruct samples; [reflexivity|discriminate].
  - destruct samples as [|v0 [|v1 [|v2 [|v3 rest]]]];
      cbn [List.length] in Hlen; try lia.
    cbn [pack10 List.length]. rewrite (IH rest) by lia. lia.
Qed.

Lemma stride_multiple_of_4 (k : Z) : stride (4 * k) = 5 * k.
Proof. unfold stride. Z.div_mod_to_equations. lia. Qed.

Lemma byte_at_app (l post : list byte) (j : Z) :
  0 <= j < Z.of_nat (List.length l) -> byte_at (l ++ post) j = byte_at l j.
Proof.
  intros H. unfold byte_at. rewrite app_nth1 by lia. reflexivity.
Qed.

Lemma unpacked_pack10 (samples : list Z) (post : list byte)
  (width height idx : Z) :
  width mod 4 = 0 -> 0 <= width -> 0 <= height ->
  Forall ten_bit samples ->
  Z.of_nat (List.length samples) = width * height ->
  0 <= idx < width * height ->
  unpacked (pack10 samples ++ post) width idx = sample samples idx.
Proof.
  intros Hmod Hw Hh Hall Hlen Hidx.
  assert (Hk : width = 4 * (width / 4)) by (Z.div_mod_to_equations; lia).
  set (k := width / 4) in *.
  assert (Hkpos : 0 < k) by nia.
  assert (Hplen : List.length (pack10 samples) = (5 * Z.to_nat (k * height))%nat)
    by (apply pack10_length; nia).
  unfold unpacked. rewrite Hk at 2. rewrite stride_multiple_of_4.
  set (y := idx / width). set (i := idx mod width).
  assert (Hyi : idx = width * y + i /\ 0 <= i < width /\ 0 <= y < height).
  { unfold y, i. pose proof (Z.div_mod idx width ltac:(lia)).
    pose proof (Z.mod_pos_bound idx width ltac:(lia)).
    repeat split; try lia;
      try (apply Z.div_pos; lia); apply Z.div_lt_upper_bound; lia. }
  destruct Hyi as (Eidx & Hi & Hy).
  set (q := i / 4). set (r := i mod 4).
  assert (Hqr : i = 4 * q + r /\ 0 <= r < 4 /\ 0 <= q < k).
  { unfold q, r. pose proof (Z.div_mod i 4 ltac:(lia)).
    pose proof (Z.mod_pos_bound i 4 ltac:(lia)).
    repeat split; try lia;
      try (apply Z.div_pos; lia); apply Z.div_lt_upper_bound; lia. }
  destruct Hqr as (Ei & Hr & Hq).
  assert (Hd : idx / 4 = k * y + q)
    by (symmetry; apply (Z.div_unique idx 4 (k * y + q) r); lia).
  assert (Hm : idx mod 4 = r)
    by (symmetry; apply (Z.mod_unique idx 4 (k * y + q) r); lia).
  rewrite pixel_at_skipn by nia. fold q r.
  rewrite <- (pixel_at_pack10 (Z.to_nat (idx / 4)) samples idx);
    try assumption; try lia; try nia.
  unfold pixel_at. rewrite Hm, Hd.
  rewrite !byte_at_app by nia.
  f_equal; (f_equal; lia).
Qed.

(** C4.  For a width that is a multiple of 4 and a buffer of
    [width * height] samples in [0 .. 1023], unpacking the frame whose plane
    holds the packed buffer gives back exactly that buffer. *)
Theorem C4_pack_unpack_round_trip (size_bits : Z) (fb : Util.FrameBuffer)
  (p : Util.Plane) (pre post : list byte) (samples : list Z)
  (width height : Z) (dst : list Z) :
  width mod 4 = 0 ->
  Forall ten_bit samples ->
  Z.of_nat (List.length samples) = width * height ->
  Util.plane_offset p = Z.of_nat (List.length pre) ->
  accepted size_bits fb p (pre ++ pack10 samples ++ post) width height dst ->
  Util.unpackRaw10To16 size_bits (Some fb) width height dst
    = Returned (true, samples).
Proof.
  intros Hmod Hall Hlen Hoffset
    (Hsz & Hplanes & Hcookie & Hoff & Hplen & Hw0 & Hw & Hh & Hdst & Hplane).
  assert (Hpow : 2 ^ 32 <= 2 ^ size_bits) by (apply Z.pow_le_mono_r; lia).
  assert (Hk : width = 4 * (width / 4)) by (Z.div_mod_to_equations; lia).
  assert (Hpk : List.length (pack10 samples)
                = (5 * Z.to_nat (width / 4 * height))%nat)
    by (apply pack10_length; nia).
  destruct (unpack_ok size_bits fb p (pre ++ pack10 samples ++ post) width height dst)
    as (out & E & _ & Hl & Hlow & _); try assumption.
  - unfold u32_range in Hplen. lia.
  - destruct (Z.eq_dec width 0) as [W|W]; [left; exact W|].
    destruct (Z.eq_dec height 0) as [H|H]; [right; left; exact H|].
    right; right. rewrite !length_app, Hoffset, Hpk.
    assert (Hst : stride width = 5 * (width / 4))
      by (rewrite Hk at 1; apply stride_multiple_of_4).
    assert (Hg : (width + 3) / 4 = width / 4)
      by (Z.div_mod_to_equations; lia).
    rewrite Hst, Hg. nia.
  - rewrite E. do 2 f_equal.
    apply (nth_ext out samples 0 0); [lia|].
    intros n Hn.
    assert (Hin : 0 <= Z.of_nat n < width * height) by lia.
    pose proof (Hlow (Z.of_nat n) Hin) as Hs.
    unfold sample in Hs at 1. rewrite Nat2Z.id in Hs. rewrite Hs.
    rewrite Hoffset, Nat2Z.id.
    rewrite skipn_app, skipn_all, Nat.sub_diag. cbn [skipn app].
    rewrite (unpacked_pack10 samples post width height) by (try assumption; lia).
    unfold sample. rewrite Nat2Z.id. reflexivity.
Qed.

Example pack10_4x2 : pack10 samples_4x2 = mem_4x2.
Proof. reflexivity. Qed.

Lemma C4_witness :
  4 mod 4 = 0 /\
  Forall ten_bit samples_4x2 /\
  Z.of_nat (List.length samples_4x2) = 4 * 2 /\
  accepted 64 fb_4x2 {| Util.plane_offset := 0; Util.plane_length := 10 |}
    ([] ++ pack10 samples_4x2 ++ []) 4 2 (repeat 0 8%nat) /\
  Util.unpackRaw10To16 64 (Some fb_4x2) 4 2 (repeat 0 8%nat)
    = Returned (true, samples_4x2).
Proof.
  assert (Hm : 4 mod 4 = 0) by reflexivity.
  assert (Hall : Forall ten_bit samples_4x2)
    by (repeat constructor; unfold ten_bit; lia).
  assert (Hlen : Z.of_nat (List.length samples_4x2) = 4 * 2) by reflexivity.
  assert (Ha : accepted 64 fb_4x2 {| Util.plane_offset := 0; Util.plane_length := 10 |}
                 ([] ++ pack10 samples_4x2 ++ []) 4 2 (repeat 0 8%nat))
    by (unfold accepted, u32_range; cbn; repeat split; try reflexivity; lia).
  repeat (split; [assumption|]).
  exact (C4_pack_unpack_round_trip 64 fb_4x2
           {| Util.plane_offset := 0; Util.plane_length := 10 |}
           [] [] samples_4x2 4 2 (repeat 0 8%nat) Hm Hall Hlen eq_refl Ha).
Defined.

(** ** Running the stream operations *)

Lemma bind_run {A B : Type} (c : io A) (k : A -> io B) (f f' : ofstream) (a : A) :
  c f = Some (a, f') -> bind c k f = k a f'.
Proof. intros H. unfold bind. rewrite H. reflexivity. Qed.

Lemma run_put (bs : list Z) (d : list Z) (k : nat) :
  bs <> [] ->
  put bs (gap d k) = Some (tt, gap (d ++ repeat 0 k ++ bs) 0).
Proof.
  intros Hne. unfold put, gap.
  destruct bs as [|b bs']; [contradiction|].
  cbn [data pos]. rewrite Nat2Z.id.
  replace (List.length d <=? k + List.length d)%nat with true
    by (symmetry; apply Nat.leb_le; lia).
  replace (k + List.length d - List.length d)%nat with k by lia.
  do 3 f_equal. rewrite !length_app, repeat_length. lia.
Qed.

Lemma run_put_end (bs : list Z) (d : list Z) :
  put bs (gap d 0) = Some (tt, gap (d ++ bs) 0).
Proof.
  destruct bs as [|b bs'].
  - rewrite app_nil_r. reflexivity.
  - exact (run_put (b :: bs') d 0 ltac:(discriminate)).
Qed.

Lemma run_put_each_end {A : Type} (enc : A -> list Z) (xs : list A) :
  forall d, put_each enc xs (gap d 0) = Some (tt, gap (d ++ List.concat (map enc xs)) 0).
Proof.
  induction xs as [|x xs IH]; intros d; cbn [put_each map List.concat].
  - rewrite app_nil_r. reflexivity.
  - rewrite (bind_run _ _ _ _ _ (run_put_end (enc x) d)).
    rewrite IH, app_assoc. reflexivity.
Qed.

Lemma run_put_each {A : Type} (enc : A -> list Z) (x : A) (xs : list A)
  (d : list Z) (k : nat) :
  enc x <> [] ->
  put_each enc (x :: xs) (gap d k)
  = Some (tt, gap (d ++ repeat 0 k ++ List.concat (map enc (x :: xs))) 0).
Proof.
  intros Hne. cbn [put_each map List.concat].
  rewrite (bind_run _ _ _ _ _ (run_put (enc x) d k Hne)).
  rewrite run_put_each_end. rewrite <- !app_assoc. reflexivity.
Qed.

Section RunTarget.

Variable size_bits : Z.

Lemma run_currentOffset (d : list Z) (k : nat) (off : Z) :
  Z.of_nat (k + List.length d) = off -> off < 2 ^ 32 ->
  DngWriter.currentOffset (gap d k) = Some (off, gap d k).
Proof.
  intros Hoff Hlt. unfold DngWriter.currentOffset, bind, tellp, ret, gap.
  cbn [pos]. rewrite Hoff. unfold to_u32. rewrite Z.mod_small by lia.
  reflexivity.
Qed.

Lemma run_align2_even (d : list Z) (k : nat) (off : Z) :
  Z.of_nat (k + List.length d) = off -> off < 2 ^ 32 -> Z.land off 1 = 0 ->
  DngWriter.align2 (gap d k) = Some (tt, gap d k).
Proof.
  intros Hoff Hlt Heven. unfold DngWriter.align2.
  rewrite (bind_run _ _ _ _ _ (run_currentOffset d k off Hoff Hlt)).
  rewrite Heven. reflexivity.
Qed.

Lemma run_align2_odd (d : list Z) (k : nat) (off : Z) :
  Z.of_nat (k + List.length d) = off -> off < 2 ^ 32 -> Z.land off 1 = 1 ->
  DngWriter.align2 (gap d k) = Some (tt, gap (d ++ repeat 0 k ++ [0]) 0).
Proof.
  intros Hoff Hlt Hodd. unfold DngWriter.align2.
  rewrite (bind_run _ _ _ _ _ (run_currentOffset d k off Hoff Hlt)).
  rewrite Hodd. cbn [Z.eqb negb]. apply run_put. discriminate.
Qed.

Lemma run_writeArraySHORT (v : Z) (vs : list Z) (d : list Z) (k : nat) (off : Z) :
  Z.of_nat (k + List.length d) = off -> off < 2 ^ 32 -> Z.land off 1 = 0 ->
  DngWriter.writeArraySHORT (v :: vs) (gap d k)
  = Some (off, gap (d ++ repeat 0 k ++ List.concat (map le16 (v :: vs))) 0).
Proof.
  intros Hoff Hlt Heven. unfold DngWriter.writeArraySHORT.
  rewrite (bind_run _ _ _ _ _ (run_align2_even d k off Hoff Hlt Heven)).
  rewrite (bind_run _ _ _ _ _ (run_currentOffset d k off Hoff Hlt)).
  rewrite (bind_run _ _ _ _ _ (run_put_each le16 v vs d k ltac:(discriminate))).
  reflexivity.
Qed.

Lemma run_writeArrayBYTE (arr : list Z) (d : list Z) (k : nat) (off : Z) :
  arr <> [] ->
  Z.of_nat (k + List.length d) = off -> off < 2 ^ 32 -> Z.land off 1 = 0 ->
  DngWriter.writeArrayBYTE arr (gap d k)
  = Some (off, gap (d ++ repeat 0 k ++ map to_u8 arr) 0).
Proof.
  intros Hne Hoff Hlt Heven. unfold DngWriter.writeArrayBYTE.
  rewrite (bind_run _ _ _ _ _ (run_align2_even d k off Hoff Hlt Heven)).
  rewrite (bind_run _ _ _ _ _ (run_currentOffset d k off Hoff Hlt)).
  assert (Hm : map to_u8 arr <> [])
    by (destruct arr; [contradiction|discriminate]).
  rewrite (bind_run _ _ _ _ _ (run_put (map to_u8 arr) d k Hm)).
  reflexivity.
Qed.

Lemma run_writeArrayRATIONAL (r : Z * Z) (rs : list (Z * Z)) (d : list Z)
  (k : nat) (off : Z) :
  Z.of_nat (k + List.length d) = off -> off < 2 ^ 32 -> Z.land off 1 = 0 ->
  DngWriter.writeArrayRATIONAL (r :: rs) (gap d k)
  = Some (off, gap (d ++ repeat 0 k ++ List.concat (map rational_bytes (r :: rs))) 0).
Proof.
  intros Hoff Hlt Heven. unfold DngWriter.writeArrayRATIONAL.
  rewrite (bind_run _ _ _ _ _ (run_align2_even d k off Hoff Hlt Heven)).
  rewrite (bind_run _ _ _ _ _ (run_currentOffset d k off Hoff Hlt)).
  rewrite (bind_run _ _ _ _ _
             (run_put_each (fun p => le32 (fst p) ++ le32 (snd p)) r rs d k
                ltac:(discriminate))).
  reflexivity.
Qed.

Lemma run_writeArrayRATIONAL_odd (r : Z * Z) (rs : list (Z * Z)) (d : list Z)
  (off off' : Z) :
  Z.of_nat (0 + List.length d) = off -> off + 1 = off' -> off' < 2 ^ 32 ->
  Z.land off 1 = 1 ->
  DngWriter.writeArrayRATIONAL (r :: rs) (gap d 0)
  = Some (off', gap ((d ++ [0]) ++ List.concat (map rational_bytes (r :: rs))) 0).
Proof.
  intros Hoff <- Hlt Hodd. unfold DngWriter.writeArrayRATIONAL.
  rewrite (bind_run _ _ _ _ _
             (run_align2_odd d 0 off Hoff ltac:(lia) Hodd)).
  cbn [repeat app].
  assert (Hoff' : Z.of_nat (0 + List.length (d ++ [0])) = off + 1)
    by (rewrite length_app; cbn [List.length]; lia).
  rewrite (bind_run _ _ _ _ _ (run_currentOffset (d ++ [0]) 0 (off + 1) Hoff' Hlt)).
  rewrite (bind_run _ _ _ _ _
             (run_put_each (fun p => le32 (fst p) ++ le32 (snd p)) r rs (d ++ [0]) 0
                ltac:(discriminate))).
  reflexivity.
Qed.

Lemma run_writeAscii (s : string) (d : list Z) (k : nat) (off : Z) :
  Z.of_nat (k + List.length d) = off -> off < 2 ^ 32 ->
  DngWriter.writeAscii s (gap d k)
  = Some (off, gap (d ++ repeat 0 k ++ chars s ++ [0]) 0).
Proof.
  intros Hoff Hlt. unfold DngWriter.writeAscii. cbv zeta.
  rewrite (bind_run _ _ _ _ _ (run_currentOffset d k off Hoff Hlt)).
  assert (Hz : chars s ++ [0] <> []) by (destruct (chars s); discriminate).
  rewrite (bind_run _ _ _ _ _ (run_put (chars s ++ [0]) d k Hz)).
  reflexivity.
Qed.

End RunTarget.

(** Writing inside the bytes already there replaces them in place. *)
Lemma run_put_inside (bs D : list Z) (p : nat) :
  (p + List.length bs <= List.length D)%nat ->
  put bs {| data := D; pos := Z.of_nat p |}
  = Some (tt, {| data := firstn p D ++ bs ++ skipn (p + List.length bs) D;
                 pos := Z.of_nat (p + List.length bs) |}).
Proof.
  intros Hfit. unfold put.
  destruct bs as [|b bs'].
  - cbn [List.length app]. rewrite Nat.add_0_r, firstn_skipn. reflexivity.
  - cbn [data pos]. rewrite Nat2Z.id.
    destruct (Nat.leb_spec (List.length D) p) as [Hle|Hlt];
      [cbn [List.length] in Hfit; lia|].
    do 3 f_equal. lia.
Qed.

Lemma run_put_each_inside {A : Type} (enc : A -> list Z) (xs : list A) :
  forall (D : list Z) (p : nat),
    (p + List.length (List.concat (map enc xs)) <= List.length D)%nat ->
    put_each enc xs {| data := D; pos := Z.of_nat p |}
    = Some (tt, {| data := firstn p D ++ List.concat (map enc xs)
                           ++ skipn (p + List.length (List.concat (map enc xs))) D;
                   pos := Z.of_nat (p + List.length (List.concat (map enc xs))) |}).
Proof.
  induction xs as [|x xs IH]; intros D p Hfit; cbn [put_each map List.concat] in *.
  - cbn [List.length app]. rewrite Nat.add_0_r, firstn_skipn. reflexivity.
  - rewrite length_app in Hfit.
    rewrite (bind_run _ _ _ _ _ (run_put_inside (enc x) D p ltac:(lia))).
    remember (List.concat (map enc xs)) as C eqn:EC.
    assert (Hf : List.length (firstn p D) = p) by (rewrite length_firstn; lia).
    rewrite IH.
    2:{ rewrite !length_app, Hf, length_skipn. lia. }
    rewrite (length_app (enc x) C).
    do 3 f_equal; [|lia].
    rewrite (app_assoc (firstn p D) (enc x)).
    rewrite firstn_app.
    rewrite (firstn_all2 (n := p + List.length (enc x))) by (rewrite length_app; lia).
    rewrite length_app, Hf.
    replace (p + List.length (enc x) - (p + List.length (enc x)))%nat with 0%nat by lia.
    cbn [firstn]. rewrite app_nil_r, <- !app_assoc. do 3 f_equal.
    rewrite (app_assoc (firstn p D) (enc x)).
    rewrite skipn_app.
    rewrite (@skipn_all2 _ _ (firstn p D ++ enc x)) by (rewrite length_app; lia).
    rewrite length_app, Hf. cbn [app].
    rewrite skipn_skipn. f_equal. lia.
Qed.

Lemma run_put_over (bs D : list Z) (p : nat) :
  (p + List.length bs <=? List.length D)%nat = true ->
  put bs {| data := D; pos := Z.of_nat p |}
  = Some (tt, {| data := firstn p D ++ bs ++ skipn (p + List.length bs) D;
                 pos := Z.of_nat (p + List.length bs) |}).
Proof. intros H. apply run_put_inside. apply Nat.leb_le. exact H. Qed.

Lemma run_put_each_over {A : Type} (enc : A -> list Z) (xs : list A)
  (D : list Z) (p : nat) :
  (p + List.length (List.concat (map enc xs)) <=? List.length D)%nat = true ->
  put_each enc xs {| data := D; pos := Z.of_nat p |}
  = Some (tt, {| data := firstn p D ++ List.concat (map enc xs)
                         ++ skipn (p + List.length (List.concat (map enc xs))) D;
                 pos := Z.of_nat (p + List.length (List.concat (map enc xs))) |}).
Proof. intros H. apply run_put_each_inside. apply Nat.leb_le. exact H. Qed.

Lemma run_defined {A : Type} (a : A) (f : ofstream) :
  defined (Some a) f = Some (a, f).
Proof. reflexivity. Qed.

Lemma run_tellp (f : ofstream) : tellp f = Some (pos f, f).
Proof. reflexivity. Qed.

Lemma run_seekp (p : Z) (f : ofstream) :
  seekp p f = Some (tt, {| data := data f; pos := p |}).
Proof. reflexivity. Qed.

Lemma run_seekp_gap (k' : nat) (d : list Z) (k : nat) (p : Z) :
  p = Z.of_nat (k' + List.length d) -> seekp p (gap d k) = Some (tt, gap d k').
Proof. intros ->. reflexivity. Qed.

Lemma run_seekp_back (n : nat) (d : list Z) (k : nat) (p : Z) :
  p = Z.of_nat n ->
  seekp p (gap d k) = Some (tt, {| data := d; pos := Z.of_nat n |}).
Proof. intros ->. reflexivity. Qed.

(** ** The closed form of the written stream *)

Lemma camera_model_chars :
  chars DngWriter.camera_model ++ [0]
  = [82; 97; 115; 112; 98; 101; 114; 114; 121; 32; 80; 105; 32; 71; 108; 111;
     98; 97; 108; 32; 83; 104; 117; 116; 116; 101; 114; 32; 67; 97; 109; 101;
     114; 97; 32; 73; 77; 88; 50; 57; 54; 0].
Proof. vm_compute. reflexivity. Qed.

Ltac side := first [ discriminate | lazy; reflexivity | reflexivity ].

Ltac run lem :=
  lazymatch goal with
  | |- bind ?c ?k ?s = _ =>
      let H := fresh in
      eassert (H : c s = Some _) by (eapply lem; side);
      rewrite (bind_run c k s _ _ H); clear H; cbv beta
  end.

Ltac layout :=
  cbv [app repeat firstn skipn List.length Nat.add List.concat map
       le16 le32 rational_bytes fst snd nth
       DngWriter.header_bytes DngWriter.entry_bytes DngWriter.push
       DngWriter.tag DngWriter.type DngWriter.count DngWriter.value
       DngWriter.bayerPattern2x2
       DngWriter.width DngWriter.height DngWriter.bayer
       DngWriter.bitsPerSample DngWriter.blackLevel DngWriter.whiteLevel
       directory directory_table data_blocks dng_bytes].

(** The stream of a run of [write_stream], in closed form. *)
Lemma write_stream_run (size_bits : Z) (meta : DngWriter.DngMeta)
  (pixels : list Z) (illuminant : Z) :
  32 <= size_bits ->
  float_to_u16 (DngWriter.cfaIlluminant meta) = Some illuminant ->
  strip_byte_count size_bits meta <= 2 * Z.of_nat (List.length pixels) ->
  DngWriter.write_stream size_bits meta pixels {| data := []; pos := 0 |}
  = Some (tt, gap (dng_bytes meta illuminant (strip_byte_count size_bits meta)
                     (strip_bytes size_bits meta pixels)) 0).
Proof.
  intros Hsz Hill Hb.
  change {| data := []; pos := 0 |} with (gap [] 0).
  unfold strip_bytes, strip_byte_count in *.
  assert (H264 : DngWriter.to_size_t size_bits (to_u16 (16 + 6) * DngWriter.sizeof_IfdEntry) = 264).
  { unfold DngWriter.to_size_t. apply Z.mod_small. split; [vm_compute; discriminate|].
    apply Z.lt_le_trans with (2 ^ 32); [reflexivity|]. apply Z.pow_le_mono_r; lia. }
  apply Z.leb_le in Hb.
  destruct meta as [w h b bps bl wl ag es il].
  unfold DngWriter.write_stream.
  cbn [DngWriter.width DngWriter.height DngWriter.bayer DngWriter.bitsPerSample
       DngWriter.blackLevel DngWriter.whiteLevel DngWriter.cfaIlluminant] in *.
  cbv zeta. rewrite Hill, Hb, H264.
  generalize (DngWriter.to_size_t size_bits (DngWriter.to_size_t size_bits (w * h) * 2)).
  intros B.
  generalize (firstn (Z.to_nat B) (List.concat (map le16 pixels))).
  intros strip. clear.
  run run_put_end.
  run run_tellp.
  run (run_seekp_gap 270).
  run run_writeArraySHORT.
  run run_writeArraySHORT.
  run run_writeArrayBYTE.
  run run_writeArrayBYTE.
  run run_writeArrayRATIONAL_odd.
  run run_writeArrayBYTE.
  run run_writeAscii.
  run run_writeArraySHORT.
  run run_writeArraySHORT.
  run @run_defined.
  run run_writeArrayRATIONAL.
  run run_align2_even.
  run run_currentOffset.
  run @run_defined.
  run run_put_end.
  match goal with
  | |- context [firstn (Z.to_nat (to_u16 (Z.of_nat (List.length ?l)))) ?l] =>
      change (firstn (Z.to_nat (to_u16 (Z.of_nat (List.length l)))) l) with l;
      change (to_u16 (Z.of_nat (List.length l))) with 20
  end.
  run run_tellp.
  run (run_seekp_back 8).
  run run_put_over.
  run @run_put_each_over.
  run run_put_over.
  rewrite run_seekp. cbn [data pos]. unfold gap.
  unfold dng_bytes, data_blocks. rewrite !camera_model_chars.
  do 3 f_equal.
  - destruct b; layout; reflexivity.
  - f_equal. destruct b; layout; reflexivity.
Qed.

(** ** Facts about [DngWriter::write] *)

Lemma write_stream_undefined (size_bits : Z) (meta : DngWriter.DngMeta)
  (pixels : list Z) :
  32 <= size_bits ->
  float_to_u16 (DngWriter.cfaIlluminant meta) = None ->
  DngWriter.write_stream size_bits meta pixels {| data := []; pos := 0 |} = None.
Proof.
  intros Hsz Hill.
  change {| data := []; pos := 0 |} with (gap [] 0).
  assert (H264 : DngWriter.to_size_t size_bits (to_u16 (16 + 6) * DngWriter.sizeof_IfdEntry) = 264).
  { unfold DngWriter.to_size_t. apply Z.mod_small. split; [vm_compute; discriminate|].
    apply Z.lt_le_trans with (2 ^ 32); [reflexivity|]. apply Z.pow_le_mono_r; lia. }
  destruct meta as [w h b bps bl wl ag es il].
  unfold DngWriter.write_stream.
  cbn [DngWriter.width DngWriter.height DngWriter.bayer DngWriter.bitsPerSample
       DngWriter.blackLevel DngWriter.whiteLevel DngWriter.cfaIlluminant] in *.
  cbv zeta. rewrite Hill, H264. clear.
  run run_put_end.
  run run_tellp.
  run (run_seekp_gap 270).
  run run_writeArraySHORT.
  run run_writeArraySHORT.
  run run_writeArrayBYTE.
  run run_writeArrayBYTE.
  run run_writeArrayRATIONAL_odd.
  run run_writeArrayBYTE.
  run run_writeAscii.
  run run_writeArraySHORT.
  run run_writeArraySHORT.
  reflexivity.
Qed.

Lemma strip_fits (size_bits : Z) (meta : DngWriter.DngMeta) (pixels : list Z) :
  Z.of_nat (List.length pixels)
    = DngWriter.to_size_t size_bits (DngWriter.width meta * DngWriter.height meta) ->
  strip_byte_count size_bits meta <= 2 * Z.of_nat (List.length pixels).
Proof.
  intros H. unfold strip_byte_count. rewrite <- H. unfold DngWriter.to_size_t.
  destruct (Z.le_gt_cases (2 ^ size_bits) 0) as [Hle|Hgt].
  - assert (E : 2 ^ size_bits = 0)
      by (pose proof (Z.pow_nonneg 2 size_bits ltac:(lia)); lia).
    rewrite E, Z.mod_0_r. lia.
  - pose proof (Z.mod_le (Z.of_nat (List.length pixels) * 2) (2 ^ size_bits)
                  ltac:(lia) ltac:(lia)).
    lia.
Qed.

(** A run of [write] that returns [true] has passed the size check, opened
    the file, and left [dng_bytes] in it. *)
Lemma write_inv (size_bits : Z) (fs : filesystem) (path : string)
  (meta : DngWriter.DngMeta) (pixels : list Z) (fs' : filesystem) :
  32 <= size_bits ->
  DngWriter.write size_bits fs path meta pixels = Returned (true, fs') ->
  exists illuminant,
    float_to_u16 (DngWriter.cfaIlluminant meta) = Some illuminant /\
    Z.of_nat (List.length pixels)
      = DngWriter.to_size_t size_bits (DngWriter.width meta * DngWriter.height meta) /\
    openable fs path = true /\
    file fs' path
      = Some (dng_bytes meta illuminant (strip_byte_count size_bits meta)
                (strip_bytes size_bits meta pixels)).
Proof.
  intros Hsz. unfold DngWriter.write. cbv zeta.
  destruct (Z.eqb_spec (Z.of_nat (List.length pixels))
              (DngWriter.to_size_t size_bits
                 (DngWriter.width meta * DngWriter.height meta))) as [Hlen|Hlen];
    cbn [negb]; [|discriminate].
  destruct (openable fs path) eqn:Hopen; cbn [negb]; [|discriminate].
  destruct (float_to_u16 (DngWriter.cfaIlluminant meta)) as [ill|] eqn:Hill.
  - rewrite (write_stream_run size_bits meta pixels ill Hsz Hill
               (strip_fits size_bits meta pixels Hlen)).
    intros H. injection H as <-. exists ill.
    repeat split; try assumption.
    cbn [close file gap data]. rewrite String.eqb_refl. reflexivity.
  - rewrite (write_stream_undefined size_bits meta pixels Hsz Hill). discriminate.
Qed.

(** Conversely, [write] succeeds whenever the size check passes, the file
    can be opened and the illuminant converts. *)
Lemma write_ok (size_bits : Z) (fs : filesystem) (path : string)
  (meta : DngWriter.DngMeta) (pixels : list Z) (illuminant : Z) :
  32 <= size_bits ->
  Z.of_nat (List.length pixels)
    = DngWriter.to_size_t size_bits (DngWriter.width meta * DngWriter.height meta) ->
  openable fs path = true ->
  float_to_u16 (DngWriter.cfaIlluminant meta) = Some illuminant ->
  exists fs', DngWriter.write size_bits fs path meta pixels = Returned (true, fs').
Proof.
  intros Hsz Hlen Hopen Hill. unfold DngWriter.write. cbv zeta.
  rewrite Hlen, Z.eqb_refl, Hopen. cbn [negb].
  rewrite (write_stream_run size_bits meta pixels illuminant Hsz Hill
             (strip_fits size_bits meta pixels Hlen)).
  eexists. reflexivity.
Qed.

Ltac crunch := vm_compute; first [reflexivity | discriminate | (intro; discriminate)].

Ltac slices :=
  cbv [slice firstn skipn app repeat List.length Nat.add List.concat map
       le16 le32 rational_bytes fst snd nth
       Z.to_nat Pos.to_nat Pos.iter_op
       DngWriter.header_bytes DngWriter.entry_bytes DngWriter.push
       DngWriter.tag DngWriter.type DngWriter.count DngWriter.value
       DngWriter.bayerPattern2x2
       DngWriter.width DngWriter.height DngWriter.bayer
       DngWriter.bitsPerSample DngWriter.blackLevel DngWriter.whiteLevel
       directory directory_table data_blocks dng_bytes].

Ltac block k :=
  exists k;
  split; [lia|];
  split; [crunch|];
  split;
  [ lazymatch goal with
    | |- slice ?f ?v _ = _ =>
        let n := eval vm_compute in v in
        change v with n; slices; reflexivity
    end
  | split; [crunch|]; split; [crunch|]; intros _; crunch ].

Ltac ascii_block Hcm :=
  exists 14%nat;
  split; [lia|]; split; [crunch|]; split;
  [ rewrite Hcm; unfold dng_bytes, data_blocks; rewrite !camera_model_chars;
    lazymatch goal with
    | |- slice ?f ?v _ = _ =>
        let n := eval vm_compute in v in
        change v with n; slices; reflexivity
    end
  | rewrite Hcm; split; [crunch|]; split; [crunch|]; intros _; crunch ].

Ltac strip_block :=
  exists 8%nat;
  split; [lia|]; split; [crunch|]; split;
  [ lazymatch goal with
    | |- slice ?f ?v _ = _ =>
        let n := eval vm_compute in v in
        change v with n
    end;
    unfold slice;
    lazymatch goal with
    | |- firstn _ ?t = _ =>
        let t' := eval cbv [skipn app repeat List.length Nat.add List.concat map
          le16 le32 rational_bytes fst snd nth Z.to_nat Pos.to_nat Pos.iter_op
          DngWriter.header_bytes DngWriter.entry_bytes DngWriter.push
          DngWriter.tag DngWriter.type DngWriter.count DngWriter.value
          DngWriter.bayerPattern2x2 directory directory_table data_blocks
          dng_bytes DngWriter.bayer] in t in
        change t with t'
    end;
    apply firstn_all
  | split; [crunch|]; split; [crunch|];
    intros H; exfalso; apply H; reflexivity ].

Ltac all_blocks Hcm :=
  (repeat apply Forall_cons; try apply Forall_nil);
  unfold block_at_entry; cbn [fst snd];
  [ block 2%nat | block 10%nat | block 11%nat | block 12%nat | block 17%nat
  | block 13%nat | ascii_block Hcm | block 15%nat | block 16%nat | block 19%nat
  | strip_block ].

Lemma blocks_in_file (meta : DngWriter.DngMeta) (illuminant bytes : Z)
  (strip : list Z) (blocks : list (Z * list Z)) :
  blocks =
    [ (DngWriter.TAG_BitsPerSample, le16 (DngWriter.bitsPerSample meta));
      (DngWriter.TAG_CFARepeatPattern, le16 2 ++ le16 2);
      (DngWriter.TAG_CFAPattern,
        map to_u8 (DngWriter.bayerPattern2x2 (DngWriter.bayer meta)));
      (DngWriter.TAG_CFAPlaneColor, map to_u8 [0; 1; 2]);
      (DngWriter.TAG_DefaultScale, rational_bytes (1, 1) ++ rational_bytes (1, 1));
      (DngWriter.TAG_DNGVersion, map to_u8 [1; 4; 0; 0]);
      (DngWriter.TAG_UniqueCameraModel, chars DngWriter.camera_model ++ [0]);
      (DngWriter.TAG_BlackLevel, le16 (DngWriter.blackLevel meta));
      (DngWriter.TAG_WhiteLevel, le16 (DngWriter.whiteLevel meta));
      (DngWriter.TAG_ColorMatrix1,
        List.concat (map rational_bytes
          [(1, 1); (0, 1); (0, 1); (0, 1); (1, 1); (0, 1); (0, 1); (0, 1); (1, 1)]));
      (DngWriter.TAG_StripOffsets, strip) ] ->
  Forall (block_at_entry (dng_bytes meta illuminant bytes strip)) blocks.
Proof.
  intros ->.
  destruct meta as [w h b bps bl wl ag es il].
  cbn [DngWriter.width DngWriter.height DngWriter.bayer DngWriter.bitsPerSample
       DngWriter.blackLevel DngWriter.whiteLevel].
  assert (Hcm : List.length (chars DngWriter.camera_model ++ [0]) = 42%nat)
    by (rewrite camera_model_chars; reflexivity).
  destruct b; all_blocks Hcm.
Qed.

(** ** The claims about the DNG writer *)

Lemma write_8x2 :
  DngWriter.write 64 fs_empty "frame.dng" meta_8x2 pixels_8x2 = Returned (true, fs_8x2).
Proof. vm_compute. reflexivity. Qed.

(** C3 fails on the code: in the file written for the 8x2 frame the
    directory is at offset 8, right after the header, while the entry of
    ColorMatrix1 (nine rationals, 72 bytes) points to offset 358: its data
    block is not before the directory table. *)
Lemma C3_counterexample :
  exists f,
    file fs_8x2 "frame.dng" = Some f /\
    ifd_offset f = 8 /\
    DngWriter.tag (entry_at f 19) = DngWriter.TAG_ColorMatrix1 /\
    4 < payload (entry_at f 19) /\
    ~ (DngWriter.value (entry_at f 19) < ifd_offset f).
Proof.
  eexists. split; [vm_compute; reflexivity|].
  repeat split; crunch.
Qed.

(** C3, as the code has it.  In the file of a successful [write] the
    components come in the order: the 8-byte header; the directory table
    (entry count, 20 entries, 4-byte zero terminator) at offset 8; every
    out-of-line data block; the pixel strip, which is the rest of the file.
    Every directory entry whose payload exceeds 4 bytes references bytes
    that lie after the directory table and before the strip. *)
Theorem C3_stream_order (size_bits : Z) (fs : filesystem) (path : string)
  (meta : DngWriter.DngMeta) (pixels : list Z) (fs' : filesystem) :
  32 <= size_bits ->
  DngWriter.write size_bits fs path meta pixels = Returned (true, fs') ->
  exists f,
    file fs' path = Some f /\
    slice f 0 8 = DngWriter.header_bytes 0x4949 42 8 /\
    ifd_offset f = 8 /\
    entry_count f = 20 /\
    rd32 f (ifd_end f - 4) = 0 /\
    ifd_end f = 254 /\
    (forall k, (k < 20)%nat -> 4 < payload (entry_at f k) ->
       ifd_end f <= DngWriter.value (entry_at f k) /\
       DngWriter.value (entry_at f k) + payload (entry_at f k)
         <= DngWriter.value (entry_at f 8)) /\
    Forall (block_at_entry f) (blocks_by_tag size_bits meta pixels) /\
    DngWriter.tag (entry_at f 8) = DngWriter.TAG_StripOffsets /\
    DngWriter.value (entry_at f 8) = 430 /\
    skipn 430 f = strip_bytes size_bits meta pixels.
Proof.
  intros Hsz Hw.
  destruct (write_inv size_bits fs path meta pixels fs' Hsz Hw)
    as (ill & _ & _ & _ & Hfile).
  eexists. split; [exact Hfile|].
  split; [|split; [|split; [|split; [|split; [|split; [|split; [|split; [|split]]]]]]]].
  7:{ apply blocks_in_file. reflexivity. }
  all: unfold strip_bytes;
    generalize (firstn (Z.to_nat (strip_byte_count size_bits meta))
                  (List.concat (map le16 pixels)));
    generalize (strip_byte_count size_bits meta); intros B strip;
    destruct meta as [w h b bps bl wl ag es il].
  - destruct b; slices; reflexivity.
  - destruct b; crunch.
  - destruct b; crunch.
  - destruct b; crunch.
  - destruct b; crunch.
  - intros k Hk Hp.
    destruct b;
      do 20 (destruct k as [|k];
             [first [ vm_compute in Hp; discriminate
                    | split; crunch ] |]);
      lia.
  - destruct b; crunch.
  - destruct b; crunch.
  - destruct b; reflexivity.
Qed.

Lemma C3_witness :
  32 <= 64 /\
  DngWriter.write 64 fs_empty "frame.dng" meta_8x2 pixels_8x2 = Returned (true, fs_8x2) /\
  exists f, file fs_8x2 "frame.dng" = Some f /\ ifd_end f = 254.
Proof.
  assert (H : 32 <= 64) by lia.
  split; [exact H|]. split; [exact write_8x2|].
  destruct (C3_stream_order 64 fs_empty "frame.dng" meta_8x2 pixels_8x2 fs_8x2
              H write_8x2) as (f & Hf & _ & _ & _ & _ & He & _).
  exists f. split; [exact Hf|exact He].
Defined.

(** C5.  The resolver maps the four variants to their 2x2 arrays; the four
    canonical uppercase tokens select their variants and every other string
    resolves to the RGGB array; and in the file of a successful [write],
    whatever the variant, the CFAPlaneColor entry is three bytes holding
    [0; 1; 2] and the CFAPattern entry four bytes holding the array of the
    variant. *)
Theorem C5_bayer_resolver :
  (DngWriter.bayerPattern2x2 DngWriter.RGGB = [0; 1; 1; 2] /\
   DngWriter.bayerPattern2x2 DngWriter.BGGR = [2; 1; 1; 0] /\
   DngWriter.bayerPattern2x2 DngWriter.GRBG = [1; 0; 2; 1] /\
   DngWriter.bayerPattern2x2 DngWriter.GBRG = [1; 2; 0; 1]) /\
  (DngWriter.toBayer "RGGB" = DngWriter.RGGB /\
   DngWriter.toBayer "BGGR" = DngWriter.BGGR /\
   DngWriter.toBayer "GRBG" = DngWriter.GRBG /\
   DngWriter.toBayer "GBRG" = DngWriter.GBRG) /\
  (forall s : string,
     s <> "RGGB"%string -> s <> "BGGR"%string ->
     s <> "GRBG"%string -> s <> "GBRG"%string ->
     DngWriter.bayerPattern2x2 (DngWriter.toBayer s) = [0; 1; 1; 2]) /\
  (forall size_bits fs path meta pixels fs',
     32 <= size_bits ->
     DngWriter.write size_bits fs path meta pixels = Returned (true, fs') ->
     exists f,
       file fs' path = Some f /\
       DngWriter.tag (entry_at f 12) = DngWriter.TAG_CFAPlaneColor /\
       DngWriter.type (entry_at f 12) = DngWriter.TYPE_BYTE /\
       DngWriter.count (entry_at f 12) = 3 /\
       slice f (DngWriter.value (entry_at f 12)) 3 = [0; 1; 2] /\
       DngWriter.tag (entry_at f 11) = DngWriter.TAG_CFAPattern /\
       DngWriter.type (entry_at f 11) = DngWriter.TYPE_BYTE /\
       DngWriter.count (entry_at f 11) = 4 /\
       slice f (DngWriter.value (entry_at f 11)) 4
         = DngWriter.bayerPattern2x2 (DngWriter.bayer meta)).
Proof.
  split; [repeat split|]. split; [repeat split|]. split.
  - intros s H1 H2 H3 H4. unfold DngWriter.toBayer.
    destruct (String.eqb_spec s "RGGB"); [contradiction|].
    destruct (String.eqb_spec s "BGGR"); [contradiction|].
    destruct (String.eqb_spec s "GRBG"); [contradiction|].
    destruct (String.eqb_spec s "GBRG"); [contradiction|].
    reflexivity.
  - intros size_bits fs path meta pixels fs' Hsz Hw.
    destruct (write_inv size_bits fs path meta pixels fs' Hsz Hw)
      as (ill & _ & _ & _ & Hfile).
    eexists. split; [exact Hfile|].
    generalize (strip_bytes size_bits meta pixels).
    generalize (strip_byte_count size_bits meta). intros B strip.
    destruct meta as [w h b bps bl wl ag es il].
    destruct b; (split; [crunch|]); (split; [crunch|]); (split; [crunch|]);
      (split; [crunch|]); (split; [crunch|]); (split; [crunch|]);
      (split; [crunch|]); crunch.
Qed.

Lemma C5_witness :
  "rggb"%string <> "RGGB"%string /\
  DngWriter.bayerPattern2x2 (DngWriter.toBayer "rggb") = [0; 1; 1; 2] /\
  32 <= 64 /\
  DngWriter.write 64 fs_empty "frame.dng" meta_8x2 pixels_8x2 = Returned (true, fs_8x2) /\
  exists f, file fs_8x2 "frame.dng" = Some f /\
            slice f (DngWriter.value (entry_at f 12)) 3 = [0; 1; 2] /\
            slice f (DngWriter.value (entry_at f 11)) 4 = [1; 2; 0; 1].
Proof.
  assert (N1 : "rggb"%string <> "RGGB"%string) by discriminate.
  assert (N2 : "rggb"%string <> "BGGR"%string) by discriminate.
  assert (N3 : "rggb"%string <> "GRBG"%string) by discriminate.
  assert (N4 : "rggb"%string <> "GBRG"%string) by discriminate.
  assert (H : 32 <= 64) by lia.
  destruct C5_bayer_resolver as (_ & _ & Hother & Hfile).
  split; [exact N1|]. split; [exact (Hother "rggb"%string N1 N2 N3 N4)|].
  split; [exact H|]. split; [exact write_8x2|].
  destruct (Hfile 64 fs_empty "frame.dng"%string meta_8x2 pixels_8x2 fs_8x2 H write_8x2)
    as (f & Hf & _ & _ & _ & Hplane & _ & _ & _ & Hpatt).
  exists f. split; [exact Hf|]. split; [exact Hplane|exact Hpatt].
Defined.

(** C6.  When the buffer length differs from [width * height], [write]
    returns [false] and the files are exactly as they were: nothing is
    opened, created or written. *)
Theorem C6_dimension_mismatch (size_bits : Z) (fs : filesystem) (path : string)
  (meta : DngWriter.DngMeta) (pixels : list Z) :
  0 <= DngWriter.width meta -> 0 <= DngWriter.height meta ->
  DngWriter.width meta * DngWriter.height meta < 2 ^ size_bits ->
  Z.of_nat (List.length pixels) <> DngWriter.width meta * DngWriter.height meta ->
  DngWriter.write size_bits fs path meta pixels = Returned (false, fs).
Proof.
  intros Hw Hh Hfit Hne. unfold DngWriter.write. cbv zeta.
  unfold DngWriter.to_size_t. rewrite Z.mod_small by nia.
  destruct (Z.eqb_spec (Z.of_nat (List.length pixels))
              (DngWriter.width meta * DngWriter.height meta)); [contradiction|].
  reflexivity.
Qed.

Lemma C6_witness :
  0 <= DngWriter.width meta_8x2 /\ 0 <= DngWriter.height meta_8x2 /\
  DngWriter.width meta_8x2 * DngWriter.height meta_8x2 < 2 ^ 64 /\
  Z.of_nat (List.length (repeat 512 15%nat))
    <> DngWriter.width meta_8x2 * DngWriter.height meta_8x2 /\
  DngWriter.write 64 fs_empty "frame.dng" meta_8x2 (repeat 512 15%nat)
    = Returned (false, fs_empty).
Proof.
  assert (H1 : 0 <= DngWriter.width meta_8x2) by (cbn; lia).
  assert (H2 : 0 <= DngWriter.height meta_8x2) by (cbn; lia).
  assert (H3 : DngWriter.width meta_8x2 * DngWriter.height meta_8x2 < 2 ^ 64)
    by (cbn; lia).
  assert (H4 : Z.of_nat (List.length (repeat 512 15%nat))
               <> DngWriter.width meta_8x2 * DngWriter.height meta_8x2)
    by (cbn; lia).
  repeat (split; [assumption|]).
  exact (C6_dimension_mismatch 64 fs_empty "frame.dng" meta_8x2
           (repeat 512 15%nat) H1 H2 H3 H4).
Defined.

(** C9.  In the file of a successful [write], each out-of-line data block
    (the SHORT, BYTE and RATIONAL arrays and the NUL-terminated camera-model
    string) and the pixel strip is found at the offset recorded in the
    directory entry of its tag, and that offset is even. *)
Theorem C9_blocks_and_strip_even (size_bits : Z) (fs : filesystem) (path : string)
  (meta : DngWriter.DngMeta) (pixels : list Z) (fs' : filesystem) :
  32 <= size_bits ->
  DngWriter.write size_bits fs path meta pixels = Returned (true, fs') ->
  exists f,
    file fs' path = Some f /\
    Forall (fun tb : Z * list Z =>
              exists k, (k < 20)%nat /\
                DngWriter.tag (entry_at f k) = fst tb /\
                slice f (DngWriter.value (entry_at f k)) (List.length (snd tb)) = snd tb /\
                Z.even (DngWriter.value (entry_at f k)) = true)
      (blocks_by_tag size_bits meta pixels).
Proof.
  intros Hsz Hw.
  destruct (write_inv size_bits fs path meta pixels fs' Hsz Hw)
    as (ill & _ & _ & _ & Hfile).
  eexists. split; [exact Hfile|].
  eapply Forall_impl; [|apply blocks_in_file; reflexivity].
  intros tb (k & Hk & Htag & Hslice & Heven & _).
  exists k. split; [exact Hk|]. split; [exact Htag|]. split; [exact Hslice|exact Heven].
Qed.

Lemma C9_witness :
  32 <= 64 /\
  DngWriter.write 64 fs_empty "frame.dng" meta_8x2 pixels_8x2 = Returned (true, fs_8x2) /\
  exists f, file fs_8x2 "frame.dng" = Some f /\
            List.length (blocks_by_tag 64 meta_8x2 pixels_8x2) = 11%nat.
Proof.
  assert (H : 32 <= 64) by lia.
  split; [exact H|]. split; [exact write_8x2|].
  destruct (C9_blocks_and_strip_even 64 fs_empty "frame.dng" meta_8x2 pixels_8x2
              fs_8x2 H write_8x2) as (f & Hf & _).
  exists f. split; [exact Hf|reflexivity].
Defined.

(** C10.  Two metadata values that agree on every field other than
    [analogGain] and [exposureSeconds] make [write] do the same thing with
    the same buffer: the two fields never reach the file. *)
Theorem C10_gain_exposure_not_serialized (size_bits : Z) (fs : filesystem)
  (path : string) (m1 m2 : DngWriter.DngMeta) (pixels : list Z) :
  DngWriter.width m1 = DngWriter.width m2 ->
  DngWriter.height m1 = DngWriter.height m2 ->
  DngWriter.bayer m1 = DngWriter.bayer m2 ->
  DngWriter.bitsPerSample m1 = DngWriter.bitsPerSample m2 ->
  DngWriter.blackLevel m1 = DngWriter.blackLevel m2 ->
  DngWriter.whiteLevel m1 = DngWriter.whiteLevel m2 ->
  DngWriter.cfaIlluminant m1 = DngWriter.cfaIlluminant m2 ->
  DngWriter.write size_bits fs path m1 pixels
  = DngWriter.write size_bits fs path m2 pixels.
Proof.
  intros Hw Hh Hb Hbps Hbl Hwl Hil.
  destruct m1 as [w1 h1 b1 bps1 bl1 wl1 ag1 es1 il1].
  destruct m2 as [w2 h2 b2 bps2 bl2 wl2 ag2 es2 il2].
  cbn [DngWriter.width DngWriter.height DngWriter.bayer DngWriter.bitsPerSample
       DngWriter.blackLevel DngWriter.whiteLevel DngWriter.cfaIlluminant] in *.
  subst.
  unfold DngWriter.write, DngWriter.write_stream.
  cbn [DngWriter.width DngWriter.height DngWriter.bayer DngWriter.bitsPerSample
       DngWriter.blackLevel DngWriter.whiteLevel DngWriter.cfaIlluminant].
  reflexivity.
Qed.

Lemma C10_witness :
  DngWriter.analogGain meta_8x2 <> DngWriter.analogGain meta_8x2_other /\
  DngWriter.exposureSeconds meta_8x2 <> DngWriter.exposureSeconds meta_8x2_other /\
  DngWriter.write 64 fs_empty "frame.dng" meta_8x2 pixels_8x2
  = DngWriter.write 64 fs_empty "frame.dng" meta_8x2_other pixels_8x2.
Proof.
  split; [discriminate|]. split; [discriminate|].
  exact (C10_gain_exposure_not_serialized 64 fs_empty "frame.dng"
           meta_8x2 meta_8x2_other pixels_8x2
           eq_refl eq_refl eq_refl eq_refl eq_refl eq_refl eq_refl).
Defined.

(** The end-to-end scenario: the file written for the 8x2 GBRG frame records
    ImageWidth 8 and ImageLength 2, holds the pattern [1; 2; 0; 1], and ends
    with 32 strip bytes, each sample 512 in little-endian order. *)
Example end_to_end_8x2 :
  exists f,
    file fs_8x2 "frame.dng" = Some f /\
    DngWriter.tag (entry_at f 0) = DngWriter.TAG_ImageWidth /\
    DngWriter.value (entry_at f 0) = 8 /\
    DngWriter.tag (entry_at f 1) = DngWriter.TAG_ImageLength /\
    DngWriter.value (entry_at f 1) = 2 /\
    slice f (DngWriter.value (entry_at f 11)) 4 = [1; 2; 0; 1] /\
    DngWriter.value (entry_at f 9) = 32 /\
    skipn (Z.to_nat (DngWriter.value (entry_at f 8))) f
      = List.concat (repeat [0; 2] 16).
Proof.
  eexists. split; [vm_compute; reflexivity|].
  repeat split; crunch.
Qed.

(** ** Further properties of [unpackRaw10To16] *)

Lemma unpack_undefined (size_bits : Z) (fb : Util.FrameBuffer) (p : Util.Plane)
  (mem : list byte) (width height : Z) (dst : list Z) :
  accepted size_bits fb p mem width height dst ->
  ~ groups_mapped (Z.of_nat (List.length mem)) (Util.plane_offset p) width height ->
  Util.unpackRaw10To16 size_bits (Some fb) width height dst = Undefined.
Proof.
  intros (Hsz & Hplanes & Hcookie & Hoff & Hlen & Hw0 & Hw & Hh & Hdst & Hplane) Hno.
  assert (Hpow : 2 ^ 32 <= 2 ^ size_bits) by (apply Z.pow_le_mono_r; lia).
  pose proof (stride_ge width Hw0) as Hs.
  unfold u32_range in *.
  assert (Hwpos : 0 < width).
  { destruct (Z.eq_dec width 0) as [W|W]; [|lia]. exfalso. apply Hno. left. exact W. }
  assert (Hhpos : 0 < height).
  { destruct (Z.eq_dec height 0) as [H|H]; [|lia].
    exfalso. apply Hno. right. left. exact H. }
  assert (Hshort : Z.of_nat (List.length mem)
                   < Util.plane_offset p + stride width * (height - 1)
                     + 5 * ((width + 3) / 4)).
  { apply Z.lt_nge. intros Hle. apply Hno. right. right. exact Hle. }
  unfold Util.unpackRaw10To16. rewrite Hplanes, Hcookie.
  unfold Util.to_size_t at 1. rewrite Z.mod_small by nia.
  rewrite Hdst, Z.eqb_refl. cbn [negb]. cbv zeta.
  unfold to_u32. rewrite (Z.mod_small (width * 10 + 7)) by lia.
  change ((width * 10 + 7) / 8) with (stride width).
  unfold Util.to_size_t at 1. rewrite Z.mod_small by nia.
  destruct (Z.ltb_spec (Util.plane_length p) (stride width * height)); [lia|].
  rewrite (unpackRows_short size_bits width height (stride width)); try lia.
  - reflexivity.
  - intros st. apply (unpackLine_short size_bits width (Z.to_nat width)); try lia.
    rewrite !length_skipn, Z.sub_0_r.
    assert (0 <= (height - 1) * stride width) by nia.
    assert (stride width * (height - 1) = (height - 1) * stride width) by ring.
    assert (1 <= (width + 3) / 4) by (apply Z.div_le_lower_bound; lia).
    lia.
Qed.

(** C8 fails on the code.  For a width that is not a multiple of 4 and an
    accepted input of exactly [stride * height] bytes, the last row does not
    receive its [width] samples: the loop reads the final partial group of
    that row in full, five bytes of which 1 to 3 lie past the input, before
    it stores any pixel of the group, so the row's line has no result from
    any output cursor and the call returns no output buffer. *)
Theorem C8_last_row_not_written (size_bits : Z) (fb : Util.FrameBuffer)
  (p : Util.Plane) (mem : list byte) (width height : Z) (dst : list Z) :
  width mod 4 <> 0 ->
  0 < height ->
  accepted size_bits fb p mem width height dst ->
  Z.of_nat (List.length mem) = Util.plane_offset p + stride width * height ->
  (forall st,
     Util.unpackLine size_bits width
       (skipn (Z.to_nat ((height - 1) * stride width))
          (skipn (Z.to_nat (Util.plane_offset p)) mem)) 0 st = None) /\
  Util.unpackRaw10To16 size_bits (Some fb) width height dst = Undefined /\
  ~ exists out,
      Util.unpackRaw10To16 size_bits (Some fb) width height dst = Returned (true, out).
Proof.
  intros Hmod Hpos Ha Hmem.
  pose proof Ha as (Hsz & _ & _ & Hoff & _ & Hw0 & Hw & Hh & _ & _).
  pose proof (stride_ge width Hw0) as Hs.
  pose proof (stride_short width Hw0 Hmod) as Hshort.
  unfold u32_range in Hoff.
  assert (Hwpos : 0 < width).
  { destruct (Z.eq_dec width 0) as [W|W]; [|lia].
    rewrite W in Hmod. exfalso. apply Hmod. reflexivity. }
  assert (Hrows : 0 <= (height - 1) * stride width) by nia.
  assert (Hcomm : stride width * (height - 1) = (height - 1) * stride width) by ring.
  assert (Hu : Util.unpackRaw10To16 size_bits (Some fb) width height dst = Undefined).
  { apply (unpack_undefined size_bits fb p mem width height dst Ha).
    intros [W|[H|Hm]]; lia. }
  split; [|split; [exact Hu|]].
  - intros st. apply (unpackLine_short size_bits width (Z.to_nat width)); try lia.
    rewrite !length_skipn, Z.sub_0_r. lia.
  - intros (out & E). rewrite Hu in E. discriminate.
Qed.

Lemma C8_witness :
  6 mod 4 <> 0 /\ 0 < 1 /\
  accepted 64 fb_6x1_exact {| Util.plane_offset := 0; Util.plane_length := 8 |}
    mem_6x1_exact 6 1 (repeat 7 6%nat) /\
  Z.of_nat (List.length mem_6x1_exact) = 0 + stride 6 * 1 /\
  Util.unpackRaw10To16 64 (Some fb_6x1_exact) 6 1 (repeat 7 6%nat) = Undefined.
Proof.
  assert (Hn : 6 mod 4 <> 0) by (vm_compute; discriminate).
  assert (Hp : 0 < 1) by lia.
  assert (Ha : accepted 64 fb_6x1_exact
                 {| Util.plane_offset := 0; Util.plane_length := 8 |}
                 mem_6x1_exact 6 1 (repeat 7 6%nat))
    by (unfold accepted, u32_range; cbn; repeat split; try reflexivity; lia).
  assert (Hm : Z.of_nat (List.length mem_6x1_exact) = 0 + stride 6 * 1) by reflexivity.
  repeat (split; [assumption|]).
  exact (proj1 (proj2 (C8_last_row_not_written 64 fb_6x1_exact _ mem_6x1_exact 6 1
                         (repeat 7 6%nat) Hn Hp Ha Hm))).
Defined.

(** [unpack_ok], from the predicate of accepted inputs. *)
Lemma unpack_accepted (size_bits : Z) (fb : Util.FrameBuffer) (p : Util.Plane)
  (mem : list byte) (width height : Z) (dst : list Z) :
  accepted size_bits fb p mem width height dst ->
  groups_mapped (Z.of_nat (List.length mem)) (Util.plane_offset p) width height ->
  exists out,
    Util.unpackRaw10To16 size_bits (Some fb) width height dst = Returned (true, out) /\
    wrote dst out (width * height)
      (unpacked (skipn (Z.to_nat (Util.plane_offset p)) mem) width).
Proof.
  intros (Hsz & Hplanes & Hcookie & Hoff & Hlen & Hw0 & Hw & Hh & Hdst & Hplane) Hm.
  assert (Hpow : 2 ^ 32 <= 2 ^ size_bits) by (apply Z.pow_le_mono_r; lia).
  destruct (unpack_ok size_bits fb p mem width height dst)
    as (out & E & _ & W); try assumption;
    [unfold u32_range in Hlen; lia|].
  exists out. split; assumption.
Qed.

(** X1.  On an accepted input the call returns [true] exactly when every
    five-byte group it reads is mapped; otherwise a read leaves the mapped
    memory and the run has no defined result.  It never returns [false]. *)
Theorem unpack_accepted_outcome (size_bits : Z) (fb : Util.FrameBuffer)
  (p : Util.Plane) (mem : list byte) (width height : Z) (dst : list Z) :
  accepted size_bits fb p mem width height dst ->
  (groups_mapped (Z.of_nat (List.length mem)) (Util.plane_offset p) width height ->
   exists out,
     Util.unpackRaw10To16 size_bits (Some fb) width height dst = Returned (true, out)) /\
  (~ groups_mapped (Z.of_nat (List.length mem)) (Util.plane_offset p) width height ->
   Util.unpackRaw10To16 size_bits (Some fb) width height dst = Undefined).
Proof.
  intros Ha. split.
  - intros Hm.
    destruct (unpack_accepted size_bits fb p mem width height dst Ha Hm) as (out & E & _).
    exists out. exact E.
  - apply unpack_undefined. exact Ha.
Qed.

Lemma X1_witness :
  accepted 64 fb_1x1 {| Util.plane_offset := 0; Util.plane_length := 2 |}
    [x2a; x01] 1 1 [0] /\
  ~ groups_mapped 2 0 1 1 /\
  Util.unpackRaw10To16 64 (Some fb_1x1) 1 1 [0] = Undefined.
Proof.
  assert (Ha : accepted 64 fb_1x1 {| Util.plane_offset := 0; Util.plane_length := 2 |}
                 [x2a; x01] 1 1 [0])
    by (unfold accepted, u32_range; cbn; repeat split; try reflexivity; lia).
  assert (Hn : ~ groups_mapped 2 0 1 1).
  { intros [H|[H|H]]; try discriminate. vm_compute in H. apply H. reflexivity. }
  split; [exact Ha|]. split; [exact Hn|].
  exact (proj2 (unpack_accepted_outcome 64 fb_1x1 _ [x2a; x01] 1 1 [0] Ha) Hn).
Defined.

Lemma length_store_list (v : list Z) :
  forall (n : nat) (x : Z),
    (n < List.length v)%nat ->
    List.length (firstn n v ++ x :: skipn (S n) v) = List.length v.
Proof.
  induction v as [|a v IH]; intros [|n] x H; cbn [List.length] in H; try lia.
  - reflexivity.
  - cbn [firstn skipn app List.length]. f_equal. apply IH. lia.
Qed.

Lemma store_length (v : list Z) (i x : Z) (v' : list Z) :
  store v i x = Some v' -> List.length v' = List.length v.
Proof.
  unfold store.
  destruct ((0 <=? i) && (i <? Z.of_nat (List.length v))) eqn:E; [|discriminate].
  apply andb_true_iff in E as (E1 & E2).
  apply Z.leb_le in E1. apply Z.ltb_lt in E2.
  intros H. injection H as <-.
  apply length_store_list. lia.
Qed.

Lemma emit_length (size_bits : Z) (c : bool) (p : Z) (st st' : Util.cursor) :
  Util.emit size_bits c p st = Some st' ->
  List.length (fst st') = List.length (fst st).
Proof.
  unfold Util.emit. destruct c.
  - destruct (store (fst st) (snd st) p) as [d|] eqn:E; [|discriminate].
    intros H. injection H as <-. cbn [fst]. exact (store_length _ _ _ _ E).
  - intros H. injection H as <-. reflexivity.
Qed.

Lemma unpackLine_length (size_bits width : Z) (n : nat) :
  forall (line : list byte) (x : Z) (st st' : Util.cursor),
    (List.length line <= n)%nat ->
    Util.unpackLine size_bits width line x st = Some st' ->
    List.length (fst st') = List.length (fst st).
Proof.
  induction n as [|n IH]; intros line x st st' Hn;
    destruct line as [|c0 [|c1 [|c2 [|c3 [|c4 rest]]]]];
    cbn [Util.unpackLine]; cbv zeta;
    destruct (x <? width);
    try discriminate;
    try (intros H; injection H as <-; reflexivity);
    cbn [List.length] in Hn; try lia.
  destruct (Util.emit size_bits true _ st) as [s1|] eqn:E1;
    cbn [Util.and_then]; [|discriminate].
  destruct (Util.emit size_bits _ _ s1) as [s2|] eqn:E2;
    cbn [Util.and_then]; [|discriminate].
  destruct (Util.emit size_bits _ _ s2) as [s3|] eqn:E3;
    cbn [Util.and_then]; [|discriminate].
  destruct (Util.emit size_bits _ _ s3) as [s4|] eqn:E4;
    cbn [Util.and_then]; [|discriminate].
  intros H. apply IH in H; [|lia].
  rewrite H, (emit_length _ _ _ _ _ E4), (emit_length _ _ _ _ _ E3),
    (emit_length _ _ _ _ _ E2), (emit_length _ _ _ _ _ E1).
  reflexivity.
Qed.

Lemma unpackRows_length (size_bits width S : Z) (src : list byte) (todo : nat) :
  forall (y : Z) (st st' : Util.cursor),
    Util.unpackRows size_bits src S width todo y st = Some st' ->
    List.length (fst st') = List.length (fst st).
Proof.
  induction todo as [|todo IH]; intros y st st'; cbn [Util.unpackRows]; cbv zeta.
  - intros H. injection H as <-. reflexivity.
  - destruct (Util.unpackLine _ _ _ _ _) as [s1|] eqn:E; cbn [Util.and_then];
      [|discriminate].
    intros H. apply IH in H. rewrite H.
    exact (unpackLine_length _ _ _ _ _ _ _ (Nat.le_refl _) E).
Qed.

(** X2.  Whatever the arguments, a call that returns leaves [dst] with the
    size it had, and a call that returns [false] leaves [dst] as it was. *)
Theorem unpack_keeps_size (size_bits : Z) (fb : option Util.FrameBuffer)
  (width height : Z) (dst : list Z) (ok : bool) (out : list Z) :
  Util.unpackRaw10To16 size_bits fb width height dst = Returned (ok, out) ->
  List.length out = List.length dst /\ (ok = false -> out = dst).
Proof.
  unfold Util.unpackRaw10To16.
  destruct fb as [fb|]; [|intros H; injection H as <- <-; auto].
  destruct (negb _); [intros H; injection H as <- <-; auto|].
  destruct (Util.planes fb) as [|p [|q r]];
    try (intros H; injection H as <- <-; auto).
  destruct (Util.cookie fb) as [mem|]; [|intros H; injection H as <- <-; auto].
  cbv zeta. destruct (_ <? _); [intros H; injection H as <- <-; auto|].
  destruct (Util.unpackRows _ _ _ _ _ _ _) as [[d i]|] eqn:E; [|discriminate].
  intros H. injection H as <- <-.
  split; [|discriminate].
  exact (unpackRows_length _ _ _ _ _ _ _ _ E).
Qed.

Lemma X2_witness :
  Util.unpackRaw10To16 64 (Some fb_6x1) 6 1 (repeat 7 6%nat)
    = Returned (true, [1; 258; 515; 772; 773; 518]) /\
  List.length [1; 258; 515; 772; 773; 518] = List.length (repeat 7 6%nat).
Proof.
  assert (H : Util.unpackRaw10To16 64 (Some fb_6x1) 6 1 (repeat 7 6%nat)
              = Returned (true, [1; 258; 515; 772; 773; 518])) by reflexivity.
  split; [exact H|].
  exact (proj1 (unpack_keeps_size 64 (Some fb_6x1) 6 1 (repeat 7 6%nat) true _ H)).
Defined.

Lemma wrote_all_eq (dst1 dst2 out1 out2 : list Z) (n : Z) (F1 F2 : Z -> Z) :
  Z.of_nat (List.length dst1) = n -> Z.of_nat (List.length dst2) = n ->
  wrote dst1 out1 n F1 -> wrote dst2 out2 n F2 ->
  (forall i, 0 <= i < n -> F1 i = F2 i) ->
  out1 = out2.
Proof.
  intros L1 L2 (Hl1 & Hv1 & _) (Hl2 & Hv2 & _) HF.
  apply (nth_ext out1 out2 0 0); [lia|].
  intros k Hk.
  pose proof (Hv1 (Z.of_nat k) ltac:(lia)) as E1.
  pose proof (Hv2 (Z.of_nat k) ltac:(lia)) as E2.
  unfold sample in E1, E2. rewrite Nat2Z.id in E1, E2.
  rewrite E1, E2. apply HF. lia.
Qed.

(** X3.  On an accepted input whose group reads are mapped, the samples left
    in [dst] do not depend on what [dst] held before: every element is
    overwritten. *)
Theorem unpack_overwrites_every_sample (size_bits : Z) (fb : Util.FrameBuffer)
  (p : Util.Plane) (mem : list byte) (width height : Z) (dst1 dst2 : list Z) :
  accepted size_bits fb p mem width height dst1 ->
  List.length dst2 = List.length dst1 ->
  groups_mapped (Z.of_nat (List.length mem)) (Util.plane_offset p) width height ->
  exists out,
    Util.unpackRaw10To16 size_bits (Some fb) width height dst1 = Returned (true, out) /\
    Util.unpackRaw10To16 size_bits (Some fb) width height dst2 = Returned (true, out).
Proof.
  intros Ha1 Hl Hm.
  assert (Ha2 : accepted size_bits fb p mem width height dst2).
  { destruct Ha1 as (H1 & H2 & H3 & H4 & H5 & H6 & H7 & H8 & H9 & H10).
    repeat split; try assumption; try apply H4; try apply H5; try apply H8.
    rewrite Hl. exact H9. }
  destruct (unpack_accepted size_bits fb p mem width height dst1 Ha1 Hm)
    as (out1 & E1 & W1).
  destruct (unpack_accepted size_bits fb p mem width height dst2 Ha2 Hm)
    as (out2 & E2 & W2).
  assert (E : out2 = out1).
  { destruct Ha1 as (_ & _ & _ & _ & _ & _ & _ & _ & Hd & _).
    refine (wrote_all_eq dst2 dst1 out2 out1 (width * height) _ _ _ Hd W2 W1 _);
      [lia|reflexivity]. }
  subst out2. exists out1. split; assumption.
Qed.

Lemma X3_witness :
  accepted 64 fb_4x2 {| Util.plane_offset := 0; Util.plane_length := 10 |}
    mem_4x2 4 2 (repeat 0 8%nat) /\
  List.length (repeat 9 8%nat) = List.length (repeat 0 8%nat) /\
  groups_mapped 10 0 4 2 /\
  exists out,
    Util.unpackRaw10To16 64 (Some fb_4x2) 4 2 (repeat 0 8%nat) = Returned (true, out) /\
    Util.unpackRaw10To16 64 (Some fb_4x2) 4 2 (repeat 9 8%nat) = Returned (true, out).
Proof.
  assert (Ha : accepted 64 fb_4x2 {| Util.plane_offset := 0; Util.plane_length := 10 |}
                 mem_4x2 4 2 (repeat 0 8%nat))
    by (unfold accepted, u32_range; cbn; repeat split; try reflexivity; lia).
  assert (Hl : List.length (repeat 9 8%nat) = List.length (repeat 0 8%nat))
    by reflexivity.
  assert (Hm : groups_mapped 10 0 4 2)
    by (right; right; vm_compute; discriminate).
  split; [exact Ha|]. split; [exact Hl|]. split; [exact Hm|].
  exact (unpack_overwrites_every_sample 64 fb_4x2 _ mem_4x2 4 2
           (repeat 0 8%nat) (repeat 9 8%nat) Ha Hl Hm).
Defined.

(** X4.  The output depends only on the bytes from the plane offset to the
    end of the last group read: two accepted frames that differ elsewhere
    (before the plane, after that window) unpack to the same samples. *)
Theorem unpack_reads_only_its_window (size_bits : Z)
  (fb1 fb2 : Util.FrameBuffer) (p : Util.Plane) (mem1 mem2 : list byte)
  (width height : Z) (dst : list Z) :
  accepted size_bits fb1 p mem1 width height dst ->
  accepted size_bits fb2 p mem2 width height dst ->
  groups_mapped (Z.of_nat (List.length mem1)) (Util.plane_offset p) width height ->
  groups_mapped (Z.of_nat (List.length mem2)) (Util.plane_offset p) width height ->
  same_window mem1 mem2 (Util.plane_offset p) width height ->
  exists out,
    Util.unpackRaw10To16 size_bits (Some fb1) width height dst = Returned (true, out) /\
    Util.unpackRaw10To16 size_bits (Some fb2) width height dst = Returned (true, out).
Proof.
  intros Ha1 Ha2 Hm1 Hm2 Hsame.
  destruct (unpack_accepted size_bits fb1 p mem1 width height dst Ha1 Hm1)
    as (out1 & E1 & W1).
  destruct (unpack_accepted size_bits fb2 p mem2 width height dst Ha2 Hm2)
    as (out2 & E2 & W2).
  destruct Ha1 as (_ & _ & _ & Hoff & _ & Hw0 & Hw & Hh & Hd & _).
  unfold u32_range in Hoff.
  assert (E : out1 = out2).
  { refine (wrote_all_eq dst dst out1 out2 (width * height) _ _ Hd Hd W1 W2 _).
    intros idx Hidx.
    assert (Hwpos : 0 < width) by nia.
    pose proof (Z.div_mod idx width ltac:(lia)) as Hdm.
    pose proof (Z.mod_pos_bound idx width Hwpos) as Hmb.
    assert (Hy : 0 <= idx / width < height).
    { split; [apply Z.div_pos; lia|apply Z.div_lt_upper_bound; lia]. }
    replace idx with (idx / width * width + idx mod width) by lia.
    rewrite !unpacked_bytes by lia.
    set (y := idx / width) in *. set (i := idx mod width) in *.
    pose proof (stride_ge width Hw0) as Hs.
    pose proof (Z.mod_pos_bound i 4 ltac:(lia)) as Hr.
    assert (Hq : 0 <= i / 4 /\ i / 4 + 1 <= (width + 3) / 4).
    { split; [apply Z.div_pos; lia|].
      replace (i / 4 + 1) with ((i + 1 * 4) / 4) by (rewrite Z.div_add by lia; lia).
      apply Z.div_le_mono; lia. }
    assert (Hrow : 0 <= y * stride width <= stride width * (height - 1)) by nia.
    rewrite (Hsame (Util.plane_offset p + y * stride width + 5 * (i / 4) + i mod 4))
      by lia.
    rewrite (Hsame (Util.plane_offset p + y * stride width + 5 * (i / 4) + 4))
      by lia.
    reflexivity. }
  subst out2. exists out1. split; assumption.
Qed.

Lemma X4_witness :
  exists out,
    Util.unpackRaw10To16 64 (Some fb_4x2_inside) 4 2 (repeat 0 8%nat)
      = Returned (true, out) /\
    Util.unpackRaw10To16 64 (Some fb_4x2_inside') 4 2 (repeat 0 8%nat)
      = Returned (true, out).
Proof.
  apply (unpack_reads_only_its_window 64 fb_4x2_inside fb_4x2_inside'
           {| Util.plane_offset := 3; Util.plane_length := 10 |}
           ([xaa; xbb; xcc] ++ mem_4x2 ++ [xdd; xee])
           ([x11; x22; x33] ++ mem_4x2 ++ [x44]) 4 2 (repeat 0 8%nat)).
  - unfold accepted, u32_range; cbn; repeat split; try reflexivity; lia.
  - unfold accepted, u32_range; cbn; repeat split; try reflexivity; lia.
  - right; right; vm_compute; discriminate.
  - right; right; vm_compute; discriminate.
  - intros i Hi. change (3 <= i < 13) in Hi.
    assert (E : i = 3 \/ i = 4 \/ i = 5 \/ i = 6 \/ i = 7 \/ i = 8 \/ i = 9
                \/ i = 10 \/ i = 11 \/ i = 12) by lia.
    destruct E as [->|[->|[->|[->|[->|[->|[->|[->|[->| ->]]]]]]]]]; reflexivity.
Defined.

(** X5.  With no column or no row there is nothing to decode: an accepted
    call returns [true] without reading the mapping and leaves [dst] (which
    is empty) as it was. *)
Theorem unpack_empty_frame (size_bits : Z) (fb : Util.FrameBuffer)
  (p : Util.Plane) (mem : list byte) (width height : Z) (dst : list Z) :
  width = 0 \/ height = 0 ->
  accepted size_bits fb p mem width height dst ->
  dst = [] /\
  Util.unpackRaw10To16 size_bits (Some fb) width height dst = Returned (true, dst).
Proof.
  intros Hz Ha.
  assert (Hm : groups_mapped (Z.of_nat (List.length mem)) (Util.plane_offset p)
                 width height)
    by (destruct Hz as [H|H]; [left|right; left]; exact H).
  destruct (unpack_accepted size_bits fb p mem width height dst Ha Hm)
    as (out & E & (Hl & _)).
  destruct Ha as (_ & _ & _ & _ & _ & _ & _ & _ & Hd & _).
  assert (Hd0 : List.length dst = 0%nat) by (destruct Hz; subst; lia).
  assert (dst = []) by (destruct dst; [reflexivity|discriminate]).
  assert (out = []) by (destruct out; [reflexivity|cbn in Hl; lia]).
  subst. split; [reflexivity|exact E].
Qed.

Lemma X5_witness :
  Util.unpackRaw10To16 64 (Some fb_no_bytes) 0 5 [] = Returned (true, []).
Proof.
  apply (unpack_empty_frame 64 fb_no_bytes
           {| Util.plane_offset := 0; Util.plane_length := 0 |} [] 0 5 []).
  - left. reflexivity.
  - unfold accepted, u32_range; cbn; repeat split; try reflexivity; lia.
Defined.

Lemma byte_of_eq (n : Z) (c : byte) : n mod 256 = u8 c -> byte_of n = c.
Proof.
  intros H. unfold byte_of, to_u8. change (2 ^ 8) with 256. rewrite H.
  unfold u8. rewrite N2Z.id, Byte.of_to_N. reflexivity.
Qed.

Lemma digits_base4 (t b : Z) :
  0 <= t < 256 -> 0 <= b < 256 ->
  (t / 2 ^ (2 * 0)) mod 4 = (b / 2 ^ (2 * 0)) mod 4 ->
  (t / 2 ^ (2 * 1)) mod 4 = (b / 2 ^ (2 * 1)) mod 4 ->
  (t / 2 ^ (2 * 2)) mod 4 = (b / 2 ^ (2 * 2)) mod 4 ->
  (t / 2 ^ (2 * 3)) mod 4 = (b / 2 ^ (2 * 3)) mod 4 ->
  t = b.
Proof.
  cbn [Z.mul Z.pow Z.pow_pos Pos.iter Pos.mul].
  intros Ht Hb H0 H1 H2 H3. Z.div_mod_to_equations. lia.
Qed.

(** Packing the four pixels of a group gives its five bytes back. *)
Lemma pack10_group (c0 c1 c2 c3 c4 : byte) (rest : list Z) :
  pack10 (group_pixel 0 (u8 c0) (u8 c4) :: group_pixel 1 (u8 c1) (u8 c4)
          :: group_pixel 2 (u8 c2) (u8 c4) :: group_pixel 3 (u8 c3) (u8 c4)
          :: rest)
  = c0 :: c1 :: c2 :: c3 :: c4 :: pack10 rest.
Proof.
  cbn [pack10].
  pose proof (u8_range c0) as R0. pose proof (u8_range c1) as R1.
  pose proof (u8_range c2) as R2. pose proof (u8_range c3) as R3.
  pose proof (u8_range c4) as R4.
  rewrite !group_pixel_arith by lia.
  set (h0 := (u8 c4 / 2 ^ (2 * 0)) mod 4).
  set (h1 := (u8 c4 / 2 ^ (2 * 1)) mod 4).
  set (h2 := (u8 c4 / 2 ^ (2 * 2)) mod 4).
  set (h3 := (u8 c4 / 2 ^ (2 * 3)) mod 4).
  assert (B0 : 0 <= h0 < 4) by (apply Z.mod_pos_bound; lia).
  assert (B1 : 0 <= h1 < 4) by (apply Z.mod_pos_bound; lia).
  assert (B2 : 0 <= h2 < 4) by (apply Z.mod_pos_bound; lia).
  assert (B3 : 0 <= h3 < 4) by (apply Z.mod_pos_bound; lia).
  assert (Hlow : forall a h, 0 <= a < 256 -> 0 <= h < 4 ->
            Z.land (a + 256 * h) 255 mod 256 = a /\ Z.shiftr (a + 256 * h) 8 = h).
  { intros a h Ra Rh. change 255 with (Z.ones 8).
    rewrite (Z.land_ones _ 8 ltac:(lia)), Z.shiftr_div_pow2 by lia.
    change (2 ^ 8) with 256. split; Z.div_mod_to_equations; lia. }
  destruct (Hlow _ _ R0 B0) as (L0 & S0). destruct (Hlow _ _ R1 B1) as (L1 & S1).
  destruct (Hlow _ _ R2 B2) as (L2 & S2). destruct (Hlow _ _ R3 B3) as (L3 & S3).
  rewrite S0, S1, S2, S3.
  rewrite (byte_of_eq _ c0 L0), (byte_of_eq _ c1 L1),
    (byte_of_eq _ c2 L2), (byte_of_eq _ c3 L3).
  do 4 f_equal. f_equal.
  apply byte_of_eq.
  destruct (high_parts_packed h0 h1 h2 h3 B0 B1 B2 B3) as (P0 & P1 & P2 & P3).
  apply digits_base4; try assumption.
  apply Z.mod_pos_bound. lia.
Qed.

Lemma pack10_of_pixels (g : nat) :
  forall (out : list Z) (line : list byte),
    List.length out = (4 * g)%nat ->
    (5 * g <= List.length line)%nat ->
    (forall i, 0 <= i < 4 * Z.of_nat g -> sample out i = pixel_at line i) ->
    pack10 out = firstn (5 * g) line.
Proof.
  induction g as [|g IH]; intros out line Hout Hline Hpix.
  - destruct out; [reflexivity|discriminate].
  - destruct out as [|v0 [|v1 [|v2 [|v3 out']]]]; cbn [List.length] in Hout; try lia.
    destruct line as [|c0 [|c1 [|c2 [|c3 [|c4 line']]]]];
      cbn [List.length] in Hline; try lia.
    destruct (pixel_at_group c0 c1 c2 c3 c4 line') as (G0 & G1 & G2 & G3).
    pose proof (Hpix 0 ltac:(lia)) as E0. pose proof (Hpix 1 ltac:(lia)) as E1.
    pose proof (Hpix 2 ltac:(lia)) as E2. pose proof (Hpix 3 ltac:(lia)) as E3.
    cbv zeta in G0, G1, G2, G3.
    rewrite G0 in E0. rewrite G1 in E1. rewrite G2 in E2. rewrite G3 in E3.
    change (sample (v0 :: v1 :: v2 :: v3 :: out') 0) with v0 in E0.
    change (sample (v0 :: v1 :: v2 :: v3 :: out') 1) with v1 in E1.
    change (sample (v0 :: v1 :: v2 :: v3 :: out') 2) with v2 in E2.
    change (sample (v0 :: v1 :: v2 :: v3 :: out') 3) with v3 in E3.
    subst v0 v1 v2 v3. rewrite pack10_group.
    replace (5 * S g)%nat with (5 + 5 * g)%nat by lia.
    cbn [firstn Nat.add]. do 5 f_equal.
    apply IH; try lia.
    intros i Hi.
    pose proof (Hpix (i + 4) ltac:(lia)) as E.
    rewrite pixel_at_next in E by lia. rewrite <- E.
    unfold sample. replace (Z.to_nat (i + 4)) with (4 + Z.to_nat i)%nat by lia.
    reflexivity.
Qed.

Lemma unpacked_contiguous (src : list byte) (k idx : Z) :
  0 < k -> 0 <= idx ->
  unpacked src (4 * k) idx = pixel_at src idx.
Proof.
  intros Hk Hidx. unfold unpacked. rewrite stride_multiple_of_4.
  set (width := 4 * k).
  set (y := idx / width). set (i := idx mod width).
  assert (Hyi : idx = width * y + i /\ 0 <= i < width /\ 0 <= y).
  { unfold y, i. pose proof (Z.div_mod idx width ltac:(lia)).
    pose proof (Z.mod_pos_bound idx width ltac:(lia)).
    repeat split; try lia. apply Z.div_pos; lia. }
  destruct Hyi as (Eidx & Hi & Hy).
  pose proof (Z.div_mod i 4 ltac:(lia)) as Ei.
  pose proof (Z.mod_pos_bound i 4 ltac:(lia)) as Hr.
  assert (Hq : 0 <= i / 4) by (apply Z.div_pos; lia).
  assert (Hd : idx / 4 = k * y + i / 4)
    by (symmetry; apply (Z.div_unique idx 4 (k * y + i / 4) (i mod 4)); lia).
  assert (Hm : idx mod 4 = i mod 4)
    by (symmetry; apply (Z.mod_unique idx 4 (k * y + i / 4) (i mod 4)); lia).
  rewrite pixel_at_skipn by nia.
  unfold pixel_at. rewrite Hm, Hd.
  f_equal; (f_equal; lia).
Qed.

(** X6.  Decoding loses nothing: for a width that is a multiple of 4, on an
    accepted frame whose plane lies in the mapping, packing the samples left
    in [dst] gives back exactly the [stride * height] bytes of the plane. *)
Theorem unpack_then_pack_round_trip (size_bits : Z) (fb : Util.FrameBuffer)
  (p : Util.Plane) (mem : list byte) (width height : Z) (dst : list Z) :
  width mod 4 = 0 ->
  accepted size_bits fb p mem width height dst ->
  Util.plane_offset p + stride width * height <= Z.of_nat (List.length mem) ->
  exists out,
    Util.unpackRaw10To16 size_bits (Some fb) width height dst = Returned (true, out) /\
    pack10 out
      = firstn (Z.to_nat (stride width * height))
          (skipn (Z.to_nat (Util.plane_offset p)) mem).
Proof.
  intros Hmod Ha Hin.
  pose proof Ha as (Hsz & Hplanes & Hcookie & Hoff & Hplen & Hw0 & Hw & Hh & Hd & Hplane).
  unfold u32_range in Hoff.
  assert (Hk : width = 4 * (width / 4)) by (Z.div_mod_to_equations; lia).
  assert (Hst : stride width = 5 * (width / 4))
    by (rewrite Hk at 1; apply stride_multiple_of_4).
  assert (Hg : (width + 3) / 4 = width / 4) by (Z.div_mod_to_equations; lia).
  assert (Hq : 0 <= width / 4) by (apply Z.div_pos; lia).
  assert (Hm : groups_mapped (Z.of_nat (List.length mem)) (Util.plane_offset p)
                 width height).
  { destruct (Z.eq_dec height 0) as [H0|H0]; [right; left; exact H0|].
    right; right. rewrite Hg, Hst in *. nia. }
  destruct (unpack_accepted size_bits fb p mem width height dst Ha Hm)
    as (out & E & (Hl & Hv & _)).
  exists out. split; [exact E|].
  rewrite Hst.
  replace (Z.to_nat (5 * (width / 4) * height))
    with (5 * Z.to_nat (width / 4 * height))%nat by nia.
  apply pack10_of_pixels.
  - nia.
  - rewrite length_skipn. rewrite Hst in Hin. nia.
  - intros i Hi.
    destruct (Z.eq_dec (width / 4) 0) as [Z0|Z0]; [nia|].
    rewrite Hv by nia. rewrite Hk. apply unpacked_contiguous; lia.
Qed.

Lemma X6_witness :
  4 mod 4 = 0 /\
  accepted 64 fb_4x2_inside {| Util.plane_offset := 3; Util.plane_length := 10 |}
    ([xaa; xbb; xcc] ++ mem_4x2 ++ [xdd; xee]) 4 2 (repeat 0 8%nat) /\
  exists out,
    Util.unpackRaw10To16 64 (Some fb_4x2_inside) 4 2 (repeat 0 8%nat)
      = Returned (true, out) /\
    pack10 out = mem_4x2.
Proof.
  assert (Hm : 4 mod 4 = 0) by reflexivity.
  assert (Ha : accepted 64 fb_4x2_inside
                 {| Util.plane_offset := 3; Util.plane_length := 10 |}
                 ([xaa; xbb; xcc] ++ mem_4x2 ++ [xdd; xee]) 4 2 (repeat 0 8%nat))
    by (unfold accepted, u32_range; cbn; repeat split; try reflexivity; lia).
  split; [exact Hm|]. split; [exact Ha|].
  exact (unpack_then_pack_round_trip 64 fb_4x2_inside _
           ([xaa; xbb; xcc] ++ mem_4x2 ++ [xdd; xee]) 4 2 (repeat 0 8%nat)
           Hm Ha ltac:(vm_compute; discriminate)).
Defined.

(** ** The helpers of src/Util.cpp *)

Lemma toupper_idem (c : ascii) : Util.toupper (Util.toupper c) = Util.toupper c.
Proof. destruct c as [[] [] [] [] [] [] [] []]; reflexivity. Qed.

Lemma upper_idem (s : string) : Util.upper (Util.upper s) = Util.upper s.
Proof.
  induction s as [|c s IH]; [reflexivity|].
  cbn [Util.upper]. rewrite toupper_idem, IH. reflexivity.
Qed.

Lemma upper_length (s : string) : String.length (Util.upper s) = String.length s.
Proof.
  induction s as [|c s IH]; [reflexivity|].
  cbn [Util.upper String.length]. rewrite IH. reflexivity.
Qed.

Lemma parseBayer_true (s norm n : string) :
  Util.parseBayer s norm = (true, n) ->
  n = Util.upper s /\ exists b, n = token b.
Proof.
  unfold Util.parseBayer. cbv zeta.
  destruct (String.eqb_spec (Util.upper s) "RGGB") as [E|_].
  { cbn [orb]. intros H. injection H as <-. split; [reflexivity|].
    exists DngWriter.RGGB. exact E. }
  destruct (String.eqb_spec (Util.upper s) "BGGR") as [E|_].
  { cbn [orb]. intros H. injection H as <-. split; [reflexivity|].
    exists DngWriter.BGGR. exact E. }
  destruct (String.eqb_spec (Util.upper s) "GRBG") as [E|_].
  { cbn [orb]. intros H. injection H as <-. split; [reflexivity|].
    exists DngWriter.GRBG. exact E. }
  destruct (String.eqb_spec (Util.upper s) "GBRG") as [E|_].
  { cbn [orb]. intros H. injection H as <-. split; [reflexivity|].
    exists DngWriter.GBRG. exact E. }
  cbn [orb]. discriminate.
Qed.

(** X7.  What [parseBayer] accepts, the writer's resolver recognises: an
    accepted string has four characters, the normal form left in [norm] is
    its upper-case spelling and one of the four tokens, parsing the normal
    form again accepts it unchanged, and [toBayer] maps it to the variant of
    that name, not to its fallback. *)
Theorem parseBayer_result_resolves (s norm n : string) :
  Util.parseBayer s norm = (true, n) ->
  String.length s = 4%nat /\
  n = Util.upper s /\
  (forall norm', Util.parseBayer n norm' = (true, n)) /\
  token (DngWriter.toBayer n) = n.
Proof.
  intros H. destruct (parseBayer_true s norm n H) as (Hn & b & Hb).
  split.
  { rewrite <- (upper_length s), <- Hn, Hb. destruct b; reflexivity. }
  split; [exact Hn|].
  rewrite Hb. split; [intros norm'|]; destruct b; reflexivity.
Qed.

Lemma X7_witness :
  Util.parseBayer "gbRg" "RGGB" = (true, "GBRG"%string) /\
  token (DngWriter.toBayer "GBRG") = "GBRG"%string.
Proof.
  assert (H : Util.parseBayer "gbRg" "RGGB" = (true, "GBRG"%string)) by reflexivity.
  split; [exact H|].
  exact (proj2 (proj2 (proj2 (parseBayer_result_resolves "gbRg" "RGGB" "GBRG" H)))).
Defined.

(** X8.  [parseBayer] does not depend on the letter case of its input: a
    string and its upper-case spelling are treated alike, and a string that
    is rejected leaves [norm] as it was. *)
Theorem parseBayer_case_insensitive (s norm : string) :
  Util.parseBayer (Util.upper s) norm = Util.parseBayer s norm /\
  (fst (Util.parseBayer s norm) = false -> snd (Util.parseBayer s norm) = norm).
Proof.
  split.
  - unfold Util.parseBayer. rewrite upper_idem. reflexivity.
  - unfold Util.parseBayer. cbv zeta.
    destruct (_ || _ || _ || _)%bool; [discriminate|reflexivity].
Qed.

Lemma append_assoc_s (a b c : string) : ((a ++ b) ++ c = a ++ (b ++ c))%string.
Proof. induction a as [|x a IH]; [reflexivity|]. cbn. rewrite IH. reflexivity. Qed.

Lemma append_empty_r (a : string) : (a ++ "")%string = a.
Proof. induction a as [|x a IH]; [reflexivity|]. cbn. rewrite IH. reflexivity. Qed.

Lemma append_length (a b : string) :
  String.length (a ++ b) = (String.length a + String.length b)%nat.
Proof. induction a as [|x a IH]; [reflexivity|]. cbn. rewrite IH. reflexivity. Qed.

Lemma append_cancel_l (a b b' : string) : (a ++ b = a ++ b')%string -> b = b'.
Proof.
  induction a as [|x a IH]; [intros H; exact H|].
  cbn. intros H. injection H as H. exact (IH H).
Qed.

Lemma append_cancel_r (e : string) :
  forall x y : string, (x ++ e = y ++ e)%string -> x = y.
Proof.
  induction x as [|c x IH]; intros [|d y] H.
  - reflexivity.
  - exfalso. apply (f_equal String.length) in H.
    cbn in H. rewrite append_length in H. lia.
  - exfalso. apply (f_equal String.length) in H.
    cbn in H. rewrite append_length in H. lia.
  - cbn in H. injection H as -> H. rewrite (IH y H). reflexivity.
Qed.

Lemma back_append (a b : string) :
  b <> EmptyString -> Util.back (a ++ b) = Util.back b.
Proof.
  intros Hb. induction a as [|c a IH]; [reflexivity|].
  cbn [append Util.back]. rewrite <- IH.
  destruct (a ++ b)%string eqn:E; [|reflexivity].
  destruct a; cbn in E; [contradiction|discriminate].
Qed.

Lemma back_empty (a : string) : Util.back a = None -> a = EmptyString.
Proof.
  induction a as [|c a IH]; [reflexivity|].
  cbn [Util.back]. destruct a; [discriminate|].
  intros H. specialize (IH H). discriminate.
Qed.

Lemma joinPath_some (a b : string) (x : ascii) :
  Util.back a = Some x ->
  Util.joinPath a b
  = if Ascii.eqb x "/" then (a ++ b)%string else (a ++ "/" ++ b)%string.
Proof. intros H. unfold Util.joinPath. rewrite H. reflexivity. Qed.

(** X9.  [joinPath] is associative, and the empty string is its left unit:
    joining three parts gives the same path however they are grouped. *)
Theorem joinPath_assoc (a b c : string) :
  Util.joinPath (Util.joinPath a b) c = Util.joinPath a (Util.joinPath b c) /\
  Util.joinPath "" c = c.
Proof.
  split; [|reflexivity].
  destruct (Util.back a) as [x|] eqn:Ea;
    [|apply back_empty in Ea; subst a; reflexivity].
  rewrite (joinPath_some a b x Ea), (joinPath_some a (Util.joinPath b c) x Ea).
  destruct b as [|y b].
  - change (Util.joinPath "" c) with c.
    destruct (Ascii.eqb_spec x "/") as [->|Hx].
    + rewrite append_empty_r, (joinPath_some a c "/" Ea). reflexivity.
    + rewrite (joinPath_some (a ++ "/" ++ "") c "/").
      * cbn [Ascii.eqb Bool.eqb]. rewrite append_assoc_s. reflexivity.
      * rewrite back_append by discriminate. reflexivity.
  - set (b' := String y b).
    assert (Hb : b' <> EmptyString) by discriminate.
    destruct (Util.back b') as [z|] eqn:Eb;
      [|apply back_empty in Eb; contradiction].
    rewrite (joinPath_some b' c z Eb).
    destruct (Ascii.eqb_spec x "/") as [->|Hx].
    + rewrite (joinPath_some (a ++ b') c z)
        by (rewrite back_append by exact Hb; exact Eb).
      destruct (Ascii.eqb z "/"); rewrite append_assoc_s; reflexivity.
    + rewrite (joinPath_some (a ++ "/" ++ b') c z).
      * destruct (Ascii.eqb z "/"); rewrite !append_assoc_s; reflexivity.
      * rewrite back_append by discriminate.
        rewrite (back_append "/" b' Hb). exact Eb.
Qed.

Lemma joinPath_inj (a b b' : string) :
  Util.joinPath a b = Util.joinPath a b' -> b = b'.
Proof.
  unfold Util.joinPath.
  destruct (Util.back a) as [x|]; [|intros H; exact H].
  destruct (Ascii.eqb x "/"); intros H.
  - exact (append_cancel_l a b b' H).
  - apply append_cancel_l in H. exact (append_cancel_l "/" b b' H).
Qed.

Lemma rd32_le32 (v : Z) : 0 <= v < 2 ^ 32 -> rd32 (le32 v) 0 = v.
Proof.
  intros Hv. unfold rd32, rd8, le32, to_u8.
  change (Z.to_nat 0) with 0%nat. change (Z.to_nat (0 + 1)) with 1%nat.
  change (Z.to_nat (0 + 2)) with 2%nat. change (Z.to_nat (0 + 3)) with 3%nat.
  cbn [nth].
  change (2 ^ 32) with 4294967296 in Hv.
  change (2 ^ 8) with 256. change (2 ^ 16) with 65536. change (2 ^ 24) with 16777216.
  Z.div_mod_to_equations. lia.
Qed.

Lemma char_of_byte (n : Z) :
  Z.of_nat (nat_of_ascii (Util.char_of (Z.land n 255))) = Z.land n 255.
Proof.
  assert (R : 0 <= Z.land n 255 < 256).
  { change 255 with (Z.ones 8). rewrite Z.land_ones by lia.
    apply Z.mod_pos_bound. reflexivity. }
  unfold Util.char_of, nat_of_ascii.
  rewrite N_ascii_embedding by lia. lia.
Qed.

Lemma land_shiftr_byte (f k : Z) :
  0 <= k -> Z.land (Z.shiftr f k) 255 = to_u8 (f / 2 ^ k).
Proof.
  intros Hk. change 255 with (Z.ones 8).
  rewrite Z.land_ones by lia. rewrite Z.shiftr_div_pow2 by lia. reflexivity.
Qed.

Lemma pixelFormatToString_bytes (fourcc : Z) :
  chars (Util.pixelFormatToString fourcc) = le32 fourcc.
Proof.
  unfold Util.pixelFormatToString, chars, le32.
  cbn [list_ascii_of_string map].
  change 0xFF with 255. rewrite !char_of_byte.
  rewrite !land_shiftr_byte by lia.
  replace (Z.land fourcc 255) with (to_u8 (fourcc / 2 ^ 0))
    by (rewrite <- (land_shiftr_byte fourcc 0) by lia; rewrite Z.shiftr_0_r; reflexivity).
  change (2 ^ 0) with 1. rewrite Z.div_1_r. reflexivity.
Qed.

(** X10.  [pixelFormatToString] loses nothing of a 32-bit fourcc: the string
    has four characters, its bytes are the fourcc in little-endian order, and
    reading them back as a 32-bit value gives the fourcc again. *)
Theorem pixelFormatToString_round_trip (fourcc : Z) :
  u32_range fourcc ->
  String.length (Util.pixelFormatToString fourcc) = 4%nat /\
  chars (Util.pixelFormatToString fourcc) = le32 fourcc /\
  rd32 (chars (Util.pixelFormatToString fourcc)) 0 = fourcc.
Proof.
  intros Hf. split; [reflexivity|].
  split; [apply pixelFormatToString_bytes|].
  rewrite pixelFormatToString_bytes. apply rd32_le32. exact Hf.
Qed.

Lemma X10_witness :
  u32_range 0x30314270 /\
  Util.pixelFormatToString 0x30314270 = "pB10"%string /\
  rd32 (chars "pB10") 0 = 0x30314270.
Proof.
  assert (H : u32_range 0x30314270) by (unfold u32_range; lia).
  split; [exact H|]. split; [reflexivity|].
  exact (proj2 (proj2 (pixelFormatToString_round_trip 0x30314270 H))).
Defined.

(** ** Further properties of [DngWriter::write] *)

(** X11.  [write] returns [false] exactly when the buffer length differs
    from [size_t(w) * h] or the file cannot be opened, and then the files are
    as they were. *)
Theorem write_false_iff (size_bits : Z) (fs : filesystem) (path : string)
  (meta : DngWriter.DngMeta) (pixels : list Z) (fs' : filesystem) :
  32 <= size_bits ->
  DngWriter.write size_bits fs path meta pixels = Returned (false, fs') <->
  fs' = fs /\
  (Z.of_nat (List.length pixels)
     <> DngWriter.to_size_t size_bits (DngWriter.width meta * DngWriter.height meta) \/
   openable fs path = false).
Proof.
  intros Hsz. unfold DngWriter.write. cbv zeta.
  destruct (Z.eqb_spec (Z.of_nat (List.length pixels))
              (DngWriter.to_size_t size_bits
                 (DngWriter.width meta * DngWriter.height meta))) as [Hlen|Hlen];
    cbn [negb].
  2:{ split.
      - intros H. injection H as <-. split; [reflexivity|left; exact Hlen].
      - intros (-> & _). reflexivity. }
  destruct (openable fs path) eqn:Hopen; cbn [negb].
  2:{ split.
      - intros H. injection H as <-. split; [reflexivity|right; reflexivity].
      - intros (-> & _). reflexivity. }
  split.
  - destruct (DngWriter.write_stream size_bits meta pixels _) as [[u f]|]; discriminate.
  - intros (_ & [H|H]); [contradiction|discriminate].
Qed.

Lemma X11_witness :
  32 <= 64 /\
  DngWriter.write 64 fs_readonly "frame.dng" meta_8x2 pixels_8x2
    = Returned (false, fs_readonly).
Proof.
  assert (H : 32 <= 64) by lia.
  split; [exact H|].
  apply (proj2 (write_false_iff 64 fs_readonly "frame.dng" meta_8x2 pixels_8x2
                  fs_readonly H)).
  split; [reflexivity|right; reflexivity].
Defined.

(** X12.  [write] has no defined result exactly when it gets as far as the
    CalibrationIlluminant1 entry (the length matches, the file is open) and
    the illuminant, a float, has no value as a [uint16_t]. *)
Theorem write_undefined_iff (size_bits : Z) (fs : filesystem) (path : string)
  (meta : DngWriter.DngMeta) (pixels : list Z) :
  32 <= size_bits ->
  DngWriter.write size_bits fs path meta pixels = Undefined <->
  Z.of_nat (List.length pixels)
    = DngWriter.to_size_t size_bits (DngWriter.width meta * DngWriter.height meta) /\
  openable fs path = true /\
  float_to_u16 (DngWriter.cfaIlluminant meta) = None.
Proof.
  intros Hsz. unfold DngWriter.write. cbv zeta.
  destruct (Z.eqb_spec (Z.of_nat (List.length pixels))
              (DngWriter.to_size_t size_bits
                 (DngWriter.width meta * DngWriter.height meta))) as [Hlen|Hlen];
    cbn [negb].
  2:{ split; [discriminate|]. intros (H & _). contradiction. }
  destruct (openable fs path) eqn:Hopen; cbn [negb].
  2:{ split; [discriminate|]. intros (_ & H & _). discriminate. }
  destruct (float_to_u16 (DngWriter.cfaIlluminant meta)) as [ill|] eqn:Hill.
  - rewrite (write_stream_run size_bits meta pixels ill Hsz Hill
               (strip_fits size_bits meta pixels Hlen)).
    split; [discriminate|]. intros (_ & _ & H). discriminate.
  - rewrite (write_stream_undefined size_bits meta pixels Hsz Hill).
    split; [intros _|reflexivity]. repeat split; assumption.
Qed.

Lemma X12_witness :
  32 <= 64 /\
  DngWriter.write 64 fs_empty "frame.dng" meta_8x2_negative pixels_8x2 = Undefined.
Proof.
  assert (H : 32 <= 64) by lia.
  split; [exact H|].
  apply (proj2 (write_undefined_iff 64 fs_empty "frame.dng" meta_8x2_negative
                  pixels_8x2 H)).
  repeat split; reflexivity.
Defined.

Lemma sum_le16 (v : Z) : to_u8 v + 2 ^ 8 * to_u8 (v / 2 ^ 8) = to_u16 v.
Proof.
  unfold to_u8, to_u16. change (2 ^ 8) with 256. change (2 ^ 16) with 65536.
  Z.div_mod_to_equations. lia.
Qed.

Lemma sum_le32 (v : Z) :
  to_u8 v + 2 ^ 8 * to_u8 (v / 2 ^ 8) + 2 ^ 16 * to_u8 (v / 2 ^ 16)
  + 2 ^ 24 * to_u8 (v / 2 ^ 24) = to_u32 v.
Proof.
  unfold to_u8, to_u32. change (2 ^ 8) with 256. change (2 ^ 16) with 65536.
  change (2 ^ 24) with 16777216. change (2 ^ 32) with 4294967296.
  Z.div_mod_to_equations. lia.
Qed.

Lemma to_u32_idem (v : Z) : to_u32 (to_u32 v) = to_u32 v.
Proof. unfold to_u32. apply Z.mod_mod. discriminate. Qed.

(** Everything before the strip takes 430 bytes. *)
Lemma dng_bytes_prefix (meta : DngWriter.DngMeta) (illuminant bytes : Z) :
  exists pre, List.length pre = 430%nat /\
    forall strip, dng_bytes meta illuminant bytes strip = pre ++ strip.
Proof.
  exists (DngWriter.header_bytes 0x4949 42 DngWriter.sizeof_TiffHeader
          ++ directory_table meta illuminant bytes
          ++ repeat 0 24
          ++ data_blocks meta).
  split.
  - unfold data_blocks. rewrite camera_model_chars.
    destruct meta as [w h b bps bl wl ag es il]. destruct b; reflexivity.
  - intros strip. unfold dng_bytes. rewrite <- !app_assoc. reflexivity.
Qed.

Lemma rd8_app_r (pre l : list Z) (j : Z) :
  0 <= j -> rd8 (pre ++ l) (Z.of_nat (List.length pre) + j) = rd8 l j.
Proof.
  intros Hj. unfold rd8.
  replace (Z.to_nat (Z.of_nat (List.length pre) + j))
    with (List.length pre + Z.to_nat j)%nat by lia.
  rewrite app_nth2 by lia. f_equal. lia.
Qed.

Lemma rd16_concat_le16 (pixels : list Z) :
  forall i, 0 <= i < Z.of_nat (List.length pixels) ->
    rd16 (List.concat (map le16 pixels)) (2 * i) = to_u16 (sample pixels i).
Proof.
  induction pixels as [|a ps IH]; intros i Hi; cbn [List.length] in Hi; [lia|].
  destruct (Z.eq_dec i 0) as [->|Hne].
  - cbn [map List.concat]. unfold rd16, rd8, sample, le16.
    change (Z.to_nat (2 * 0)) with 0%nat. change (Z.to_nat (2 * 0 + 1)) with 1%nat.
    change (Z.to_nat 0) with 0%nat. cbn [app nth]. apply sum_le16.
  - specialize (IH (i - 1) ltac:(lia)).
    unfold rd16, rd8, sample in *. cbn [map List.concat]. unfold le16 at 1 3.
    cbn [app].
    replace (Z.to_nat (2 * i)) with (S (S (Z.to_nat (2 * (i - 1))))) by lia.
    replace (Z.to_nat (2 * i + 1)) with (S (S (Z.to_nat (2 * (i - 1) + 1)))) by lia.
    replace (Z.to_nat i) with (S (Z.to_nat (i - 1))) by lia.
    cbn [nth]. exact IH.
Qed.

Lemma concat_le16_length (pixels : list Z) :
  List.length (List.concat (map le16 pixels)) = (2 * List.length pixels)%nat.
Proof.
  induction pixels as [|a ps IH]; [reflexivity|].
  cbn [map List.concat]. rewrite length_app, IH. cbn [le16 List.length]. lia.
Qed.

(** The file of a successful [write], when the byte count fits [size_t]. *)
Lemma written_strip_length (size_bits : Z) (fs : filesystem) (path : string)
  (meta : DngWriter.DngMeta) (pixels : list Z) (fs' : filesystem) :
  32 <= size_bits ->
  0 <= DngWriter.width meta -> 0 <= DngWriter.height meta ->
  2 * (DngWriter.width meta * DngWriter.height meta) < 2 ^ size_bits ->
  DngWriter.write size_bits fs path meta pixels = Returned (true, fs') ->
  exists ill,
    file fs' path
      = Some (dng_bytes meta ill (strip_byte_count size_bits meta)
                (strip_bytes size_bits meta pixels)) /\
    strip_byte_count size_bits meta
      = 2 * (DngWriter.width meta * DngWriter.height meta) /\
    Z.of_nat (List.length (dng_bytes meta ill (strip_byte_count size_bits meta)
                             (strip_bytes size_bits meta pixels)))
      = 430 + 2 * (DngWriter.width meta * DngWriter.height meta).
Proof.
  intros Hsz Hw Hh Hfit Hwr.
  destruct (write_inv size_bits fs path meta pixels fs' Hsz Hwr)
    as (ill & _ & Hlen & _ & Hfile).
  assert (Hwh : 0 <= DngWriter.width meta * DngWriter.height meta) by nia.
  unfold DngWriter.to_size_t in Hlen. rewrite Z.mod_small in Hlen by lia.
  assert (Hc : strip_byte_count size_bits meta
               = 2 * (DngWriter.width meta * DngWriter.height meta)).
  { unfold strip_byte_count, DngWriter.to_size_t.
    rewrite (Z.mod_small (DngWriter.width meta * DngWriter.height meta)) by lia.
    rewrite Z.mod_small by lia. lia. }
  exists ill. split; [exact Hfile|]. split; [exact Hc|].
  destruct (dng_bytes_prefix meta ill (strip_byte_count size_bits meta))
    as (pre & Hpre & Hsplit).
  rewrite Hsplit, length_app, Hpre.
  unfold strip_bytes. rewrite firstn_all2 by (rewrite concat_le16_length; lia).
  rewrite concat_le16_length. lia.
Qed.

(** A written file is 430 bytes followed by the samples, two bytes each. *)
Lemma written_file (size_bits : Z) (fs : filesystem) (path : string)
  (meta : DngWriter.DngMeta) (pixels : list Z) (fs' : filesystem) :
  32 <= size_bits ->
  0 <= DngWriter.width meta -> 0 <= DngWriter.height meta ->
  2 * (DngWriter.width meta * DngWriter.height meta) < 2 ^ size_bits ->
  DngWriter.write size_bits fs path meta pixels = Returned (true, fs') ->
  exists pre,
    List.length pre = 430%nat /\
    file fs' path = Some (pre ++ List.concat (map le16 pixels)) /\
    Z.of_nat (List.length pixels) = DngWriter.width meta * DngWriter.height meta.
Proof.
  intros Hsz Hw Hh Hfit Hwr.
  destruct (write_inv size_bits fs path meta pixels fs' Hsz Hwr)
    as (ill & _ & Hlen & _ & Hfile).
  assert (Hwh : 0 <= DngWriter.width meta * DngWriter.height meta) by nia.
  unfold DngWriter.to_size_t in Hlen. rewrite Z.mod_small in Hlen by lia.
  assert (Hstrip : strip_bytes size_bits meta pixels = List.concat (map le16 pixels)).
  { unfold strip_bytes, strip_byte_count, DngWriter.to_size_t.
    rewrite (Z.mod_small (DngWriter.width meta * DngWriter.height meta)) by lia.
    rewrite Z.mod_small by lia.
    apply firstn_all2. rewrite concat_le16_length. lia. }
  rewrite Hstrip in Hfile.
  destruct (dng_bytes_prefix meta ill (strip_byte_count size_bits meta))
    as (pre & Hpre & Hsplit).
  rewrite Hsplit in Hfile.
  exists pre. repeat split; assumption.
Qed.

Lemma rd16_strip (pre pixels : list Z) (i : Z) :
  List.length pre = 430%nat ->
  0 <= i < Z.of_nat (List.length pixels) ->
  rd16 (pre ++ List.concat (map le16 pixels)) (430 + 2 * i) = to_u16 (sample pixels i).
Proof.
  intros Hpre Hi. unfold rd16.
  change 430 with (Z.of_nat 430). rewrite <- Hpre.
  rewrite <- Z.add_assoc.
  rewrite !rd8_app_r by lia.
  apply (rd16_concat_le16 pixels i). lia.
Qed.

(** X14.  The pixel strip of a written file reads back as the buffer: the
    file is 430 bytes followed by two bytes per sample, and the 16-bit
    little-endian value at offset [430 + 2 * i] is sample [i]. *)
Theorem written_strip_reads_back (size_bits : Z) (fs : filesystem) (path : string)
  (meta : DngWriter.DngMeta) (pixels : list Z) (fs' : filesystem) :
  32 <= size_bits ->
  0 <= DngWriter.width meta -> 0 <= DngWriter.height meta ->
  2 * (DngWriter.width meta * DngWriter.height meta) < 2 ^ size_bits ->
  DngWriter.write size_bits fs path meta pixels = Returned (true, fs') ->
  exists f,
    file fs' path = Some f /\
    Z.of_nat (List.length f) = 430 + 2 * (DngWriter.width meta * DngWriter.height meta) /\
    forall i, 0 <= i < DngWriter.width meta * DngWriter.height meta ->
      rd16 f (430 + 2 * i) = to_u16 (sample pixels i).
Proof.
  intros Hsz Hw Hh Hfit Hwr.
  destruct (written_file size_bits fs path meta pixels fs' Hsz Hw Hh Hfit Hwr)
    as (pre & Hpre & Hfile & Hlen).
  exists (pre ++ List.concat (map le16 pixels)).
  split; [exact Hfile|]. split.
  - rewrite length_app, concat_le16_length, Hpre. lia.
  - intros i Hi. apply rd16_strip; [exact Hpre|lia].
Qed.

Lemma X14_witness :
  32 <= 64 /\
  DngWriter.write 64 fs_empty "frame.dng" meta_8x2 pixels_8x2 = Returned (true, fs_8x2) /\
  exists f,
    file fs_8x2 "frame.dng" = Some f /\
    Z.of_nat (List.length f) = 462 /\
    rd16 f (430 + 2 * 15) = 512.
Proof.
  assert (H : 32 <= 64) by lia.
  split; [exact H|]. split; [exact write_8x2|].
  destruct (written_strip_reads_back 64 fs_empty "frame.dng" meta_8x2 pixels_8x2
              fs_8x2 H ltac:(cbn; lia) ltac:(cbn; lia) ltac:(cbn; lia) write_8x2)
    as (f & Hf & Hlen & Hrd).
  exists f. split; [exact Hf|]. split; [exact Hlen|].
  exact (Hrd 15 ltac:(cbn; lia)).
Defined.

Ltac positions :=
  repeat match goal with
         | |- context [Z.to_nat ?e] =>
             let n := eval vm_compute in (Z.to_nat e) in
             change (Z.to_nat e) with n
         end.

(** The value field of entry [k], read from the flattened file. *)
Ltac long_value Hifd :=
  unfold entry_at; cbv zeta; cbn [DngWriter.value];
  rewrite Hifd; unfold rd32, rd8; positions; slices;
  rewrite sum_le32.

Lemma dng_long_values (w h : Z) (b : DngWriter.BayerPattern) (bps bl wl : Z)
  (ag es il : float) (illuminant bytes : Z) (strip : list Z) :
  let f := dng_bytes (DngWriter.Build_DngMeta w h b bps bl wl ag es il)
             illuminant bytes strip in
  DngWriter.value (entry_at f 0) = to_u32 w /\
  DngWriter.value (entry_at f 1) = to_u32 h /\
  DngWriter.value (entry_at f 7) = to_u32 h /\
  DngWriter.value (entry_at f 9) = to_u32 bytes /\
  DngWriter.value (entry_at f 18) = to_u32 illuminant.
Proof.
  intros f.
  assert (Hifd : ifd_offset f = 8) by (subst f; destruct b; crunch).
  subst f.
  split; [long_value Hifd; apply to_u32_idem|].
  split; [long_value Hifd; apply to_u32_idem|].
  split; [long_value Hifd; apply to_u32_idem|].
  split; [long_value Hifd; rewrite !to_u32_idem; reflexivity|].
  long_value Hifd; apply to_u32_idem.
Qed.

Lemma entry_eq (e : DngWriter.IfdEntry) (tg ty cnt v : Z) :
  DngWriter.tag e = tg -> DngWriter.type e = ty ->
  DngWriter.count e = cnt -> DngWriter.value e = v ->
  e = {| DngWriter.tag := tg; DngWriter.type := ty;
         DngWriter.count := cnt; DngWriter.value := v |}.
Proof. destruct e. cbn. intros -> -> -> ->. reflexivity. Qed.

Lemma dng_closed_fields (meta : DngWriter.DngMeta) (illuminant bytes : Z)
  (strip : list Z) (k : nat) :
  In k [0; 1; 7; 9; 18]%nat ->
  let f := dng_bytes meta illuminant bytes strip in
  DngWriter.tag (entry_at f k)
    = nth k [DngWriter.TAG_ImageWidth; DngWriter.TAG_ImageLength; 0; 0; 0; 0; 0;
             DngWriter.TAG_RowsPerStrip; 0; DngWriter.TAG_StripByteCounts;
             0; 0; 0; 0; 0; 0; 0; 0; DngWriter.TAG_CalibrationIlluminant1] 0 /\
  DngWriter.type (entry_at f k)
    = (if Nat.eqb k 18 then DngWriter.TYPE_SHORT else DngWriter.TYPE_LONG) /\
  DngWriter.count (entry_at f k) = 1.
Proof.
  intros Hk f. subst f. destruct meta as [w h b bps bl wl ag es il].
  cbn [In] in Hk.
  destruct Hk as [<-|[<-|[<-|[<-|[<-|[]]]]]]; destruct b; repeat split; crunch.
Qed.

Lemma dng_fixed_entries (meta : DngWriter.DngMeta) (illuminant bytes : Z)
  (strip : list Z) :
  let f := dng_bytes meta illuminant bytes strip in
  map (fun k => DngWriter.tag (entry_at f k)) (seq 0 20)
    = [256; 257; 258; 259; 262; 277; 284; 278; 273; 279;
       33421; 33422; 50710; 50706; 50708; 50714; 50717; 50733; 50778; 50721] /\
  entry_at f 3 = DngWriter.push DngWriter.TAG_Compression DngWriter.TYPE_SHORT 1 1 /\
  entry_at f 4 = DngWriter.push DngWriter.TAG_Photometric DngWriter.TYPE_SHORT 1 32803 /\
  entry_at f 5 = DngWriter.push DngWriter.TAG_SamplesPerPixel DngWriter.TYPE_SHORT 1 1 /\
  entry_at f 6 = DngWriter.push DngWriter.TAG_PlanarConfig DngWriter.TYPE_SHORT 1 1 /\
  entry_at f 8 = DngWriter.push DngWriter.TAG_StripOffsets DngWriter.TYPE_LONG 1 430.
Proof.
  intros f. subst f. destruct meta as [w h b bps bl wl ag es il].
  destruct b; repeat split; crunch.
Qed.

Lemma float_to_u16_range (bits : float) (v : Z) :
  float_to_u16 bits = Some v -> 0 <= v < 2 ^ 16.
Proof.
  unfold float_to_u16. cbv zeta.
  destruct (_ =? 255); [discriminate|].
  set (m := if _ =? 0 then 0 else _).
  assert (Hm : 0 <= m).
  { subst m. destruct (_ =? 0); [lia|].
    assert (0 <= 2 ^ 23 + Z.land bits (2 ^ 23 - 1)).
    { assert (0 <= Z.land bits (2 ^ 23 - 1))
        by (apply Z.land_nonneg; right; vm_compute; discriminate).
      lia. }
    destruct (_ <? 150); [apply Z.shiftr_nonneg|apply Z.shiftl_nonneg]; assumption. }
  clearbody m.
  destruct (m =? 0); [intros E; injection E as <-; lia|].
  destruct (Z.testbit bits 31); [discriminate|].
  destruct (Z.leb_spec m 65535) as [Hle|Hgt]; [|discriminate].
  intros E; injection E as <-. change (2 ^ 16) with 65536. lia.
Qed.

(** X15.  The geometry of a written file reads back from its directory:
    ImageWidth and ImageLength hold the width and the height, RowsPerStrip
    the height (one strip), StripByteCounts two bytes per sample, and the
    strip that starts at StripOffsets ends where the file ends. *)
Theorem written_geometry (size_bits : Z) (fs : filesystem) (path : string)
  (meta : DngWriter.DngMeta) (pixels : list Z) (fs' : filesystem) :
  32 <= size_bits ->
  0 <= DngWriter.width meta -> 0 <= DngWriter.height meta ->
  DngWriter.width meta < 2 ^ 32 -> DngWriter.height meta < 2 ^ 32 ->
  2 * (DngWriter.width meta * DngWriter.height meta) < 2 ^ 32 ->
  DngWriter.write size_bits fs path meta pixels = Returned (true, fs') ->
  exists f,
    file fs' path = Some f /\
    entry_at f 0 = {| DngWriter.tag := DngWriter.TAG_ImageWidth;
                      DngWriter.type := DngWriter.TYPE_LONG;
                      DngWriter.count := 1;
                      DngWriter.value := DngWriter.width meta |} /\
    entry_at f 1 = {| DngWriter.tag := DngWriter.TAG_ImageLength;
                      DngWriter.type := DngWriter.TYPE_LONG;
                      DngWriter.count := 1;
                      DngWriter.value := DngWriter.height meta |} /\
    entry_at f 7 = {| DngWriter.tag := DngWriter.TAG_RowsPerStrip;
                      DngWriter.type := DngWriter.TYPE_LONG;
                      DngWriter.count := 1;
                      DngWriter.value := DngWriter.height meta |} /\
    entry_at f 9 = {| DngWriter.tag := DngWriter.TAG_StripByteCounts;
                      DngWriter.type := DngWriter.TYPE_LONG;
                      DngWriter.count := 1;
                      DngWriter.value :=
                        2 * (DngWriter.width meta * DngWriter.height meta) |} /\
    DngWriter.value (entry_at f 8) + DngWriter.value (entry_at f 9)
      = Z.of_nat (List.length f).
Proof.
  intros Hsz Hw Hh Hw32 Hh32 Hfit Hwr.
  assert (Hpow : 2 ^ 32 <= 2 ^ size_bits) by (apply Z.pow_le_mono_r; lia).
  destruct (written_strip_length size_bits fs path meta pixels fs' Hsz Hw Hh
              ltac:(lia) Hwr) as (ill & Hfile & Hcount & Hlen).
  eexists. split; [exact Hfile|].
  set (f := dng_bytes _ _ _ _) in *.
  assert (Hv : DngWriter.value (entry_at f 0) = to_u32 (DngWriter.width meta) /\
               DngWriter.value (entry_at f 1) = to_u32 (DngWriter.height meta) /\
               DngWriter.value (entry_at f 7) = to_u32 (DngWriter.height meta) /\
               DngWriter.value (entry_at f 9)
                 = to_u32 (strip_byte_count size_bits meta) /\
               DngWriter.value (entry_at f 18) = to_u32 ill).
  { subst f. destruct meta as [w h b bps bl wl ag es il]. apply dng_long_values. }
  destruct Hv as (V0 & V1 & V7 & V9 & _).
  unfold to_u32 in V0, V1, V7, V9.
  rewrite Z.mod_small in V0, V1, V7 by lia.
  rewrite Hcount, Z.mod_small in V9 by nia.
  pose proof (fun k Hk => dng_closed_fields meta ill (strip_byte_count size_bits meta)
                (strip_bytes size_bits meta pixels) k Hk) as Hc.
  cbv zeta in Hc. fold f in Hc.
  split; [apply entry_eq; try exact V0; apply (Hc 0%nat); cbn; tauto|].
  split; [apply entry_eq; try exact V1; apply (Hc 1%nat); cbn; tauto|].
  split; [apply entry_eq; try exact V7; apply (Hc 7%nat); cbn; tauto|].
  split; [apply entry_eq; try exact V9; apply (Hc 9%nat); cbn; tauto|].
  rewrite V9, Hlen.
  destruct (dng_fixed_entries meta ill (strip_byte_count size_bits meta)
              (strip_bytes size_bits meta pixels)) as (_ & _ & _ & _ & _ & E8).
  fold f in E8. rewrite E8. reflexivity.
Qed.

Lemma X15_witness :
  32 <= 64 /\
  DngWriter.write 64 fs_empty "frame.dng" meta_8x2 pixels_8x2 = Returned (true, fs_8x2) /\
  exists f,
    file fs_8x2 "frame.dng" = Some f /\
    DngWriter.value (entry_at f 0) = 8 /\
    DngWriter.value (entry_at f 1) = 2 /\
    DngWriter.value (entry_at f 9) = 32 /\
    DngWriter.value (entry_at f 8) + 32 = Z.of_nat (List.length f).
Proof.
  assert (H : 32 <= 64) by lia.
  split; [exact H|]. split; [exact write_8x2|].
  destruct (written_geometry 64 fs_empty "frame.dng" meta_8x2 pixels_8x2 fs_8x2 H
              ltac:(cbn; lia) ltac:(cbn; lia) ltac:(cbn; lia) ltac:(cbn; lia)
              ltac:(cbn; lia) write_8x2)
    as (f & Hf & E0 & E1 & _ & E9 & Hend).
  exists f. split; [exact Hf|].
  rewrite E9 in Hend. rewrite E0, E1, E9.
  split; [reflexivity|]. split; [reflexivity|]. split; [reflexivity|].
  exact Hend.
Defined.

(** X16.  The directory of every written file lists the same twenty tags in
    the same order, the order of the [push] calls; Compression (1),
    PhotometricInterpretation (32803, colour filter array), SamplesPerPixel
    (1) and PlanarConfiguration (1) are inline SHORT values, and
    CalibrationIlluminant1 holds the illuminant converted to [uint16_t]. *)
Theorem directory_fixed_entries (size_bits : Z) (fs : filesystem) (path : string)
  (meta : DngWriter.DngMeta) (pixels : list Z) (fs' : filesystem) :
  32 <= size_bits ->
  DngWriter.write size_bits fs path meta pixels = Returned (true, fs') ->
  exists f illuminant,
    file fs' path = Some f /\
    float_to_u16 (DngWriter.cfaIlluminant meta) = Some illuminant /\
    map (fun k => DngWriter.tag (entry_at f k)) (seq 0 20)
      = [DngWriter.TAG_ImageWidth; DngWriter.TAG_ImageLength;
         DngWriter.TAG_BitsPerSample; DngWriter.TAG_Compression;
         DngWriter.TAG_Photometric; DngWriter.TAG_SamplesPerPixel;
         DngWriter.TAG_PlanarConfig; DngWriter.TAG_RowsPerStrip;
         DngWriter.TAG_StripOffsets; DngWriter.TAG_StripByteCounts;
         DngWriter.TAG_CFARepeatPattern; DngWriter.TAG_CFAPattern;
         DngWriter.TAG_CFAPlaneColor; DngWriter.TAG_DNGVersion;
         DngWriter.TAG_UniqueCameraModel; DngWriter.TAG_BlackLevel;
         DngWriter.TAG_WhiteLevel; DngWriter.TAG_DefaultScale;
         DngWriter.TAG_CalibrationIlluminant1; DngWriter.TAG_ColorMatrix1] /\
    entry_at f 3 = {| DngWriter.tag := DngWriter.TAG_Compression;
                      DngWriter.type := DngWriter.TYPE_SHORT;
                      DngWriter.count := 1; DngWriter.value := 1 |} /\
    entry_at f 4 = {| DngWriter.tag := DngWriter.TAG_Photometric;
                      DngWriter.type := DngWriter.TYPE_SHORT;
                      DngWriter.count := 1; DngWriter.value := 32803 |} /\
    entry_at f 5 = {| DngWriter.tag := DngWriter.TAG_SamplesPerPixel;
                      DngWriter.type := DngWriter.TYPE_SHORT;
                      DngWriter.count := 1; DngWriter.value := 1 |} /\
    entry_at f 6 = {| DngWriter.tag := DngWriter.TAG_PlanarConfig;
                      DngWriter.type := DngWriter.TYPE_SHORT;
                      DngWriter.count := 1; DngWriter.value := 1 |} /\
    entry_at f 18 = {| DngWriter.tag := DngWriter.TAG_CalibrationIlluminant1;
                       DngWriter.type := DngWriter.TYPE_SHORT;
                       DngWriter.count := 1; DngWriter.value := illuminant |}.
Proof.
  intros Hsz Hwr.
  destruct (write_inv size_bits fs path meta pixels fs' Hsz Hwr)
    as (ill & Hill & _ & _ & Hfile).
  eexists. exists ill. split; [exact Hfile|]. split; [exact Hill|].
  set (f := dng_bytes _ _ _ _) in *.
  destruct (dng_fixed_entries meta ill (strip_byte_count size_bits meta)
              (strip_bytes size_bits meta pixels)) as (T & E3 & E4 & E5 & E6 & _).
  fold f in T, E3, E4, E5, E6.
  split; [exact T|]. split; [exact E3|]. split; [exact E4|].
  split; [exact E5|]. split; [exact E6|].
  apply entry_eq;
    try apply (dng_closed_fields meta ill (strip_byte_count size_bits meta)
                 (strip_bytes size_bits meta pixels) 18%nat ltac:(cbn; tauto)).
  assert (Hv : DngWriter.value (entry_at f 18) = to_u32 ill).
  { subst f. destruct meta as [w h b bps bl wl ag es il]. apply dng_long_values. }
  rewrite Hv. pose proof (float_to_u16_range _ _ Hill) as R.
  unfold to_u32. apply Z.mod_small.
  change (2 ^ 16) with 65536 in R. change (2 ^ 32) with 4294967296. lia.
Qed.

Lemma X16_witness :
  32 <= 64 /\
  DngWriter.write 64 fs_empty "frame.dng" meta_8x2 pixels_8x2 = Returned (true, fs_8x2) /\
  exists f,
    file fs_8x2 "frame.dng" = Some f /\
    DngWriter.value (entry_at f 18) = 21.
Proof.
  assert (H : 32 <= 64) by lia.
  split; [exact H|]. split; [exact write_8x2|].
  destruct (directory_fixed_entries 64 fs_empty "frame.dng" meta_8x2 pixels_8x2
              fs_8x2 H write_8x2)
    as (f & ill & Hf & Hill & _ & _ & _ & _ & _ & E18).
  exists f. split; [exact Hf|].
  rewrite E18. cbn [DngWriter.value].
  assert (E : float_to_u16 (DngWriter.cfaIlluminant meta_8x2) = Some 21) by reflexivity.
  rewrite E in Hill. injection Hill as <-. reflexivity.
Defined.

(** ** The frame callback *)

Lemma fill_length (k : nat) (c : ascii) (s : string) :
  String.length (Main.fill k c s) = (k + String.length s)%nat.
Proof. induction k as [|k IH]; [reflexivity|]. cbn. rewrite IH. reflexivity. Qed.

Lemma fill_zeros_parse (k : nat) (d : Decimal.uint) :
  NilEmpty.uint_of_string (Main.fill k "0" (NilEmpty.string_of_uint d))
  = Some (Nat.iter k Decimal.D0 d).
Proof.
  induction k as [|k IH]; [apply NilEmpty.usu|].
  cbn [Main.fill NilEmpty.uint_of_string]. rewrite IH. reflexivity.
Qed.

Lemma of_uint_zeros (k : nat) (d : Decimal.uint) :
  N.of_uint (Nat.iter k Decimal.D0 d) = N.of_uint d.
Proof.
  rewrite <- (Unsigned.of_uint_norm (Nat.iter k Decimal.D0 d)),
    <- (Unsigned.of_uint_norm d).
  unfold Decimal.unorm. rewrite DecimalFacts.nzhead_iter_D0. reflexivity.
Qed.

Lemma frameName_inj (s1 s2 : Z) :
  0 <= s1 -> 0 <= s2 -> Main.frameName s1 = Main.frameName s2 -> s1 = s2.
Proof.
  intros H1 H2 E. unfold Main.frameName in E.
  apply append_cancel_l in E. unfold Main.setw_setfill, Main.decimal in E.
  apply (f_equal NilEmpty.uint_of_string) in E.
  rewrite !fill_zeros_parse in E. injection E as E.
  apply (f_equal N.of_uint) in E.
  rewrite !of_uint_zeros, !Unsigned.of_to in E. lia.
Qed.

(** X17.  Frames with different counters go to different files: the name of
    a frame has at least thirteen characters, and for a directory and an
    extension the paths built for two counters are equal only if the
    counters are. *)
Theorem frame_paths_distinct (outDir ext : string) (s1 s2 : Z) :
  0 <= s1 -> 0 <= s2 -> s1 <> s2 ->
  (13 <= String.length (Main.frameName s1))%nat /\
  (Util.joinPath outDir (Main.frameName s1) ++ ext)%string
    <> (Util.joinPath outDir (Main.frameName s2) ++ ext)%string.
Proof.
  intros H1 H2 Hne. split.
  - unfold Main.frameName, Main.setw_setfill.
    rewrite append_length, fill_length. cbn [String.length]. lia.
  - intros E. apply append_cancel_r, joinPath_inj, frameName_inj in E; auto.
Qed.

Lemma X17_witness :
  (Util.joinPath "out" (Main.frameName 999999) ++ ".dng")%string
    <> (Util.joinPath "out" (Main.frameName 1000000) ++ ".dng")%string.
Proof.
  exact (proj2 (frame_paths_distinct "out" ".dng" 999999 1000000
                  ltac:(lia) ltac:(lia) ltac:(lia))).
Defined.

Lemma put_fresh (bs : list Z) :
  exists f, put bs {| data := []; pos := 0 |} = Some (tt, f) /\ data f = bs.
Proof.
  destruct bs as [|b bs]; eexists; (split; [reflexivity|]); reflexivity.
Qed.

(** The unpacker on the buffer the callback allocates. *)
Lemma callback_unpack (size_bits : Z) (fb : Util.FrameBuffer) (p : Util.Plane)
  (mem : list byte) (outW outH : Z) :
  accepted size_bits fb p mem outW outH (repeat 0 (Z.to_nat (outW * outH))) ->
  groups_mapped (Z.of_nat (List.length mem)) (Util.plane_offset p) outW outH ->
  outW * outH < 2 ^ size_bits ->
  exists out,
    Util.unpackRaw10To16 size_bits (Some fb) outW outH
      (repeat 0 (Z.to_nat (DngWriter.to_size_t size_bits (outW * outH))))
      = Returned (true, out) /\
    Z.of_nat (List.length out) = outW * outH /\
    forall i, 0 <= i < outW * outH ->
      sample out i = unpacked (skipn (Z.to_nat (Util.plane_offset p)) mem) outW i /\
      ten_bit (sample out i).
Proof.
  intros Ha Hm Hfit.
  destruct (unpack_accepted size_bits fb p mem outW outH _ Ha Hm)
    as (out & E & Hl & Hv & _).
  destruct Ha as (_ & _ & _ & _ & _ & Hw0 & _ & Hh & Hd & _).
  assert (Hwh : 0 <= outW * outH) by nia.
  unfold DngWriter.to_size_t. rewrite Z.mod_small by lia.
  exists out. split; [exact E|]. split; [lia|].
  intros i Hi. split; [apply Hv; exact Hi|].
  rewrite (Hv i Hi). unfold unpacked, ten_bit. apply pixel_at_range.
  apply Z.mod_pos_bound.
  destruct (Z.eq_dec outW 0) as [->|]; lia.
Qed.

(** X18.  The callback in DNG mode, on a frame the unpacker accepts and a
    path that can be opened: the frame is saved at
    [outDir/imx296_NNNNNN.dng]; the writer's size check passes on the buffer
    the callback allocated; the strip of the file holds, sample by sample,
    the pixels decoded from the frame buffer, each of them a ten-bit value. *)
Theorem saveFrame_dng (size_bits : Z) (fs : filesystem) (fb : Util.FrameBuffer)
  (p : Util.Plane) (mem : list byte) (outW outH : Z) (bayer outDir : string)
  (saved : Z) (analogueGain exposureSeconds : float) :
  accepted size_bits fb p mem outW outH (repeat 0 (Z.to_nat (outW * outH))) ->
  groups_mapped (Z.of_nat (List.length mem)) (Util.plane_offset p) outW outH ->
  2 * (outW * outH) < 2 ^ size_bits ->
  openable fs (Util.joinPath outDir (Main.frameName saved) ++ ".dng") = true ->
  exists fs' f,
    Main.saveFrame size_bits fs fb outW outH bayer outDir saved true
      analogueGain exposureSeconds = Returned fs' /\
    file fs' (Util.joinPath outDir (Main.frameName saved) ++ ".dng") = Some f /\
    Z.of_nat (List.length f) = 430 + 2 * (outW * outH) /\
    forall i, 0 <= i < outW * outH ->
      rd16 f (430 + 2 * i)
        = unpacked (skipn (Z.to_nat (Util.plane_offset p)) mem) outW i /\
      ten_bit (rd16 f (430 + 2 * i)).
Proof.
  intros Ha Hm Hfit Hopen.
  pose proof Ha as (Hsz & _ & _ & _ & _ & Hw0 & _ & Hh & _ & _).
  assert (Hwh : 0 <= outW * outH) by nia.
  destruct (callback_unpack size_bits fb p mem outW outH Ha Hm ltac:(lia))
    as (out & E & Hl & Hv).
  unfold Main.saveFrame. cbv zeta. rewrite E.
  set (meta := DngWriter.Build_DngMeta _ _ _ _ _ _ _ _ _).
  set (path := (Util.joinPath outDir (Main.frameName saved) ++ ".dng")%string) in *.
  assert (Hlen : Z.of_nat (List.length out)
                 = DngWriter.to_size_t size_bits
                     (DngWriter.width meta * DngWriter.height meta)).
  { cbn [meta DngWriter.width DngWriter.height].
    unfold DngWriter.to_size_t. rewrite Z.mod_small by lia. exact Hl. }
  destruct (write_ok size_bits fs path meta out 21 Hsz Hlen Hopen eq_refl)
    as (fs' & Hwr).
  rewrite Hwr.
  destruct (written_file size_bits fs path meta out fs' Hsz Hw0 (proj1 Hh) Hfit Hwr)
    as (pre & Hpre & Hfile & _).
  exists fs', (pre ++ List.concat (map le16 out)).
  split; [reflexivity|]. split; [exact Hfile|]. split.
  - rewrite length_app, concat_le16_length, Hpre. lia.
  - intros i Hi. destruct (Hv i Hi) as (Hs & Ht).
    rewrite rd16_strip by (try exact Hpre; lia).
    unfold to_u16. unfold ten_bit in Ht. rewrite Z.mod_small by lia.
    split; [exact Hs|exact Ht].
Qed.

Lemma X18_witness :
  exists fs' f,
    Main.saveFrame 64 fs_empty fb_4x2 4 2 "RGGB" "out" 0 true 0x3F800000 0x3C03126F
      = Returned fs' /\
    file fs' "out/imx296_000000.dng" = Some f /\
    Z.of_nat (List.length f) = 446 /\
    rd16 f (430 + 2 * 3) = 772.
Proof.
  destruct (saveFrame_dng 64 fs_empty fb_4x2
              {| Util.plane_offset := 0; Util.plane_length := 10 |} mem_4x2 4 2
              "RGGB" "out" 0 0x3F800000 0x3C03126F)
    as (fs' & f & Hs & Hf & Hlen & Hrd).
  - unfold accepted, u32_range; cbn; repeat split; try reflexivity; lia.
  - right; right. vm_compute. discriminate.
  - lia.
  - reflexivity.
  - exists fs', f. split; [exact Hs|]. split; [exact Hf|]. split; [exact Hlen|].
    exact (proj1 (Hrd 3 ltac:(lia))).
Defined.

(** X19.  The callback in RAW mode, on a frame the unpacker accepts: when
    the path can be opened, [outDir/imx296_NNNNNN.raw] holds the decoded
    pixels and nothing else, two little-endian bytes per sample; when it
    cannot, the frame is dropped and the files are as they were. *)
Theorem saveFrame_raw (size_bits : Z) (fs : filesystem) (fb : Util.FrameBuffer)
  (p : Util.Plane) (mem : list byte) (outW outH : Z) (bayer outDir : string)
  (saved : Z) (analogueGain exposureSeconds : float) :
  accepted size_bits fb p mem outW outH (repeat 0 (Z.to_nat (outW * outH))) ->
  groups_mapped (Z.of_nat (List.length mem)) (Util.plane_offset p) outW outH ->
  2 * (outW * outH) < 2 ^ size_bits ->
  exists fs',
    Main.saveFrame size_bits fs fb outW outH bayer outDir saved false
      analogueGain exposureSeconds = Returned fs' /\
    (openable fs (Util.joinPath outDir (Main.frameName saved) ++ ".raw") = false ->
     fs' = fs) /\
    (openable fs (Util.joinPath outDir (Main.frameName saved) ++ ".raw") = true ->
     exists raw,
       file fs' (Util.joinPath outDir (Main.frameName saved) ++ ".raw") = Some raw /\
       Z.of_nat (List.length raw) = 2 * (outW * outH) /\
       forall i, 0 <= i < outW * outH ->
         rd16 raw (2 * i)
           = unpacked (skipn (Z.to_nat (Util.plane_offset p)) mem) outW i).
Proof.
  intros Ha Hm Hfit.
  pose proof Ha as (Hsz & _ & _ & _ & _ & Hw0 & _ & Hh & _ & _).
  assert (Hwh : 0 <= outW * outH) by nia.
  destruct (callback_unpack size_bits fb p mem outW outH Ha Hm ltac:(lia))
    as (out & E & Hl & Hv).
  unfold Main.saveFrame. cbv zeta. rewrite E.
  set (path := (Util.joinPath outDir (Main.frameName saved) ++ ".raw")%string).
  eexists. split; [reflexivity|].
  unfold Main.writeRaw. cbv zeta.
  destruct (openable fs path); (split; [intros H|intros H]);
    try discriminate; try reflexivity.
  unfold DngWriter.to_size_t. rewrite Z.mod_small by lia.
  rewrite firstn_all2 by (rewrite concat_le16_length; lia).
  destruct (put_fresh (List.concat (map le16 out))) as (f & Hput & Hdata).
  rewrite Hput. cbn [close file]. rewrite String.eqb_refl, Hdata.
  eexists. split; [reflexivity|]. split.
  - rewrite concat_le16_length. lia.
  - intros i Hi. destruct (Hv i Hi) as (Hs & Ht).
    rewrite rd16_concat_le16 by lia.
    unfold to_u16. unfold ten_bit in Ht. rewrite Z.mod_small by lia. exact Hs.
Qed.

Lemma X19_witness :
  exists fs' raw,
    Main.saveFrame 64 fs_empty fb_4x2 4 2 "RGGB" "out/" 12 false 0x3F800000 0x3C03126F
      = Returned fs' /\
    file fs' "out/imx296_000012.raw" = Some raw /\
    Z.of_nat (List.length raw) = 16 /\
    rd16 raw (2 * 1) = 258.
Proof.
  destruct (saveFrame_raw 64 fs_empty fb_4x2
              {| Util.plane_offset := 0; Util.plane_length := 10 |} mem_4x2 4 2
              "RGGB" "out/" 12 0x3F800000 0x3C03126F)
    as (fs' & Hs & _ & Hopen).
  - unfold accepted, u32_range; cbn; repeat split; try reflexivity; lia.
  - right; right. vm_compute. discriminate.
  - lia.
  - destruct (Hopen eq_refl) as (raw & Hf & Hlen & Hrd).
    exists fs', raw. split; [exact Hs|]. split; [exact Hf|]. split; [exact Hlen|].
    exact (Hrd 1 ltac:(lia)).
Defined.

Lemma unpack_unusable (size_bits : Z) (fb : Util.FrameBuffer)
  (width height : Z) (dst : list Z) :
  0 <= width -> width * 10 + 7 < 2 ^ 32 ->
  0 <= height -> stride width * height < 2 ^ size_bits ->
  unusable fb width height ->
  Util.unpackRaw10To16 size_bits (Some fb) width height dst = Returned (false, dst).
Proof.
  intros Hw0 Hw Hh Hsize Hu.
  pose proof (stride_ge width Hw0) as Hs.
  unfold Util.unpackRaw10To16.
  destruct (negb _); [reflexivity|].
  destruct (Util.planes fb) as [|p [|q r]] eqn:Ep; try reflexivity.
  destruct (Util.cookie fb) as [mem|] eqn:Ec; [|reflexivity].
  cbv zeta. unfold to_u32. rewrite (Z.mod_small (width * 10 + 7)) by lia.
  change ((width * 10 + 7) / 8) with (stride width).
  unfold Util.to_size_t. rewrite Z.mod_small by nia.
  destruct Hu as [H|[H|(p' & H & Hlt)]].
  - rewrite Ep in H. cbn in H. contradiction.
  - rewrite Ec in H. discriminate.
  - rewrite Ep in H. injection H as <-.
    destruct (Z.ltb_spec (Util.plane_length p) (stride width * height)); [reflexivity|lia].
Qed.

(** X20.  A frame the unpacker cannot use (not exactly one plane, no mapping
    in the cookie, or a plane shorter than [stride * height]) is dropped by
    the callback in either mode: no file is created or changed. *)
Theorem saveFrame_drops_unusable_frame (size_bits : Z) (fs : filesystem)
  (fb : Util.FrameBuffer) (outW outH : Z) (bayer outDir : string) (saved : Z)
  (writeDng : bool) (analogueGain exposureSeconds : float) :
  0 <= outW -> outW * 10 + 7 < 2 ^ 32 ->
  0 <= outH -> stride outW * outH < 2 ^ size_bits ->
  unusable fb outW outH ->
  Main.saveFrame size_bits fs fb outW outH bayer outDir saved writeDng
    analogueGain exposureSeconds = Returned fs.
Proof.
  intros Hw0 Hw Hh Hsize Hu. unfold Main.saveFrame. cbv zeta.
  rewrite (unpack_unusable size_bits fb outW outH _ Hw0 Hw Hh Hsize Hu).
  reflexivity.
Qed.

Lemma X20_witness :
  unusable fb_unmapped 4 1 /\
  Main.saveFrame 64 fs_empty fb_unmapped 4 1 "RGGB" "out" 0 true 0x3F800000 0x3C03126F
    = Returned fs_empty.
Proof.
  assert (Hu : unusable fb_unmapped 4 1) by (right; left; reflexivity).
  split; [exact Hu|].
  apply (saveFrame_drops_unusable_frame 64 fs_empty fb_unmapped 4 1 "RGGB" "out" 0
           true 0x3F800000 0x3C03126F); try lia; [vm_compute; reflexivity|exact Hu].
Defined.
